(** * beatwatch-process: the file parser and the period selector

    A shallow embedding of [beatwatch_process/parsers.py] and of the
    properties its specification states about it.

    Conventions of the embedding.
    - Text is a [string] whose characters are code points below 256.
    - A Python object that comes out of [json.loads], out of [csv.reader]
      or out of [round] is a [pyobj]; a cell of a data frame is a [value].
    - Timestamps and durations are integers of nanoseconds, as the data
      frame library stores them; a timestamp keeps its time zone name.
    - [print] is a log of [diag] messages; an exception is a [Raise].
    - Functions of the libraries whose behaviour depends on the library
      version (the column casts, the date parser on anything but an
      integer, the JSON decoder) are parameters of the [Parser] section. *)

From Stdlib Require Import ZArith List Ascii String Floats Sorted.
From stdpp Require Import gmap strings list.

Set Warnings "-inexact-float,-register-all".
Open Scope string_scope.
Open Scope list_scope.
Open Scope Z_scope.

(** ** Exceptions and Python objects *)

Inductive exn :=
  | KeyError (key : string)
  | AttributeError
  | TypeError
  | ValueError
  | IndexError
  | OverflowError
  | CsvError
  | JSONDecodeError
  | CastError       (* what a failed cast raises *)
  | FileNotFoundError
  | OSError.

Inductive result (A : Type) :=
  | Ok (a : A)
  | Raise (e : exn).
Arguments Ok {A} a.
Arguments Raise {A} e.

(** Python objects: what [json.loads] builds, and the [str] and [int]
    cells of a csv row.  A [dict] keeps its items in insertion order. *)
Inductive pyobj :=
  | PNone
  | PBool (b : bool)
  | PInt (z : Z)
  | PFloat (repr : string)
  | PStr (s : string)
  | PList (l : list pyobj)
  | PDict (items : list (string * pyobj)).

Definition pydict := list (string * pyobj).

(** ** Strings: the [str] methods the parser calls *)

Module Str.

Definition to_list (s : string) : list ascii := list_ascii_of_string s.
Definition of_list (l : list ascii) : string := string_of_list_ascii l.

(** [c.isspace()] for a code point below 256. *)
Definition isspace (c : ascii) : bool :=
  let n := N_of_ascii c in
  ((9 <=? n) && (n <=? 13) || (28 <=? n) && (n <=? 32)
   || (n =? 133) || (n =? 160))%N.

(** [c.isdecimal()]: the digits [int] reads. *)
Definition isdecimal (c : ascii) : bool :=
  let n := N_of_ascii c in ((48 <=? n) && (n <=? 57))%N.

(** [c.isdigit()]: the decimal digits and the superscripts 1, 2, 3. *)
Definition isdigit (c : ascii) : bool :=
  let n := N_of_ascii c in
  (isdecimal c || (n =? 178) || (n =? 179) || (n =? 185))%N.

Fixpoint lstrip_by (p : ascii -> bool) (l : list ascii) : list ascii :=
  match l with
  | c :: l' => if p c then lstrip_by p l' else l
  | [] => []
  end.

Definition strip_by (p : ascii -> bool) (l : list ascii) : list ascii :=
  rev (lstrip_by p (rev (lstrip_by p l))).

(** [s.strip()] *)
Definition strip (s : string) : string :=
  of_list (strip_by isspace (to_list s)).

(** [s.strip("A")] *)
Definition strip_chars (c : ascii) (s : string) : string :=
  of_list (strip_by (Ascii.eqb c) (to_list s)).

(** [s.startswith(c)] for a one-character prefix. *)
Definition startswith (c : ascii) (s : string) : bool :=
  match s with
  | String c' _ => Ascii.eqb c' c
  | EmptyString => false
  end.

Definition digit_value (c : ascii) : Z := Z.of_N (N_of_ascii c) - 48.

(** The digits of a decimal literal: decimal digits, with single
    underscores between them.  [acc] is the value read so far, [n] the
    number of digits read, [prev_us] whether the previous character was
    an underscore. *)
Fixpoint digits (l : list ascii) (acc : Z) (n : Z) (prev_us : bool)
  : option (Z * Z) :=
  match l with
  | [] => if prev_us then None else Some (acc, n)
  | c :: l' =>
      if isdecimal c then digits l' (10 * acc + digit_value c) (n + 1) false
      else if Ascii.eqb c "_" then
        if prev_us || (n =? 0) then None else digits l' acc n true
      else None
  end.

Definition max_str_digits : Z := 4300.

Definition unsigned (l : list ascii) : option Z :=
  match digits l 0 0 false with
  | Some (v, n) => if (n =? 0) || (max_str_digits <? n) then None else Some v
  | None => None
  end.

(** [int(s)]: [None] stands for [ValueError]. *)
Definition int (s : string) : option Z :=
  match strip_by isspace (to_list s) with
  | c :: l =>
      if Ascii.eqb c "-" then Z.opp <$> unsigned l
      else if Ascii.eqb c "+" then unsigned l
      else unsigned (c :: l)
  | [] => None
  end.

End Str.

(** ** Float arithmetic of the legacy transform

    [int / 10] is the quotient rounded to the nearest binary64 number and
    [round] rounds that number to the nearest integer, both with ties to
    even.  A finite binary64 number is kept as [(m, e)], standing for
    [m * 2^e] with [|m| <= 2^53]. *)

Module Float.

(** [n / d] rounded to the nearest integer, a tie to the even one
    ([0 < d]). *)
Definition round_half_even (n d : Z) : Z :=
  let q := n / d in
  let r := n mod d in
  if 2 * r <? d then q
  else if d <? 2 * r then q + 1
  else if Z.even q then q else q + 1.

(** [z / 10] for an [int] [z]. *)
Definition truediv10 (z : Z) : result (Z * Z) :=
  if z =? 0 then Ok (0, 0)
  else
    let a := Z.abs z in
    let c := Z.log2 a in
    (* 2^k <= a / 10 < 2^(k+1) *)
    let k := if 5 * 2 ^ c <=? 4 * a then c - 3 else c - 4 in
    let e := k - 52 in
    let m :=
      if 0 <=? e then round_half_even a (10 * 2 ^ e)
      else round_half_even (a * 2 ^ (- e)) 10 in
    if (0 <=? e) && (2 ^ 1024 <=? m * 2 ^ e) then Raise OverflowError
    else Ok (Z.sgn z * m, e).

(** [round(x)] *)
Definition round (x : Z * Z) : Z :=
  let '(m, e) := x in
  if 0 <=? e then m * 2 ^ e
  else Z.sgn m * round_half_even (Z.abs m) (2 ^ (- e)).

End Float.

(** [round(z / 10)] *)
Definition round_div10 (z : Z) : result Z :=
  match Float.truediv10 z with
  | Ok x => Ok (Float.round x)
  | Raise e => Raise e
  end.

(** ** The csv reader, default dialect *)

Module Csv.

Inductive state :=
  | START_RECORD
  | START_FIELD
  | IN_FIELD
  | IN_QUOTED_FIELD
  | QUOTE_IN_QUOTED_FIELD
  | EAT_CRNL.

(** The field being read, reversed, and the fields read, reversed. *)
Record reader := Reader {
  st : state;
  field : list ascii;
  fields : list string;
}.

Definition field_limit : Z := 131072.
Definition delimiter : ascii := ",".
Definition quotechar : ascii := "034".

Definition is_newline (c : ascii) : bool :=
  Ascii.eqb c "010" || Ascii.eqb c "013".

Definition save_field (s : state) (r : reader) : reader :=
  Reader s [] (Str.of_list (rev (field r)) :: fields r).

Definition add_char (s : state) (c : ascii) (r : reader) : result reader :=
  if field_limit <=? Z.of_nat (length (field r)) then Raise CsvError
  else Ok (Reader s (c :: field r) (fields r)).

Definition start_field (c : ascii) (r : reader) : result reader :=
  if is_newline c then Ok (save_field EAT_CRNL r)
  else if Ascii.eqb c quotechar then Ok (Reader IN_QUOTED_FIELD (field r) (fields r))
  else if Ascii.eqb c delimiter then Ok (save_field START_FIELD r)
  else add_char IN_FIELD c r.

Definition process_char (c : ascii) (r : reader) : result reader :=
  match st r with
  | START_RECORD =>
      if is_newline c then Ok (Reader EAT_CRNL (field r) (fields r))
      else start_field c r
  | START_FIELD => start_field c r
  | IN_FIELD =>
      if is_newline c then Ok (save_field EAT_CRNL r)
      else if Ascii.eqb c delimiter then Ok (save_field START_FIELD r)
      else add_char IN_FIELD c r
  | IN_QUOTED_FIELD =>
      if Ascii.eqb c quotechar then Ok (Reader QUOTE_IN_QUOTED_FIELD (field r) (fields r))
      else add_char IN_QUOTED_FIELD c r
  | QUOTE_IN_QUOTED_FIELD =>
      if Ascii.eqb c quotechar then add_char IN_QUOTED_FIELD c r
      else if Ascii.eqb c delimiter then Ok (save_field START_FIELD r)
      else if is_newline c then Ok (save_field EAT_CRNL r)
      else add_char IN_FIELD c r
  | EAT_CRNL =>
      if is_newline c then Ok r else Raise CsvError
  end.

(** The end of the only line: an open field is closed, also a quoted
    one that was never closed. *)
Definition end_of_input (r : reader) : list string :=
  match st r with
  | START_RECORD | EAT_CRNL => rev (fields r)
  | START_FIELD | IN_FIELD | IN_QUOTED_FIELD | QUOTE_IN_QUOTED_FIELD =>
      rev (fields (save_field START_RECORD r))
  end.

Fixpoint run (l : list ascii) (r : reader) : result (list string) :=
  match l with
  | [] => Ok (end_of_input r)
  | c :: l' =>
      match process_char c r with
      | Ok r' => run l' r'
      | Raise e => Raise e
      end
  end.

(** [next(csv.reader([line]))] *)
Definition reader_next (line : string) : result (list string) :=
  run (Str.to_list line) (Reader START_RECORD [] []).

End Csv.

(** ** Values, rows and data frames *)

(** A cell of a data frame, and a value of the metadata mapping. *)
Inductive value :=
  | VObj (o : pyobj)                  (* a Python object *)
  | VNA                               (* [pd.NA] *)
  | VNaN                              (* the key a row dict does not have *)
  | VTimedelta (ns : Z)
  | VTimestamp (ns : Z) (tz : string)
  | VNaT.                             (* not-a-time *)

Abbreviation VStr s := (VObj (PStr s)).
Abbreviation VInt z := (VObj (PInt z)).

(** A row maps a column name to its cell. *)
Abbreviation row := (gmap string value).

Record DataFrame := Frame {
  columns : list string;
  rows : list row;
}.

(** [df[c]]: the cell of a row in column [c]. *)
Definition cell (c : string) (r : row) : value := default VNaN (r !! c).

(** [pd.isna], for the cells of the columns it is asked about (strings,
    integers, missing values and time values). *)
Definition isna (v : value) : bool :=
  match v with
  | VNA | VNaN | VNaT | VObj PNone => true
  | _ => false
  end.

(** [len(df.index)] and [df.empty] (a frame here always has columns). *)
Definition n_rows (df : DataFrame) : nat := length (rows df).
Definition empty (df : DataFrame) : bool :=
  match rows df with [] => true | _ => false end.

(** The 64-bit range of a timestamp or a duration; the least 64-bit
    integer is the library's not-a-time. *)
Definition in_time_range (z : Z) : bool := (- 2 ^ 63 <? z) && (z <? 2 ^ 63).

Definition checked (z : Z) : result Z :=
  if in_time_range z then Ok z else Raise OverflowError.

(** Arithmetic on time values: [a + b] and [a - b]. *)
Definition time_add (a b : value) : result value :=
  match a, b with
  | VTimedelta d, VTimestamp t tz | VTimestamp t tz, VTimedelta d =>
      match checked (t + d) with Ok z => Ok (VTimestamp z tz) | Raise e => Raise e end
  | VTimedelta d1, VTimedelta d2 =>
      match checked (d1 + d2) with Ok z => Ok (VTimedelta z) | Raise e => Raise e end
  | VNaT, (VTimedelta _ | VTimestamp _ _ | VNaT)
  | (VTimedelta _ | VTimestamp _ _), VNaT => Ok VNaT
  | _, _ => Raise TypeError
  end.

Definition time_sub (a b : value) : result value :=
  match a, b with
  | VTimestamp t tz, VTimedelta d =>
      match checked (t - d) with Ok z => Ok (VTimestamp z tz) | Raise e => Raise e end
  | VTimestamp t1 _, VTimestamp t2 _ =>
      match checked (t1 - t2) with Ok z => Ok (VTimedelta z) | Raise e => Raise e end
  | VTimedelta d1, VTimedelta d2 =>
      match checked (d1 - d2) with Ok z => Ok (VTimedelta z) | Raise e => Raise e end
  | VNaT, (VTimedelta _ | VTimestamp _ _ | VNaT)
  | (VTimedelta _ | VTimestamp _ _), VNaT => Ok VNaT
  | _, _ => Raise TypeError
  end.

(** [a <= b] on time values: a comparison with not-a-time is false, one
    between a timestamp and a duration raises. *)
Definition time_le (a b : value) : result bool :=
  match a, b with
  | VTimestamp t1 _, VTimestamp t2 _ => Ok (t1 <=? t2)
  | VTimedelta d1, VTimedelta d2 => Ok (d1 <=? d2)
  | VNaT, (VTimedelta _ | VTimestamp _ _ | VNaT)
  | (VTimedelta _ | VTimestamp _ _), VNaT => Ok false
  | _, _ => Raise TypeError
  end.

Definition time_lt (a b : value) : result bool :=
  match a, b with
  | VTimestamp t1 _, VTimestamp t2 _ => Ok (t1 <? t2)
  | VTimedelta d1, VTimedelta d2 => Ok (d1 <? d2)
  | VNaT, (VTimedelta _ | VTimestamp _ _ | VNaT)
  | (VTimedelta _ | VTimestamp _ _), VNaT => Ok false
  | _, _ => Raise TypeError
  end.

(** [series.max()] and [series.min()] of a column of time values: missing
    values are skipped, and the result of an empty column is not-a-time. *)
Fixpoint series_max (vs : list value) : result value :=
  match vs with
  | [] => Ok VNaT
  | v :: vs' =>
      match series_max vs' with
      | Ok m =>
          if isna v then Ok m
          else if isna m then Ok v
          else match time_lt v m with
               | Ok b => Ok (if b then m else v)
               | Raise e => Raise e
               end
      | Raise e => Raise e
      end
  end.

Fixpoint series_min (vs : list value) : result value :=
  match vs with
  | [] => Ok VNaT
  | v :: vs' =>
      match series_min vs' with
      | Ok m =>
          if isna v then Ok m
          else if isna m then Ok v
          else match time_lt m v with
               | Ok b => Ok (if b then m else v)
               | Raise e => Raise e
               end
      | Raise e => Raise e
      end
  end.

(** ** Diagnostics and the effect monad *)

(** The messages the code prints. *)
Inductive diag :=
  | Reading                                 (* Reading <file> *)
  | ErrorReadingLine (n : nat)              (* Error reading line <n> *)
  | BadAccelRow (r : list pyobj)            (* Bad accel row: <row> *)
  | BadHrRow (r : list pyobj)               (* Bad hr row: <row> *)
  | UnknownData (r : list pyobj)            (* Unknown data: <row> *)
  | FileNotFound                            (* File <file> not found *)
  | Error (e : exn)                         (* Error: <e> *)
  | DroppedRows (n : nat)                   (* WARN: Dropped <n> rows ... *)
  | UnknownObject (o : pydict)              (* Unknown object: <o> *)
  | NoMetadata                              (* No metadata *)
  | NoStartTimestamp (e : exn)              (* Could not find valid start ... *)
  | IgnoringDuration (d : value)            (* Warning: Ignoring duration *)
  | SelectingPeriod (t1 t2 : value)         (* Selecting period from ... *)
  | StartOutOfRange (df_max : value)        (* Warning: Start time is out ... *)
  | EndOutOfRange (df_min : value)          (* Warning: End time is out ... *)
  | Samples (name : string) (n : nat).      (* DataFrame <name> -> <n> samples *)

(** A computation prints messages and returns or raises. *)
Definition M (A : Type) : Type := list diag * result A.

Definition ret {A} (a : A) : M A := ([], Ok a).
Definition raise {A} (e : exn) : M A := ([], Raise e).
Definition print (d : diag) : M unit := ([d], Ok tt).
Definition lift {A} (r : result A) : M A := ([], r).

Definition bind {A B} (m : M A) (f : A -> M B) : M B :=
  match m with
  | (l, Ok a) => let '(l', r) := f a in (l ++ l', r)
  | (l, Raise e) => (l, Raise e)
  end.

Notation "x <- m ;; k" := (bind m (fun x => k))
  (at level 20, m at level 99, k at level 200, only parsing).
Notation "m ;; k" := (bind m (fun _ => k))
  (at level 100, k at level 200, right associativity, only parsing).

Fixpoint mapM {A B} (f : A -> result B) (l : list A) : result (list B) :=
  match l with
  | [] => Ok []
  | a :: l' =>
      match f a with
      | Ok b =>
          match mapM f l' with
          | Ok bs => Ok (b :: bs)
          | Raise e => Raise e
          end
      | Raise e => Raise e
      end
  end.

(** ** Dictionaries *)

(** [d[k]] of a decoded object: the last item with the key (keys of a
    [dict] are distinct). *)
Fixpoint dict_get (k : string) (items : pydict) : option pyobj :=
  match items with
  | [] => None
  | (k', v) :: rest =>
      match dict_get k rest with
      | Some v' => Some v'
      | None => if String.eqb k k' then Some v else None
      end
  end.

(** [k in d] *)
Definition dict_has (k : string) (items : pydict) : bool :=
  match dict_get k items with Some _ => true | None => false end.

(** [o.items()] of an object that should be a [dict]. *)
Definition items_of (o : pyobj) : result pydict :=
  match o with
  | PDict items => Ok items
  | _ => Raise AttributeError
  end.

(** [o[k]] of an object that should be a [dict]. *)
Definition subscript (o : pyobj) (k : string) : result pyobj :=
  match o with
  | PDict items =>
      match dict_get k items with
      | Some v => Ok v
      | None => Raise (KeyError k)
      end
  | _ => Raise TypeError
  end.

(** [o == s] for a string [s]. *)
Definition eq_str (o : pyobj) (s : string) : bool :=
  match o with
  | PStr s' => String.eqb s' s
  | _ => false
  end.

(** The metadata mapping, and [for k, v in items: meta[prefix + k] = v]. *)
Abbreviation metadata := (gmap string value).

Definition copy_items (prefix : string) (items : pydict) (meta : metadata)
  : metadata :=
  fold_left (fun m kv => <[prefix +:+ kv.1 := VObj kv.2]> m) items meta.

(** The keys of [m] are keys of [m']. *)
Definition keeps_keys (m m' : metadata) : Prop :=
  forall k, is_Some (m !! k) -> is_Some (m' !! k).

(** The value returned for a file: the metadata mapping and the tables
    that are not empty, by key. *)
Inductive entry :=
  | Mapping (m : metadata)
  | Table (df : DataFrame).

Abbreviation FileData := (gmap string entry).

(** What [open] and the iteration over the file give: the exception of
    [open], or the lines read and the exception that ends the reading
    early, if there is one. *)
Inductive file :=
  | Unreadable (e : exn)
  | Lines (ls : list string) (failure : option exn).

(** The three collections [parse_file] fills while it reads. *)
Record batches := Batches {
  json_objs : list (nat * pydict);
  rows_hr : list (list pyobj);
  rows_accel : list (list pyobj);
}.

(** ** Frame operations *)

(** [pd.DataFrame(rows, columns=cols)] for rows that are lists: the
    longest row has to have as many cells as there are columns; the
    cells a shorter row does not have are missing. *)
Definition row_of_list (cols : list string) (cells : list pyobj) : row :=
  list_to_map (zip cols (VObj <$> cells)).

Definition new_frame (rs : list (list pyobj)) (cols : list string)
  : result DataFrame :=
  match rs with
  | [] => Ok (Frame cols [])
  | _ =>
      if Nat.eqb (max_list (length <$> rs)) (length cols)
      then Ok (Frame cols (row_of_list cols <$> rs))
      else Raise ValueError
  end.

(** [pd.DataFrame(rows, columns=cols)] for rows that are dicts. *)
Definition row_of_dict (cols : list string) (o : pydict) : row :=
  list_to_map
    (omap (fun c => match dict_get c o with
                    | Some v => Some (c, VObj v)
                    | None => None
                    end) cols).

(** [df.replace("", pd.NA)] *)
Definition replace_cell (v : value) : value :=
  match v with
  | VStr EmptyString => VNA
  | _ => v
  end.

Definition replace_empty (df : DataFrame) : DataFrame :=
  Frame (columns df) ((fun r : row => replace_cell <$> r) <$> rows df).

(** [df.dropna()] *)
Definition has_na (cols : list string) (r : row) : bool :=
  existsb (fun c => isna (cell c r)) cols.

Definition dropna (df : DataFrame) : DataFrame :=
  Frame (columns df) (List.filter (fun r => negb (has_na (columns df) r)) (rows df)).

(** [df[c]] and [df[c] = series] *)
Definition get_col (c : string) (df : DataFrame) : result (list value) :=
  if bool_decide (c ∈ columns df) then Ok (cell c <$> rows df)
  else Raise (KeyError c).

Definition set_col (c : string) (vs : list value) (df : DataFrame) : DataFrame :=
  Frame (if bool_decide (c ∈ columns df) then columns df else columns df ++ [c])
        (zip_with (fun (r : row) v => <[c := v]> r) (rows df) vs).

(** [df.drop(columns=c)] *)
Definition drop_col (c : string) (df : DataFrame) : result DataFrame :=
  if bool_decide (c ∈ columns df)
  then Ok (Frame (List.filter (fun c' => negb (String.eqb c' c)) (columns df))
                 (delete c <$> rows df))
  else Raise (KeyError c).

(** [pd.to_timedelta(v, unit="ms")] of an integer cell. *)
Definition to_timedelta_ms (v : value) : result value :=
  match v with
  | VInt z =>
      match checked (z * 1000000) with
      | Ok ns => Ok (VTimedelta ns)
      | Raise e => Raise e
      end
  | _ => Raise TypeError
  end.

(** ** The parser *)

Definition cols_hr : list (string * string) :=
  [("time_elapsed", "int64"); ("heart_rate_bpm", "int16");
   ("confidence", "UInt8"); ("ppg_raw", "int32"); ("ppg_filter", "int32")].

Definition cols_accel : list (string * string) :=
  [("time_elapsed", "int64"); ("x", "int32"); ("y", "int32"); ("z", "int32");
   ("magnitude", "int32"); ("difference", "int32")].

Definition cols_survey : list (string * string) :=
  [("number", "int64"); ("item", "int64"); ("timeStamp", "float64");
   ("question", "category"); ("input", "category"); ("range", "object");
   ("response", "object"); ("time_elapsed", "int64")].

Definition is_int_dtype (d : string) : bool :=
  bool_decide (d ∈ ["int64"; "int32"; "int16"; "UInt8"]).

(** [update_metadata]: the items of the new mapping, in their order. *)
Definition update_metadata (original_metadata : metadata)
  (new_metadata : list (string * value)) : metadata :=
  fold_left (fun m kv => <[kv.1 := kv.2]> m) new_metadata original_metadata.

(** The [update] mapping of [parse_file]. *)
Definition summary (df_hr df_accel df_survey : DataFrame)
  (duration_hr duration_accel : value) : list (string * value) :=
  [("n_samples_hr", VInt (Z.of_nat (n_rows df_hr)));
   ("n_samples_accel", VInt (Z.of_nat (n_rows df_accel)));
   ("n_survey_responses", VInt (Z.of_nat (n_rows df_survey)));
   ("duration_hr", duration_hr);
   ("duration_accel", duration_accel)].

(** The summary keys, and the keys the summary leaves alone. *)
Definition summary_keys : list string :=
  ["n_samples_hr"; "n_samples_accel"; "n_survey_responses"; "duration_hr";
   "duration_accel"].

(** The [FileData] structure of [parse_file]: the metadata, and each
    table that is not empty. *)
Definition file_data (meta : metadata) (df_hr df_accel df_survey : DataFrame)
  : FileData :=
  fold_left
    (fun (fd : FileData) (kv : string * DataFrame) =>
       if negb (empty kv.2) then <[kv.1 := Table kv.2]> fd else fd)
    [("data_hr", df_hr); ("data_accel", df_accel); ("data_survey", df_survey)]
    {["metadata" := Mapping meta]}.

(** The entry of the returned structure under a table key, for a table
    of [n] rows: no entry when the table is empty, the table otherwise. *)
Definition table_entry (fd : FileData) (key : string) (n : nat) : Prop :=
  match fd !! key with
  | None => n = 0%nat
  | Some (Table df) => n_rows df = n /\ n <> 0%nat
  | Some (Mapping _) => False
  end.

Section Parser.

(** [get_utc_now()] at the time of the call. *)
Variable now : string.
(** [json.loads] of a line that starts with a brace: the decoded object,
    or the exception. *)
Variable json_loads : string -> result pydict.
(** The library's cast of one cell to an integer dtype, and to a dtype
    that is not one; [None] when the cast raises. *)
Variable astype_int : string -> value -> option Z.
Variable astype_obj : string -> value -> option value.
(** [pd.to_datetime(v, unit="ms", utc=True)] of one cell: the instant in
    nanoseconds, [None] for not-a-time.  [to_datetime_other] is
    [pd.to_datetime(v, utc=True)], with the [tz_convert] that follows it,
    for a value that is not an integer in the 64-bit range.  It gives
    one instant: a JSON array, of which the library makes an index of
    instants, is outside it ([scalar_start] below excludes it). *)
Variable to_datetime_ms : value -> result (option Z).
Variable to_datetime_other : value -> result (option Z).
(** [self.timezone] *)
Variable timezone : string.

(** [pd.to_datetime(v, utc=True)]: an integer is a count of
    nanoseconds since the epoch. *)
Definition to_datetime (v : value) : result (option Z) :=
  match v with
  | VInt n => if in_time_range n then Ok (Some n) else to_datetime_other v
  | _ => to_datetime_other v
  end.

(** [t.tz_convert(self.timezone)] *)
Definition tz_convert (t : option Z) : value :=
  match t with
  | Some ns => VTimestamp ns timezone
  | None => VNaT
  end.

(** [df.astype(cols)], cell by cell. *)
Definition astype_cell (d : string) (v : value) : result value :=
  if is_int_dtype d then
    match astype_int d v with
    | Some z => Ok (VInt z)
    | None => Raise CastError
    end
  else
    match astype_obj d v with
    | Some v' => Ok v'
    | None => Raise CastError
    end.

Fixpoint astype_row (cols : list (string * string)) (r : row) : result row :=
  match cols with
  | [] => Ok r
  | (c, d) :: cols' =>
      match astype_cell d (cell c r) with
      | Ok v => astype_row cols' (<[c := v]> r)
      | Raise e => Raise e
      end
  end.

Definition astype (cols : list (string * string)) (df : DataFrame)
  : result DataFrame :=
  match mapM (astype_row cols) (rows df) with
  | Ok rs => Ok (Frame (columns df) rs)
  | Raise e => Raise e
  end.

(** [df[c] = f(df[c])] for a function of one cell. *)
Definition map_col (f : value -> result value) (c : string) (df : DataFrame)
  : result DataFrame :=
  match get_col c df with
  | Ok vs =>
      match mapM f vs with
      | Ok vs' => Ok (set_col c vs' df)
      | Raise e => Raise e
      end
  | Raise e => Raise e
  end.

Definition timedelta_cols : list string := ["time_elapsed"].

Fixpoint to_timedelta_cols (cs : list string) (df : DataFrame)
  : result DataFrame :=
  match cs with
  | [] => Ok df
  | c :: cs' =>
      match map_col to_timedelta_ms c df with
      | Ok df' => to_timedelta_cols cs' df'
      | Raise e => Raise e
      end
  end.

Definition _dataframe_from_list (rs : list (list pyobj))
  (cols : list (string * string)) : M DataFrame :=
  df_out <- lift (new_frame rs cols.*1) ;;
  let n_df_full := n_rows df_out in
  let df_out := replace_empty df_out in
  let df_out := dropna df_out in
  let n_df_na := n_rows df_out in
  let n_dropped := (n_df_full - n_df_na)%nat in
  (if (0 <? n_dropped)%nat then print (DroppedRows n_dropped) else ret tt) ;;
  df_out <- lift (astype cols df_out) ;;
  lift (to_timedelta_cols timedelta_cols df_out).

Definition _get_start_timestamp (meta : metadata) : M value :=
  match meta !! "start_UNIXTimeStamp" with
  | None =>
      print (NoStartTimestamp (KeyError "start_UNIXTimeStamp")) ;; ret VNaT
  | Some v =>
      match to_datetime v with
      | Ok t => ret (tz_convert t)
      | Raise e => print (NoStartTimestamp e) ;; ret VNaT
      end
  end.

(** The value [_get_start_timestamp] returns: it never raises. *)
Definition record_start_timestamp (meta : metadata) : value :=
  match (_get_start_timestamp meta).2 with
  | Ok v => v
  | Raise _ => VNaT
  end.

Definition _process_absolute_timestamps (meta : metadata) (df : DataFrame)
  : M DataFrame :=
  elapsed <- lift (get_col "time_elapsed" df) ;;
  start <- _get_start_timestamp meta ;;
  absolute <- lift (mapM (fun te => time_add te start) elapsed) ;;
  ret (set_col "time_absolute" absolute df).

(** One object of [json_objs]: the metadata and the survey rows after
    it. *)
Definition process_json_obj (o : pydict) (st : metadata * list pydict)
  : M (metadata * list pydict) :=
  let '(meta_out, rows_survey) := st in
  if dict_has "File" o then
    file_info <- lift (subscript (PDict o) "File") ;;
    items <- lift (items_of file_info) ;;
    ret (copy_items "" items meta_out, rows_survey)
  else if dict_has "Status" o then
    status <- lift (subscript (PDict o) "Status") ;;
    items <- lift (items_of status) ;;
    let meta_out := copy_items "status_" items meta_out in
    state <- lift (subscript status "state") ;;
    if eq_str state "START_RECORD" then
      record <- lift (subscript (PDict o) "Record") ;;
      items <- lift (items_of record) ;;
      ret (copy_items "start_" items meta_out, rows_survey)
    else if eq_str state "STOP_RECORD" then
      record <- lift (subscript (PDict o) "Record") ;;
      items <- lift (items_of record) ;;
      ret (copy_items "stop_" items meta_out, rows_survey)
    else ret (meta_out, rows_survey)
  else if dict_has "Record" o then
    record <- lift (subscript (PDict o) "Record") ;;
    state <- lift (subscript record "State") ;;
    if eq_str state "START_RECORD" then
      items <- lift (items_of record) ;;
      ret (copy_items "start_" items meta_out, rows_survey)
    else if eq_str state "STOP_RECORD" then
      items <- lift (items_of record) ;;
      ret (copy_items "stop_" items meta_out, rows_survey)
    else ret (meta_out, rows_survey)
  else if dict_has "question" o then
    ret (meta_out, rows_survey ++ [o])
  else
    print (UnknownObject o) ;; ret (meta_out, rows_survey).

Fixpoint process_json_list (objs : list (nat * pydict))
  (st : metadata * list pydict) : M (metadata * list pydict) :=
  match objs with
  | [] => ret st
  | (_, o) :: objs' =>
      st' <- process_json_obj o st ;;
      process_json_list objs' st'
  end.

Definition meta_baseline : metadata :=
  <["StudyInstance" := VStr "NA"]>
    (<["StudyName" := VStr "NA"]> (<["Parsed_on" := VStr now]> ∅)).

(** The survey frame of [_process_json_objs]. *)
Definition survey_frame (rows_survey : list pydict) (meta_out : metadata)
  : M DataFrame :=
  let df_out := Frame cols_survey.*1 (row_of_dict cols_survey.*1 <$> rows_survey) in
  let df_out := set_col "time_elapsed" ((fun _ => VInt 0) <$> rows df_out) df_out in
  df_out <- lift (astype cols_survey df_out) ;;
  stamps <- lift (get_col "timeStamp" df_out) ;;
  absolute <- lift (mapM (fun v => match to_datetime_ms v with
                                   | Ok t => Ok (tz_convert t)
                                   | Raise e => Raise e
                                   end) stamps) ;;
  let df_out := set_col "time_absolute" absolute df_out in
  start <- _get_start_timestamp meta_out ;;
  elapsed <- lift (mapM (fun ta => time_sub ta start) absolute) ;;
  let df_out := set_col "time_elapsed" elapsed df_out in
  lift (drop_col "timeStamp" df_out).

Definition _process_json_objs (objs : list (nat * pydict))
  : M (metadata * DataFrame) :=
  st <- (match objs with
         | [] => print NoMetadata ;; ret (meta_baseline, [])
         | _ => process_json_list objs (meta_baseline, [])
         end) ;;
  df_out <- survey_frame st.2 st.1 ;;
  ret (st.1, df_out).

(** *** Reading the file *)

(** [row[0][0]] *)
Definition first_char (s : string) : result ascii :=
  match s with
  | String c _ => Ok c
  | EmptyString => Raise IndexError
  end.

(** The legacy transform of a heart rate row:
    [row[1] = round(int(row[1]) / 10)]. *)
Definition legacy_transform (r : list string) : result (list pyobj) :=
  match r !! 1%nat with
  | Some s =>
      match Str.int s with
      | Some z =>
          match round_div10 z with
          | Ok z' => Ok (<[1%nat := PInt z']> (PStr <$> r))
          | Raise e => Raise e
          end
      | None => Raise ValueError
      end
  | None => Raise IndexError
  end.

(** The body of the loop over the lines, for line [n]. *)
Definition process_line (version : float) (n : nat) (raw_line : string)
  (b : batches) : M batches :=
  let line := Str.strip raw_line in
  match line with
  | EmptyString => ret b
  | String c0 _ =>
      if Ascii.eqb c0 "{" then
        match json_loads line with
        | Ok o => ret (Batches (json_objs b ++ [(n, o)]) (rows_hr b) (rows_accel b))
        | Raise JSONDecodeError => print (ErrorReadingLine n) ;; ret b
        | Raise e => raise e
        end
      else
        r <- lift (Csv.reader_next line) ;;
        match r with
        | [] => ret b
        | f0 :: fs =>
            if Str.startswith "A" f0 && Nat.eqb (length r) (length cols_accel) then
              let r' := PStr (Str.strip_chars "A" f0) :: (PStr <$> fs) in
              ret (Batches (json_objs b) (rows_hr b) (rows_accel b ++ [r']))
            else if Str.startswith "A" f0 && negb (Nat.eqb (length r) (length cols_accel)) then
              print (BadAccelRow (PStr <$> r)) ;; ret b
            else
              c <- lift (first_char f0) ;;
              if Str.isdigit c && Nat.eqb (length r) (length cols_hr) then
                r' <- lift (if PrimFloat.ltb version 0.2
                            then legacy_transform r
                            else Ok (PStr <$> r)) ;;
                ret (Batches (json_objs b) (rows_hr b ++ [r']) (rows_accel b))
              else if Str.isdigit c && negb (Nat.eqb (length r) (length cols_hr)) then
                print (BadHrRow (PStr <$> r)) ;; ret b
              else
                print (UnknownData (PStr <$> r)) ;; ret b
        end
  end.

(** The loop: the lines from number [n] on.  An exception ends it and
    leaves the collections as they were before the line that raised. *)
Fixpoint read_lines (version : float) (n : nat) (ls : list string)
  (b : batches) : list diag * batches * option exn :=
  match ls with
  | [] => ([], b, None)
  | raw_line :: ls' =>
      match process_line version n raw_line b with
      | (l, Ok b') =>
          let '(l', b'', e) := read_lines version (S n) ls' b' in
          (l ++ l', b'', e)
      | (l, Raise e) => (l, b, Some e)
      end
  end.

(** The two [except] clauses of [parse_file]. *)
Definition on_exception (e : exn) : diag :=
  match e with
  | FileNotFoundError => FileNotFound
  | _ => Error e
  end.

(** The [try] statement of [parse_file]: it never raises. *)
Definition read_file (f : file) (version : float) : list diag * batches :=
  let b0 := Batches [] [] [] in
  match f with
  | Unreadable e => ([on_exception e], b0)
  | Lines ls failure =>
      let '(l, b, e) := read_lines version 0 ls b0 in
      match e, failure with
      | Some e, _ | None, Some e => (Reading :: l ++ [on_exception e], b)
      | None, None => (Reading :: l, b)
      end
  end.

Definition parse_file (f : file) (version : float) : M FileData :=
  b <- (let '(l, b) := read_file f version in (l, Ok b)) ;;
  df_hr <- _dataframe_from_list (rows_hr b) cols_hr ;;
  df_accel <- _dataframe_from_list (rows_accel b) cols_accel ;;
  ms <- _process_json_objs (json_objs b) ;;
  let '(meta, df_survey) := ms in
  df_hr <- _process_absolute_timestamps meta df_hr ;;
  df_accel <- _process_absolute_timestamps meta df_accel ;;
  elapsed_hr <- lift (get_col "time_elapsed" df_hr) ;;
  duration_hr <- lift (series_max elapsed_hr) ;;
  elapsed_accel <- lift (get_col "time_elapsed" df_accel) ;;
  duration_accel <- lift (series_max elapsed_accel) ;;
  let update := summary df_hr df_accel df_survey duration_hr duration_accel in
  let meta := update_metadata meta update in
  ret (file_data meta df_hr df_accel df_survey).

End Parser.

(** ** Rows of a batch and rows of a table *)

(** A cell of a row that [parse_file] collects is a csv field or the
    integer of the legacy transform. *)
Definition is_csv_cell (o : pyobj) : bool :=
  match o with
  | PStr _ | PInt _ => true
  | _ => false
  end.

Definition is_empty_str (o : pyobj) : bool :=
  match o with
  | PStr EmptyString => true
  | _ => false
  end.

(** The row has an empty field. *)
Definition has_empty (r : list pyobj) : bool := existsb is_empty_str r.

(** The row [r] of a table is the row [src] of the batch: each cell is
    the source cell cast to the dtype of its column, and the
    [time_elapsed] cell is that count of milliseconds as a duration. *)
Definition typed_cell (astype_int : string -> value -> option Z)
  (col : string * string) (o : pyobj) (v : value) : Prop :=
  exists z, astype_int col.2 (VObj o) = Some z
            /\ v = if String.eqb col.1 "time_elapsed"
                   then VTimedelta (z * 1000000) else VInt z.

Definition present (astype_int : string -> value -> option Z)
  (cols : list (string * string)) (src : list pyobj) (r : row) : Prop :=
  Forall2 (fun col o => typed_cell astype_int col o (cell col.1 r)) cols src.

Definition batch_rows_wf (cols : list (string * string)) (rs : list (list pyobj))
  : Prop :=
  Forall (fun r => length r = length cols /\ forallb is_csv_cell r = true) rs.

Definition batches_wf (b : batches) : Prop :=
  batch_rows_wf cols_hr (rows_hr b) /\ batch_rows_wf cols_accel (rows_accel b).

(** The line made [parse_file] collect a heart rate row. *)
Definition accepts_hr_row (b b' : batches) (r' : list pyobj) : Prop :=
  rows_hr b' = rows_hr b ++ [r'] /\ rows_accel b' = rows_accel b
  /\ json_objs b' = json_objs b.

(** ** Clean input

    What [parse_file] needs of the rows and objects it collected in order
    to return. *)

Section Clean.

Variable now : string.
Variable json_loads : string -> result pydict.
Variable astype_int : string -> value -> option Z.
Variable astype_obj : string -> value -> option value.
Variable to_datetime_ms : value -> result (option Z).
Variable to_datetime_other : value -> result (option Z).
Variable timezone : string.

Definition is_Ok {A} (r : result A) : bool :=
  match r with Ok _ => true | Raise _ => false end.

(** A duration of [ms] milliseconds and its sum with the start are in
    the 64-bit range. *)
Definition elapsed_ok (start : value) (ms : Z) : bool :=
  in_time_range (ms * 1000000)
  && is_Ok (time_add (VTimedelta (ms * 1000000)) start).

(** The cell casts to the dtype of its column. *)
Definition castable_cell (start : value) (col : string * string) (o : pyobj)
  : bool :=
  match astype_int col.2 (VObj o) with
  | Some z => negb (String.eqb col.1 "time_elapsed") || elapsed_ok start z
  | None => false
  end.

(** The row has an empty field, and is dropped, or each of its cells
    casts. *)
Definition castable (start : value) (cols : list (string * string))
  (r : list pyobj) : bool :=
  has_empty r || forallb (fun co => castable_cell start co.1 co.2) (zip cols r).

Definition is_dict (o : pyobj) : bool :=
  match o with PDict _ => true | _ => false end.

(** The object has what [_process_json_objs] reads of it. *)
Definition well_shaped (o : pydict) : bool :=
  match dict_get "File" o with
  | Some file_info => is_dict file_info
  | None =>
      match dict_get "Status" o with
      | Some (PDict status) =>
          match dict_get "state" status with
          | Some state =>
              if eq_str state "START_RECORD" || eq_str state "STOP_RECORD"
              then match dict_get "Record" o with
                   | Some record => is_dict record
                   | None => false
                   end
              else true
          | None => false
          end
      | Some _ => false
      | None =>
          match dict_get "Record" o with
          | Some (PDict record) => dict_has "State" record
          | Some _ => false
          | None => true
          end
      end
  end.

(** The object is a survey response. *)
Definition is_survey (o : pydict) : bool :=
  negb (dict_has "File" o) && negb (dict_has "Status" o)
  && negb (dict_has "Record" o) && dict_has "question" o.

(** The metadata of the objects of a file. *)
Definition reconciled (objs : list (nat * pydict)) : metadata :=
  match (process_json_list objs (meta_baseline now, [])).2 with
  | Ok st => st.1
  | Raise _ => meta_baseline now
  end.

(** The survey response casts to the survey schema, its time stamp
    converts, and its time since the start is in the 64-bit range. *)
Definition survey_ok (start : value) (o : pydict) : bool :=
  match astype_row astype_int astype_obj cols_survey
          (<["time_elapsed" := VInt 0]> (row_of_dict cols_survey.*1 o)) with
  | Ok r =>
      match to_datetime_ms (cell "timeStamp" r) with
      | Ok t => is_Ok (time_sub (tz_convert timezone t) start)
      | Raise _ => false
      end
  | Raise _ => false
  end.

(** The start of the record, when the metadata has one, is one JSON
    value and no array.  Of an array [pd.to_datetime] makes an index of
    timestamps, one for each element, and a column plus or minus an
    index is not a column plus or minus one timestamp: it raises when
    the lengths differ. *)
Definition scalar_start (meta : metadata) : bool :=
  match meta !! "start_UNIXTimeStamp" with
  | Some (VObj (PList _)) => false
  | _ => true
  end.

(** What was read of the file casts and has the shapes read, and the
    start of the record is no array. *)
Definition clean (f : file) (version : float) : bool :=
  let b := (read_file json_loads f version).2 in
  let start := record_start_timestamp to_datetime_other timezone
                 (reconciled (json_objs b)) in
  forallb well_shaped (json_objs b).*2
  && forallb (castable start cols_hr) (rows_hr b)
  && forallb (castable start cols_accel) (rows_accel b)
  && forallb (survey_ok start) (List.filter is_survey (json_objs b).*2)
  && scalar_start (reconciled (json_objs b)).

(** *** The messages of clean input *)

(** The object is none of those [_process_json_objs] reads. *)
Definition is_unknown (o : pydict) : bool :=
  negb (dict_has "File" o) && negb (dict_has "Status" o)
  && negb (dict_has "Record" o) && negb (dict_has "question" o).

(** The warning of [_dataframe_from_list] for a batch: the number of
    its rows that have an empty field, when there is one. *)
Definition dropped_warning (rs : list (list pyobj)) : list diag :=
  let n := length (List.filter has_empty rs) in
  if (0 <? n)%nat then [DroppedRows n] else [].

(** The messages of the loop of [_process_json_objs]. *)
Definition object_messages (objs : list (nat * pydict)) : list diag :=
  match objs with
  | [] => [NoMetadata]
  | _ => UnknownObject <$> List.filter is_unknown objs.*2
  end.

(** What a call of [_get_start_timestamp] prints. *)
Definition start_message (meta : metadata) : list diag :=
  (_get_start_timestamp to_datetime_other timezone meta).1.

(** What [parse_file] prints after the reading: the messages of the
    two conversions, of the objects, and of the start of the record,
    which is read for the survey table and for each of the two
    back-fills. *)
Definition messages_after_reading (b : batches) : list diag :=
  let start := start_message (reconciled (json_objs b)) in
  dropped_warning (rows_hr b) ++ dropped_warning (rows_accel b)
  ++ object_messages (json_objs b) ++ start ++ start ++ start.

(** The exception that reaches the [except] clauses of [parse_file],
    if one does. *)
Definition reading_exception (f : file) (version : float) : option exn :=
  match f with
  | Unreadable e => Some e
  | Lines ls failure =>
      match (read_lines json_loads version 0 ls (Batches [] [] [])).2 with
      | Some e => Some e
      | None => failure
      end
  end.

End Clean.

(** ** The period selector *)

(** The objects [select_period] is handed live in a heap: a reference is
    an index in it, and an object is created at the end of it. *)
Inductive object :=
  | ODataFrame (df : DataFrame)
  | OFileData (items : list (string * nat))   (* key, reference to the entry *)
  | OMapping (m : metadata).

Abbreviation heap := (list object).

Definition alloc (o : object) (h : heap) : heap * nat := (h ++ [o], length h).

(** A time argument of [select_period]; [None] is Python's [None]. *)
Inductive timearg :=
  | Timestamp (ns : Z) (tz : string)
  | Timedelta (ns : Z).

Definition value_of (t : timearg) : value :=
  match t with
  | Timestamp ns tz => VTimestamp ns tz
  | Timedelta ns => VTimedelta ns
  end.

(** The truth value of an argument in [if time_start and time_end]:
    [None] is false and so is a duration of zero. *)
Definition truthy (t : option timearg) : bool :=
  match t with
  | None => false
  | Some (Timestamp _ _) => true
  | Some (Timedelta ns) => negb (ns =? 0)
  end.

(** The bounds: how many arguments count as given. *)
Definition given (t : option timearg) : bool :=
  match t with Some _ => true | None => false end.

(** The number of [true] in a list. *)
Definition count_true (bs : list bool) : nat := length (List.filter id bs).

(** The argument as a value. *)
Definition arg_value (t : option timearg) : value :=
  match t with
  | Some t => value_of t
  | None => VObj PNone
  end.

(** The bounds [t1] and [t2]. *)
Definition window (time_start time_end duration : option timearg)
  : M (value * value) :=
  if truthy time_start && truthy time_end then
    (if truthy duration then print (IgnoringDuration (arg_value duration))
     else ret tt) ;;
    ret (arg_value time_start, arg_value time_end)
  else if truthy time_start && truthy duration then
    t2 <- lift (time_add (arg_value time_start) (arg_value duration)) ;;
    ret (arg_value time_start, t2)
  else if truthy time_end && truthy duration then
    t1 <- lift (time_sub (arg_value time_end) (arg_value duration)) ;;
    ret (t1, arg_value time_end)
  else raise ValueError.

Section Select.

Variables t1 t2 : value.
Variable time_column_name : string.

(** [(column >= t1) & (column <= t2)] for one cell. *)
Definition in_window (v : value) : result bool :=
  match time_le t1 v with
  | Ok a =>
      match time_le v t2 with
      | Ok b => Ok (a && b)
      | Raise e => Raise e
      end
  | Raise e => Raise e
  end.

Fixpoint loc_mask (rs : list row) (mask : list bool) : list row :=
  match rs, mask with
  | r :: rs', b :: mask' => if b then r :: loc_mask rs' mask' else loc_mask rs' mask'
  | _, _ => []
  end.

(** The body of [_select] once [df_in] is known to be a frame: the
    rows of the copy that the mask keeps. *)
Definition select_rows (name : string) (df_out : DataFrame) : M DataFrame :=
  col <- lift (get_col time_column_name df_out) ;;
  df_min <- lift (series_min col) ;;
  df_max <- lift (series_max col) ;;
  after <- lift (time_lt df_max t1) ;;
  (if after : bool then print (StartOutOfRange df_max)
   else
     before <- lift (time_lt t2 df_min) ;;
     if before : bool then print (EndOutOfRange df_min) else ret tt) ;;
  mask <- lift (mapM in_window col) ;;
  print (Samples name (length (List.filter id mask))) ;;
  ret (Frame (columns df_out) (loc_mask (rows df_out) mask)).

(** [_select]: an entry that is not a frame is returned as it is; a
    frame is copied, and the selection is one more new frame. *)
Definition _select (name : string) (df_in : nat) (h : heap) : heap * M nat :=
  match h !! df_in with
  | Some (ODataFrame df) =>
      let '(h1, df_out) := alloc (ODataFrame df) h in
      match select_rows name df with
      | (l, Ok df') =>
          let '(h2, r) := alloc (ODataFrame df') h1 in
          (h2, (l, Ok r))
      | (l, Raise e) => (h1, (l, Raise e))
      end
  | _ => (h, ret df_in)
  end.

(** [{k: _select(k, v) for k, v in data.items()}]: the items of the new
    dict. *)
Fixpoint select_items (items : list (string * nat)) (h : heap)
  : heap * M (list (string * nat)) :=
  match items with
  | [] => (h, ret [])
  | (k, v) :: items' =>
      match _select k v h with
      | (h1, (l, Ok v')) =>
          match select_items items' h1 with
          | (h2, (l', Ok out)) => (h2, (l ++ l', Ok ((k, v') :: out)))
          | (h2, (l', Raise e)) => (h2, (l ++ l', Raise e))
          end
      | (h1, (l, Raise e)) => (h1, (l, Raise e))
      end
  end.

End Select.

Definition select_period (data : nat)
  (time_start time_end duration : option timearg)
  (time_column_name : string) (h : heap) : heap * M nat :=
  match window time_start time_end duration with
  | (l, Raise e) => (h, (l, Raise e))
  | (l, Ok (t1, t2)) =>
      let l := l ++ [SelectingPeriod t1 t2] in
      match h !! data with
      | Some (ODataFrame _) =>
          let '(h', (l', r)) := _select t1 t2 time_column_name "(single)" data h in
          (h', (l ++ l', r))
      | Some (OFileData items) =>
          match select_items t1 t2 time_column_name items h with
          | (h1, (l', Ok out)) =>
              let '(h2, r) := alloc (OFileData out) h1 in
              (h2, (l ++ l', Ok r))
          | (h1, (l', Raise e)) => (h1, (l ++ l', Raise e))
          end
      | Some (OMapping m) =>
          let '(h1, r) := alloc (OMapping m) h in
          (h1, (l, Ok r))
      | None => (h, (l, Raise AttributeError))
      end
  end.

(** What [_select] returns for the entry [v]: the entry itself when it
    is not a frame, a frame created by the call when it is one. *)
Definition selected (h h' : heap) (v r : nat) : Prop :=
  match h !! v with
  | Some (ODataFrame df) =>
      (length h <= r)%nat
      /\ exists df', h' !! r = Some (ODataFrame df')
                     /\ columns df' = columns df
                     /\ rows df' `sublist_of` rows df
  | _ => r = v
  end.

(** ** An instance of the library functions

    The examples and counterexamples below run the parser on the text of
    a file.  They use this decoder for the JSON lines, and these casts. *)

Module Json.

Definition is_ws (c : ascii) : bool :=
  Ascii.eqb c " " || Ascii.eqb c "009" || Ascii.eqb c "010" || Ascii.eqb c "013".

Definition skip_ws (l : list ascii) : list ascii := Str.lstrip_by is_ws l.

Definition hex_value (c : ascii) : option N :=
  let n := N_of_ascii c in
  if ((48 <=? n) && (n <=? 57))%N then Some (n - 48)%N
  else if ((97 <=? n) && (n <=? 102))%N then Some (n - 87)%N
  else if ((65 <=? n) && (n <=? 70))%N then Some (n - 55)%N
  else None.

(** The characters of a string after its opening quote.  An escape of a
    code point above 255 is outside the model, and refused. *)
Fixpoint scanstring (l : list ascii) (acc : list ascii)
  : option (string * list ascii) :=
  match l with
  | [] => None
  | c :: l' =>
      if Ascii.eqb c Csv.quotechar then Some (Str.of_list (rev acc), l')
      else if (N_of_ascii c <? 32)%N then None
      else if Ascii.eqb c "\" then
        match l' with
        | e :: l'' =>
            if Ascii.eqb e "u" then
              match l'' with
              | a :: b :: c1 :: d :: l3 =>
                  match hex_value a, hex_value b, hex_value c1, hex_value d with
                  | Some 0%N, Some 0%N, Some x, Some y =>
                      scanstring l3 (ascii_of_N (16 * x + y) :: acc)
                  | _, _, _, _ => None
                  end
              | _ => None
              end
            else
              match
                (if Ascii.eqb e Csv.quotechar then Some Csv.quotechar
                 else if Ascii.eqb e "\" then Some "\"%char
                 else if Ascii.eqb e "/" then Some "/"%char
                 else if Ascii.eqb e "b" then Some "008"%char
                 else if Ascii.eqb e "f" then Some "012"%char
                 else if Ascii.eqb e "n" then Some "010"%char
                 else if Ascii.eqb e "r" then Some "013"%char
                 else if Ascii.eqb e "t" then Some "009"%char
                 else None)
              with
              | Some x => scanstring l'' (x :: acc)
              | None => None
              end
        | [] => None
        end
      else scanstring l' (c :: acc)
  end.

Fixpoint span (p : ascii -> bool) (l : list ascii) : list ascii * list ascii :=
  match l with
  | c :: l' => if p c then let '(a, b) := span p l' in (c :: a, b) else ([], l)
  | [] => ([], [])
  end.

(** A number: an optional minus, an integer part without a leading
    zero, an optional fraction and an optional exponent. *)
Definition scan_number (l : list ascii) : option (result pyobj * list ascii) :=
  let '(sign, l1) :=
    match l with
    | c :: l' => if Ascii.eqb c "-" then ([c], l') else ([], l)
    | [] => ([], l)
    end in
  let '(ds, l2) := span Str.isdecimal l1 in
  let '(int_part, l2) :=
    match ds with
    | d :: ds' => if Ascii.eqb d "0" then ([d], ds' ++ l2) else (ds, l2)
    | [] => ([], l2)
    end in
  match int_part with
  | [] => None
  | _ =>
      let '(frac, l3) :=
        match l2 with
        | c :: l' =>
            if Ascii.eqb c "." then
              match span Str.isdecimal l' with
              | ([], _) => ([], l2)
              | (fs, rest) => (c :: fs, rest)
              end
            else ([], l2)
        | [] => ([], l2)
        end in
      let '(exp, l4) :=
        match l3 with
        | c :: l' =>
            if Ascii.eqb c "e" || Ascii.eqb c "E" then
              let '(sg, l'') :=
                match l' with
                | x :: r => if Ascii.eqb x "-" || Ascii.eqb x "+" then ([x], r) else ([], l')
                | [] => ([], l')
                end in
              match span Str.isdecimal l'' with
              | ([], _) => ([], l3)
              | (es, rest) => (c :: sg ++ es, rest)
              end
            else ([], l3)
        | [] => ([], l3)
        end in
      match frac, exp with
      | [], [] =>
          Some (match Str.int (Str.of_list (sign ++ int_part)) with
                | Some z => Ok (PInt z)
                | None => Raise ValueError
                end, l4)
      | _, _ => Some (Ok (PFloat (Str.of_list (sign ++ int_part ++ frac ++ exp))), l4)
      end
  end.

Fixpoint strip_prefix (p l : list ascii) : option (list ascii) :=
  match p, l with
  | [] , _ => Some l
  | a :: p', b :: l' => if Ascii.eqb a b then strip_prefix p' l' else None
  | _ :: _, [] => None
  end.

Definition constants : list (string * pyobj) :=
  [("null", PNone); ("true", PBool true); ("false", PBool false);
   ("NaN", PFloat "nan"); ("Infinity", PFloat "inf"); ("-Infinity", PFloat "-inf")].

Fixpoint scan_constant (cs : list (string * pyobj)) (l : list ascii)
  : option (pyobj * list ascii) :=
  match cs with
  | [] => None
  | (name, v) :: cs' =>
      match strip_prefix (Str.to_list name) l with
      | Some rest => Some (v, rest)
      | None => scan_constant cs' l
      end
  end.

(** [scan_once], the members of an object after a key is due, and the
    elements of an array after an element is due. *)
Fixpoint scan_once (fuel : nat) (l : list ascii) : result (pyobj * list ascii) :=
  match fuel with
  | O => Raise JSONDecodeError
  | S fuel =>
      match l with
      | [] => Raise JSONDecodeError
      | c :: l' =>
          if Ascii.eqb c Csv.quotechar then
            match scanstring l' [] with
            | Some (s, rest) => Ok (PStr s, rest)
            | None => Raise JSONDecodeError
            end
          else if Ascii.eqb c "{" then
            match skip_ws l' with
            | c' :: l'' =>
                if Ascii.eqb c' "}" then Ok (PDict [], l'')
                else
                  match members fuel (c' :: l'') [] with
                  | Ok (items, rest) => Ok (PDict items, rest)
                  | Raise e => Raise e
                  end
            | [] => Raise JSONDecodeError
            end
          else if Ascii.eqb c "[" then
            match skip_ws l' with
            | c' :: l'' =>
                if Ascii.eqb c' "]" then Ok (PList [], l'')
                else
                  match elements fuel (c' :: l'') [] with
                  | Ok (vs, rest) => Ok (PList vs, rest)
                  | Raise e => Raise e
                  end
            | [] => Raise JSONDecodeError
            end
          else
            match scan_number l with
            | Some (Ok v, rest) => Ok (v, rest)
            | Some (Raise e, _) => Raise e
            | None =>
                match scan_constant constants l with
                | Some (v, rest) => Ok (v, rest)
                | None => Raise JSONDecodeError
                end
            end
      end
  end
with members (fuel : nat) (l : list ascii) (acc : pydict)
  : result (pydict * list ascii) :=
  match fuel with
  | O => Raise JSONDecodeError
  | S fuel =>
      match l with
      | q :: l' =>
          if Ascii.eqb q Csv.quotechar then
            match scanstring l' [] with
            | Some (key, rest) =>
                match skip_ws rest with
                | c :: rest' =>
                    if Ascii.eqb c ":" then
                      match scan_once fuel (skip_ws rest') with
                      | Ok (v, rest'') =>
                          match skip_ws rest'' with
                          | d :: rest3 =>
                              if Ascii.eqb d "}" then Ok (acc ++ [(key, v)], rest3)
                              else if Ascii.eqb d "," then
                                members fuel (skip_ws rest3) (acc ++ [(key, v)])
                              else Raise JSONDecodeError
                          | [] => Raise JSONDecodeError
                          end
                      | Raise e => Raise e
                      end
                    else Raise JSONDecodeError
                | [] => Raise JSONDecodeError
                end
            | None => Raise JSONDecodeError
            end
          else Raise JSONDecodeError
      | [] => Raise JSONDecodeError
      end
  end
with elements (fuel : nat) (l : list ascii) (acc : list pyobj)
  : result (list pyobj * list ascii) :=
  match fuel with
  | O => Raise JSONDecodeError
  | S fuel =>
      match scan_once fuel l with
      | Ok (v, rest) =>
          match skip_ws rest with
          | d :: rest' =>
              if Ascii.eqb d "]" then Ok (acc ++ [v], rest')
              else if Ascii.eqb d "," then elements fuel (skip_ws rest') (acc ++ [v])
              else Raise JSONDecodeError
          | [] => Raise JSONDecodeError
          end
      | Raise e => Raise e
      end
  end.

(** [json.loads(line)] for a line that starts with a brace. *)
Definition loads (line : string) : result pydict :=
  let l := skip_ws (Str.to_list line) in
  match scan_once (2 * length l + 2) l with
  | Ok (PDict items, rest) =>
      match skip_ws rest with
      | [] => Ok items
      | _ => Raise JSONDecodeError
      end
  | Ok (_, _) => Raise JSONDecodeError
  | Raise e => Raise e
  end.

(** JSON text is written here with apostrophes for its double quotes. *)
Definition text (s : string) : string :=
  Str.of_list ((fun c => if Ascii.eqb c "'" then Csv.quotechar else c) <$> Str.to_list s).

End Json.

Module Lib.

Definition now : string := "2025-03-01T21:13:42+00:00".

Definition dtype_range (d : string) : Z * Z :=
  if String.eqb d "UInt8" then (0, 2 ^ 8 - 1)
  else if String.eqb d "int16" then (- 2 ^ 15, 2 ^ 15 - 1)
  else if String.eqb d "int32" then (- 2 ^ 31, 2 ^ 31 - 1)
  else (- 2 ^ 63, 2 ^ 63 - 1).

Definition in_dtype (d : string) (z : Z) : option Z :=
  let '(lo, hi) := dtype_range d in
  if (lo <=? z) && (z <=? hi) then Some z else None.

(** The cast to an integer dtype: a string is read as [int] reads it.
    An integer outside the range of the dtype, and a cell that is
    neither a string nor an integer, are refused: no example has one. *)
Definition astype_int (d : string) (v : value) : option Z :=
  match v with
  | VStr s => z ← Str.int s; in_dtype d z
  | VInt z => in_dtype d z
  | _ => None
  end.

(** The cast to [float64], [category] or [object] keeps the cell. *)
Definition astype_obj (d : string) (v : value) : option value := Some v.

(** An integer count of milliseconds since the epoch; a missing cell
    is not-a-time.  Other cells are refused: no example has one. *)
Definition to_datetime_ms (v : value) : result (option Z) :=
  match v with
  | VInt ms =>
      match checked (ms * 1000000) with
      | Ok ns => Ok (Some ns)
      | Raise e => Raise e
      end
  | VNaN => Ok None
  | _ => Raise TypeError
  end.

(** [pd.to_datetime(None)] is [None], which has no [tz_convert], and a
    [bool] is refused, as the library does; the other values are refused
    here: no example has one. *)
Definition to_datetime_other (v : value) : result (option Z) :=
  match v with
  | VObj PNone => Raise AttributeError
  | VObj (PBool _) => Raise TypeError
  | _ => Raise ValueError
  end.

Definition parse_file (timezone : string) : file -> float -> M FileData :=
  parse_file now Json.loads astype_int astype_obj to_datetime_ms
    to_datetime_other timezone.

Definition process_line : float -> nat -> string -> batches -> M batches :=
  process_line Json.loads.

Definition _dataframe_from_list
  : list (list pyobj) -> list (string * string) -> M DataFrame :=
  _dataframe_from_list astype_int astype_obj.

End Lib.

(** ** Data of the scenarios *)

Definition scenario : file :=
  Lines
    [Json.text
       "{'Status': {'state': 'START_RECORD'}, 'Record': {'UNIXTimeStamp': 1700000000000}}";
     "5000,72,95,1000,2000"]
    None.

Definition scenario_hr : DataFrame :=
  Frame ["time_elapsed"; "heart_rate_bpm"; "confidence"; "ppg_raw"; "ppg_filter";
         "time_absolute"]
        [list_to_map
           [("time_elapsed", VTimedelta 5000000000); ("heart_rate_bpm", VInt 72);
            ("confidence", VInt 95); ("ppg_raw", VInt 1000); ("ppg_filter", VInt 2000);
            ("time_absolute", VTimestamp 1705000000000 "UTC")]].

Definition scenario_metadata : metadata :=
  list_to_map
    [("Parsed_on", VStr Lib.now); ("StudyName", VStr "NA"); ("StudyInstance", VStr "NA");
     ("status_state", VStr "START_RECORD"); ("start_UNIXTimeStamp", VInt 1700000000000);
     ("n_samples_hr", VInt 1); ("n_samples_accel", VInt 0);
     ("n_survey_responses", VInt 0); ("duration_hr", VTimedelta 5000000000);
     ("duration_accel", VNaT)].

Definition legacy_line : string := "5000,720,95,1000,2000".

Definition hr_row (te bpm conf raw flt : Z) (ta : value) : row :=
  list_to_map
    [("time_elapsed", VTimedelta te); ("heart_rate_bpm", VInt bpm);
     ("confidence", VInt conf); ("ppg_raw", VInt raw); ("ppg_filter", VInt flt);
     ("time_absolute", ta)].

Definition hr_frame (rs : list row) : DataFrame :=
  Frame (cols_hr.*1 ++ ["time_absolute"]) rs.

(** The metadata of a file without JSON lines. *)
Definition plain_metadata (n_hr n_accel : Z) (d_hr d_accel : value) : metadata :=
  list_to_map
    [("Parsed_on", VStr Lib.now); ("StudyName", VStr "NA"); ("StudyInstance", VStr "NA");
     ("n_samples_hr", VInt n_hr); ("n_samples_accel", VInt n_accel);
     ("n_survey_responses", VInt 0); ("duration_hr", d_hr);
     ("duration_accel", d_accel)].

Definition no_start : diag := NoStartTimestamp (KeyError "start_UNIXTimeStamp").

Definition batch_with_gap : list (list pyobj) :=
  [[PStr "5000"; PStr "72"; PStr "95"; PStr "1000"; PStr "2000"];
   [PStr "5040"; PStr "73"; PStr ""; PStr "1001"; PStr "2001"];
   [PStr "5080"; PInt 74; PStr "96"; PStr "1002"; PStr "2002"]].

Definition table_without_gap : DataFrame :=
  Frame cols_hr.*1
    [delete "time_absolute" (hr_row 5000000000 72 95 1000 2000 VNaT);
     delete "time_absolute" (hr_row 5080000000 74 96 1002 2002 VNaT)].

(** A table of two samples, at the start of the record and five seconds
    later, and a bundle of it with its metadata. *)
Definition t0 : Z := 1740863640000000000.

Definition sample (te : Z) : row :=
  list_to_map [("time_elapsed", VTimedelta te);
               ("time_absolute", VTimestamp (t0 + te) "UTC")].

Definition two_samples : DataFrame :=
  Frame ["time_elapsed"; "time_absolute"] [sample 0; sample 5000000000].

Definition bundle_heap : heap :=
  [OMapping (plain_metadata 2 0 (VTimedelta 5000000000) VNaT);
   ODataFrame two_samples;
   OFileData [("metadata", 0%nat); ("data_hr", 1%nat)]].

(** ** Lines of plain fields *)

(** A character the csv reader takes as a character of the field,
    wherever it stands: no line end, no quote and no delimiter. *)
Definition plain (c : ascii) : bool :=
  negb (Csv.is_newline c) && negb (Ascii.eqb c Csv.quotechar)
  && negb (Ascii.eqb c Csv.delimiter).

(** A field of plain characters, not longer than the reader allows. *)
Definition plain_field (f : string) : bool :=
  forallb plain (Str.to_list f)
  && (Z.of_nat (length (Str.to_list f)) <=? Csv.field_limit).

(** The fields with a comma between them. *)
Fixpoint join_fields (fields : list string) : string :=
  match fields with
  | [] => ""
  | [f] => f
  | f :: fields' => f +:+ String Csv.delimiter (join_fields fields')
  end.

(** The log and the collections of a reading, after a line that printed
    [l] and collected nothing. *)
Definition after_line (l : list diag) (rest : list diag * batches * option exn)
  : list diag * batches * option exn :=
  let '(l', b, e) := rest in (l ++ l', b, e).

(** The columns of the survey table [_process_json_objs] returns. *)
Definition survey_columns : list string :=
  ["number"; "item"; "question"; "input"; "range"; "response"; "time_elapsed";
   "time_absolute"].

(** The metadata of a file of which nothing was collected. *)
Definition bare_metadata (now : string) : metadata :=
  list_to_map
    [("Parsed_on", VStr now); ("StudyName", VStr "NA"); ("StudyInstance", VStr "NA");
     ("n_samples_hr", VInt 0); ("n_samples_accel", VInt 0);
     ("n_survey_responses", VInt 0); ("duration_hr", VNaT);
     ("duration_accel", VNaT)].

(** ** Windows and columns of one kind *)

(** Two time values of one kind: two timestamps or two durations. *)
Definition same_kind (a b : value) : bool :=
  match a, b with
  | VTimestamp _ _, VTimestamp _ _ | VTimedelta _, VTimedelta _ => true
  | _, _ => false
  end.

(** The count of nanoseconds of a time value. *)
Definition time_ns (v : value) : Z :=
  match v with
  | VTimestamp ns _ | VTimedelta ns => ns
  | _ => 0
  end.

(** [t1 <= v <= t2] on the counts of nanoseconds. *)
Definition between (t1 t2 v : value) : bool :=
  (time_ns t1 <=? time_ns v) && (time_ns v <=? time_ns t2).

(** The rows of a table whose time in column [col] is in the window. *)
Definition rows_between (t1 t2 : value) (col : string) (df : DataFrame) : list row :=
  List.filter (fun r => between t1 t2 (cell col r)) (rows df).

(** An entry of a bundle in the heap [h]: a table that has rows and
    whose column [col] holds times of the kind of [t], or an object that
    is no table. *)
Definition entry_timed_by (t : value) (col : string) (h : heap) (v : nat) : Prop :=
  match h !! v with
  | Some (ODataFrame df) =>
      col ∈ columns df /\ rows df <> []
      /\ Forall (fun r : row => same_kind t (cell col r) = true) (rows df)
  | Some _ => True
  | None => False
  end.

(** The entry [v'] of the heap [h'] is the selection of the entry [v] of
    the heap [h]: the table of the rows in the window for a table, the
    entry itself for another object. *)
Definition selection_of (t1 t2 : value) (col : string) (h h' : heap) (v v' : nat)
  : Prop :=
  match h !! v with
  | Some (ODataFrame df) =>
      h' !! v' = Some (ODataFrame (Frame (columns df) (rows_between t1 t2 col df)))
  | _ => v' = v
  end.

(** ** Data of the examples *)

(** The end of a line of a file. *)
Definition newline : string := String "010" "".

(** The collections before the first line. *)
Definition no_batches : batches := Batches [] [] [].

(** A file with a start of the record, an empty line, a survey
    response, three heart rate rows, one of them with an empty field,
    and an accelerometer row. *)
Definition survey_scenario : file :=
  Lines
    [Json.text
       "{'Status': {'state': 'START_RECORD'}, 'Record': {'UNIXTimeStamp': 1700000000000}}"
     +:+ newline;
     newline;
     Json.text
       "{'number': 1, 'item': 2, 'timeStamp': 1700000005000, 'question': 'Mood', 'input': 'slider', 'range': [0, 10], 'response': 7}"
     +:+ newline;
     "5000,72,95,1000,2000" +:+ newline;
     "7000,73,,1001,2001" +:+ newline;
     "9000,74,96,1002,2002" +:+ newline;
     "A5000,1,2,3,4,5" +:+ newline]
    None.

Definition survey_parse : M FileData := Lib.parse_file "UTC" survey_scenario 0.2.

(** A file with the anomalies the parser reports: a line that is no
    row, a heart rate row that is too short, a JSON line that does not
    decode, an object the parser does not know, a row with an empty
    field, no start of the record, and a reading that ends early. *)
Definition untidy : file :=
  Lines
    ["hello";
     "5000,72,95";
     Json.text "{'extra': ";
     Json.text "{'extra': 1}";
     "7000,73,,1001,2001";
     "9000,74,96,1002,2002"]
    (Some OSError).

(** The structure a call returned, its metadata and its tables. *)
Definition structure_of (r : M FileData) : FileData :=
  match r.2 with
  | Ok fd => fd
  | Raise _ => ∅
  end.

Definition metadata_of (fd : FileData) : metadata :=
  match fd !! "metadata" with
  | Some (Mapping m) => m
  | _ => ∅
  end.

Definition table_of (key : string) (fd : FileData) : DataFrame :=
  match fd !! key with
  | Some (Table df) => df
  | _ => Frame [] []
  end.

(** Lines with two objects, an empty line and a heart rate row, and
    what the reading makes of them. *)
Definition mixed_lines : list string :=
  [Json.text "{'a': 1}"; ""; "5000,72,95,1000,2000"; Json.text "{'b': 2}"].

Definition mixed_reading : list diag * batches * option exn :=
  read_lines Json.loads 0.2 0 mixed_lines no_batches.

Definition hr_line : string := "5000,72,95,1000,2000".

(** Bounds in the time since the start of the record, in seconds. *)
Definition seconds (s : Z) : timearg := Timedelta (s * 1000000000).

(** * Properties *)

(** ** The string functions, the csv reader and the decoder on examples *)

Example csv_hr_row :
  Csv.reader_next "5000,72,95,1000,2000" = Ok ["5000"; "72"; "95"; "1000"; "2000"].
Proof. reflexivity. Qed.

Example csv_empty_first_field : Csv.reader_next ",1,2" = Ok [""; "1"; "2"].
Proof. reflexivity. Qed.

Example csv_quoted :
  Csv.reader_next (String Csv.quotechar "a,b" +:+ String Csv.quotechar ",c")
  = Ok ["a,b"; "c"]
  /\ Csv.reader_next (String Csv.quotechar "") = Ok [""]
  /\ Csv.reader_next "a," = Ok ["a"; ""].
Proof. repeat split. Qed.

Example int_examples :
  Str.int " 42 " = Some 42 /\ Str.int "-7" = Some (-7) /\ Str.int "1_000" = Some 1000
  /\ Str.int "x" = None /\ Str.int "" = None /\ Str.int "1.5" = None.
Proof. repeat split. Qed.

Example round_examples :
  round_div10 95 = Ok 10 /\ round_div10 85 = Ok 8 /\ round_div10 720 = Ok 72
  /\ round_div10 (-15) = Ok (-2) /\ round_div10 (-25) = Ok (-2)
  /\ round_div10 14 = Ok 1 /\ round_div10 0 = Ok 0 /\ round_div10 4 = Ok 0
  /\ round_div10 5 = Ok 0 /\ round_div10 6 = Ok 1
  /\ round_div10 (10 ^ 400) = Raise OverflowError.
Proof. repeat split. Qed.

Example json_status_line :
  Json.loads (Json.text
    "{'Status': {'state': 'START_RECORD'}, 'Record': {'UNIXTimeStamp': 1700000000000}}")
  = Ok [("Status", PDict [("state", PStr "START_RECORD")]);
        ("Record", PDict [("UNIXTimeStamp", PInt 1700000000000)])].
Proof. reflexivity. Qed.

Example json_shapes :
  Json.loads (Json.text "{'foo': 1}") = Ok [("foo", PInt 1)]
  /\ Json.loads (Json.text "{'a': [1, 2.5, null, true], 'b': {}}")
     = Ok [("a", PList [PInt 1; PFloat "2.5"; PNone; PBool true]); ("b", PDict [])]
  /\ Json.loads (Json.text "{'foo': 1") = Raise JSONDecodeError
  /\ Json.loads (Json.text "{'foo': 01}") = Raise JSONDecodeError
  /\ Json.loads (Json.text "{} x") = Raise JSONDecodeError.
Proof. repeat split. Qed.

(** ** The effect monad *)

Lemma bind_Ok {A B} (m : M A) (f : A -> M B) l b :
  bind m f = (l, Ok b) ->
  exists l1 a l2, m = (l1, Ok a) /\ f a = (l2, Ok b) /\ l = l1 ++ l2.
Proof.
  unfold bind. destruct m as [l1 [a|e]]; [|discriminate].
  destruct (f a) as [l2 r] eqn:Hf. intros [= <- ->]. eauto 6.
Qed.

Lemma bind_Ok_intro {A B} (m : M A) (f : A -> M B) l1 a l2 r :
  m = (l1, Ok a) -> f a = (l2, r) -> bind m f = (l1 ++ l2, r).
Proof. intros -> Hf. unfold bind. by rewrite Hf. Qed.

Lemma lift_Ok {A} (r : result A) l a : lift r = (l, Ok a) -> r = Ok a /\ l = [].
Proof. unfold lift. by intros [= <- ->]. Qed.

Lemma ret_Ok {A} (x : A) l a : ret x = (l, Ok a) -> x = a /\ l = [].
Proof. unfold ret. by intros [= <- ->]. Qed.

Lemma mapM_Ok_Forall2 {A B} (f : A -> result B) l l' :
  mapM f l = Ok l' -> Forall2 (fun a b => f a = Ok b) l l'.
Proof.
  revert l'. induction l as [|a l IH]; intros l'; simpl.
  - intros [= <-]. constructor.
  - destruct (f a) eqn:Hfa; [|discriminate].
    destruct (mapM f l) eqn:Hm; [|discriminate].
    intros [= <-]. constructor; auto.
Qed.

Lemma Forall2_mapM_Ok {A B} (f : A -> result B) l l' :
  Forall2 (fun a b => f a = Ok b) l l' -> mapM f l = Ok l'.
Proof. induction 1 as [|a b l l' Hab _ IH]; simpl; [done|]. by rewrite Hab, IH. Qed.

(** ** Cells and columns *)

Lemma cell_insert_eq c v (r : row) : cell c (<[c := v]> r) = v.
Proof. unfold cell. by rewrite lookup_insert_eq. Qed.

Lemma cell_insert_ne c c' v (r : row) : c <> c' -> cell c' (<[c := v]> r) = cell c' r.
Proof. intros. unfold cell. by rewrite lookup_insert_ne. Qed.

Lemma rows_set_col c vs df :
  rows (set_col c vs df) = zip_with (fun (r : row) v => <[c := v]> r) (rows df) vs.
Proof. done. Qed.

Lemma get_col_Ok c df vs : get_col c df = Ok vs -> vs = cell c <$> rows df.
Proof. unfold get_col. case_bool_decide; congruence. Qed.

(** The rows after [df[c] = f(df[c])]. *)
Lemma zip_with_insert_Forall2 (f : value -> result value) c c' (rs : list row) vs :
  Forall2 (fun a b => f a = Ok b) (cell c <$> rs) vs ->
  Forall2 (fun (r r' : row) => exists v, f (cell c r) = Ok v /\ r' = <[c' := v]> r)
          rs (zip_with (fun (r : row) v => <[c' := v]> r) rs vs).
Proof.
  revert vs. induction rs as [|r rs IH]; intros vs H; simpl in *.
  - constructor.
  - apply Forall2_cons_inv_l in H as (v & vs' & Hv & Hvs & ->). simpl.
    constructor; eauto.
Qed.

(** ** Rows built from lists *)

Lemma lookup_list_to_map_zip (ks : list string) (vs : list value) j k v :
  NoDup ks -> ks !! j = Some k -> vs !! j = Some v ->
  (list_to_map (zip ks vs) : row) !! k = Some v.
Proof.
  intros Hnd. revert vs j. induction Hnd as [|k0 ks Hk0 Hnd IH]; intros vs j Hk Hv.
  - by rewrite lookup_nil in Hk.
  - destruct vs as [|v0 vs]; [by rewrite lookup_nil in Hv|].
    destruct j as [|j]; simpl in *.
    + injection Hk as ->. injection Hv as ->. apply lookup_insert_eq.
    + rewrite lookup_insert_ne; [by eapply IH|].
      intros ->. apply Hk0. by eapply list_elem_of_lookup_2.
Qed.

Lemma max_list_const (ns : list nat) n :
  ns <> [] -> Forall (fun m => m = n) ns -> max_list ns = n.
Proof.
  induction 2 as [|m ns -> Hns IH]; [done|]. simpl.
  destruct ns as [|m' ns]; [simpl; lia|]. rewrite IH; [lia|done].
Qed.

Lemma existsb_Forall2 {A B} (f : A -> bool) (g : B -> bool) l l' :
  Forall2 (fun a b => f a = g b) l l' -> existsb f l = existsb g l'.
Proof. induction 1 as [|a b l l' E _ IH]; simpl; [done|]. by rewrite E, IH. Qed.

Lemma filter_fmap_ext {A B} (g : A -> B) (p : B -> bool) (q : A -> bool) l :
  Forall (fun a => p (g a) = q a) l ->
  List.filter p (g <$> l) = g <$> List.filter q l.
Proof.
  induction 1 as [|a l E _ IH]; [done|].
  rewrite fmap_cons. cbn [List.filter]. rewrite E.
  destruct (q a); [rewrite fmap_cons|]; by rewrite IH.
Qed.

Lemma filter_complement_length {A} (p : A -> bool) l :
  (length l - length (List.filter (fun a => negb (p a)) l))%nat
  = length (List.filter p l).
Proof.
  induction l as [|a l IH]; simpl; [done|].
  pose proof (List.filter_length_le (fun a => negb (p a)) l).
  destruct (p a); simpl; lia.
Qed.

(** The cells of the row built from a list, after [replace]. *)
Lemma cell_row_of_list (cols : list string) (src : list pyobj) j c o :
  NoDup cols -> cols !! j = Some c -> src !! j = Some o ->
  cell c (replace_cell <$> row_of_list cols src) = replace_cell (VObj o).
Proof.
  intros Hnd Hc Ho. unfold cell, row_of_list. rewrite lookup_fmap.
  erewrite lookup_list_to_map_zip; eauto. by rewrite list_lookup_fmap, Ho.
Qed.

Lemma has_na_row_of_list (cols : list string) (src : list pyobj) :
  NoDup cols -> length src = length cols -> forallb is_csv_cell src = true ->
  has_na cols (replace_cell <$> row_of_list cols src) = has_empty src.
Proof.
  intros Hnd Hlen Hcsv. unfold has_na, has_empty. apply existsb_Forall2.
  apply Forall2_same_length_lookup_2; [done|].
  intros j c o Hc Ho. erewrite cell_row_of_list by eauto.
  apply forallb_forall with (x := o) in Hcsv;
    [|apply list_elem_of_In; by eapply list_elem_of_lookup_2].
  by destruct o as [| | | |[|]| |].
Qed.

(** ** The returned structure *)

Lemma file_data_metadata meta df_hr df_accel df_survey :
  file_data meta df_hr df_accel df_survey !! "metadata" = Some (Mapping meta).
Proof.
  unfold file_data. simpl.
  destruct (empty df_hr), (empty df_accel), (empty df_survey); reflexivity.
Qed.

Lemma file_data_hr meta df_hr df_accel df_survey :
  file_data meta df_hr df_accel df_survey !! "data_hr"
  = if empty df_hr then None else Some (Table df_hr).
Proof.
  unfold file_data. simpl.
  destruct (empty df_hr), (empty df_accel), (empty df_survey); reflexivity.
Qed.

Lemma file_data_accel meta df_hr df_accel df_survey :
  file_data meta df_hr df_accel df_survey !! "data_accel"
  = if empty df_accel then None else Some (Table df_accel).
Proof.
  unfold file_data. simpl.
  destruct (empty df_hr), (empty df_accel), (empty df_survey); reflexivity.
Qed.

Lemma file_data_survey meta df_hr df_accel df_survey :
  file_data meta df_hr df_accel df_survey !! "data_survey"
  = if empty df_survey then None else Some (Table df_survey).
Proof.
  unfold file_data. simpl.
  destruct (empty df_hr), (empty df_accel), (empty df_survey); reflexivity.
Qed.

Lemma empty_n_rows df : empty df = true <-> n_rows df = 0%nat.
Proof. unfold empty, n_rows. destruct (rows df); simpl; split; congruence. Qed.

Lemma update_metadata_summary meta df_hr df_accel df_survey d_hr d_accel :
  let m := update_metadata meta (summary df_hr df_accel df_survey d_hr d_accel) in
  m !! "n_samples_hr" = Some (VInt (Z.of_nat (n_rows df_hr)))
  /\ m !! "n_samples_accel" = Some (VInt (Z.of_nat (n_rows df_accel)))
  /\ m !! "n_survey_responses" = Some (VInt (Z.of_nat (n_rows df_survey)))
  /\ m !! "duration_hr" = Some d_hr
  /\ m !! "duration_accel" = Some d_accel.
Proof. unfold update_metadata, summary. simpl. repeat split; by simplify_map_eq. Qed.

Lemma update_metadata_other meta df_hr df_accel df_survey d_hr d_accel k :
  k ∉ summary_keys ->
  update_metadata meta (summary df_hr df_accel df_survey d_hr d_accel) !! k
  = meta !! k.
Proof.
  unfold summary_keys. intros Hk. unfold update_metadata, summary. simpl.
  rewrite !elem_of_cons, elem_of_nil in Hk.
  rewrite !lookup_insert_ne; [done|intros <-; tauto..].
Qed.

(** ** The parser *)

Section ParserFacts.

Context (now : string) (json_loads : string -> result pydict)
  (astype_int : string -> value -> option Z)
  (astype_obj : string -> value -> option value)
  (to_datetime_ms to_datetime_other : value -> result (option Z))
  (timezone : string).

Local Abbreviation get_start := (_get_start_timestamp to_datetime_other timezone).
Local Abbreviation record_start := (record_start_timestamp to_datetime_other timezone).
Local Abbreviation backfill := (_process_absolute_timestamps to_datetime_other timezone).
Local Abbreviation from_list := (_dataframe_from_list astype_int astype_obj).
Local Abbreviation process_objs :=
  (_process_json_objs now astype_int astype_obj to_datetime_ms to_datetime_other
     timezone).
Local Abbreviation parse :=
  (parse_file now json_loads astype_int astype_obj to_datetime_ms
     to_datetime_other timezone).

Lemma get_start_timestamp_returns meta :
  exists l, get_start meta = (l, Ok (record_start meta)).
Proof.
  unfold record_start_timestamp, _get_start_timestamp.
  destruct (meta !! "start_UNIXTimeStamp") as [v|]; [|by eexists].
  destruct (to_datetime _ v); by eexists.
Qed.

Lemma record_start_cases meta :
  record_start meta = VNaT \/ exists ns, record_start meta = VTimestamp ns timezone.
Proof.
  unfold record_start_timestamp, _get_start_timestamp.
  destruct (meta !! "start_UNIXTimeStamp") as [v|]; [|by left].
  destruct (to_datetime _ v) as [[ns|]|]; simpl; eauto.
Qed.

(** The start timestamp reads one key of the metadata only. *)
Lemma record_start_ext (m m' : metadata) :
  m !! "start_UNIXTimeStamp" = m' !! "start_UNIXTimeStamp" ->
  record_start m = record_start m'.
Proof.
  intros E. unfold record_start_timestamp, _get_start_timestamp. by rewrite E.
Qed.

(** The back-fill adds to each row its [time_elapsed] plus the start. *)
Lemma backfill_rows meta df l df' :
  backfill meta df = (l, Ok df') ->
  Forall2 (fun (r r' : row) =>
             exists ta, time_add (cell "time_elapsed" r) (record_start meta) = Ok ta
                        /\ r' = <["time_absolute" := ta]> r)
          (rows df) (rows df').
Proof.
  unfold _process_absolute_timestamps. intros H.
  apply bind_Ok in H as (l1 & elapsed & l2 & H1 & H & ->).
  apply lift_Ok in H1 as [H1 ->].
  apply bind_Ok in H as (l3 & start & l4 & H2 & H & ->).
  apply bind_Ok in H as (l5 & absolute & l6 & H3 & H & ->).
  apply lift_Ok in H3 as [H3 ->]. apply ret_Ok in H as [<- ->].
  destruct (get_start_timestamp_returns meta) as [l' Hs].
  rewrite Hs in H2. injection H2 as _ <-.
  apply get_col_Ok in H1 as ->. apply mapM_Ok_Forall2 in H3.
  rewrite rows_set_col.
  by apply (zip_with_insert_Forall2 (fun te => time_add te (record_start meta))).
Qed.

(** *** Row-to-table conversion *)

Lemma astype_row_cells cols (r r' : row) :
  NoDup cols.*1 ->
  astype_row astype_int astype_obj cols r = Ok r' ->
  Forall (fun col => astype_cell astype_int astype_obj col.2 (cell col.1 r)
                     = Ok (cell col.1 r')) cols
  /\ forall c, c ∉ cols.*1 -> cell c r' = cell c r.
Proof.
  revert r. induction cols as [|[c d] cols IH]; intros r Hnd H; simpl in *.
  - injection H as <-. split; [constructor|done].
  - destruct (astype_cell _ _ d (cell c r)) as [v|] eqn:Hv; [|done].
    apply NoDup_cons in Hnd as [Hc Hnd].
    destruct (IH _ Hnd H) as [Hall Hout]. split.
    + constructor; simpl.
      * rewrite Hout by done. by rewrite cell_insert_eq.
      * apply Forall_forall. intros [c' d'] Hin.
        rewrite Forall_forall in Hall. specialize (Hall _ Hin). simpl in *.
        rewrite cell_insert_ne in Hall; [done|].
        intros ->. apply Hc. apply list_elem_of_fmap. by exists (c', d').
    + intros c' Hc'. apply not_elem_of_cons in Hc' as [Hne Hc'].
      rewrite Hout by done. by apply cell_insert_ne.
Qed.

Lemma to_timedelta_rows df df' :
  to_timedelta_cols timedelta_cols df = Ok df' ->
  Forall2 (fun (r r' : row) =>
             exists v, to_timedelta_ms (cell "time_elapsed" r) = Ok v
                       /\ r' = <["time_elapsed" := v]> r)
          (rows df) (rows df').
Proof.
  unfold timedelta_cols. simpl. unfold map_col.
  destruct (get_col "time_elapsed" df) as [vs|] eqn:Hvs; [|done].
  destruct (mapM to_timedelta_ms vs) as [vs'|] eqn:Hvs'; [|done].
  intros [= <-]. apply get_col_Ok in Hvs as ->. apply mapM_Ok_Forall2 in Hvs'.
  rewrite rows_set_col. by apply zip_with_insert_Forall2.
Qed.

Lemma from_list_inv rs cols log df :
  from_list rs cols = (log, Ok df) ->
  exists df0 df3,
    new_frame rs cols.*1 = Ok df0
    /\ astype astype_int astype_obj cols (dropna (replace_empty df0)) = Ok df3
    /\ to_timedelta_cols timedelta_cols df3 = Ok df
    /\ log = (let n := (n_rows df0 - n_rows (dropna (replace_empty df0)))%nat in
              if (0 <? n)%nat then [DroppedRows n] else []).
Proof.
  unfold _dataframe_from_list. intros H.
  apply bind_Ok in H as (l1 & df0 & l2 & H1 & H & ->).
  apply lift_Ok in H1 as [H1 ->].
  apply bind_Ok in H as (l3 & [] & l4 & H2 & H & ->).
  apply bind_Ok in H as (l5 & df3 & l6 & H3 & H & ->).
  apply lift_Ok in H3 as [H3 ->]. apply lift_Ok in H as [H ->].
  exists df0, df3. repeat split; try done. simpl.
  destruct (0 <? _)%nat; injection H2 as <-; by rewrite app_nil_r.
Qed.

(** Every [time_elapsed] cell of a converted table is a duration. *)
Lemma from_list_elapsed rs cols log df r :
  from_list rs cols = (log, Ok df) -> r ∈ rows df ->
  exists ns, cell "time_elapsed" r = VTimedelta ns.
Proof.
  intros H Hr. apply from_list_inv in H as (df0 & df3 & _ & _ & H & _).
  apply to_timedelta_rows in H.
  apply list_elem_of_lookup in Hr as [i Hi].
  destruct (Forall2_lookup_r _ _ _ _ _ H Hi) as (r0 & _ & v & Hv & ->).
  rewrite cell_insert_eq. unfold to_timedelta_ms in Hv.
  destruct (cell "time_elapsed" r0) as [[]| | | | |]; try done.
  destruct (checked _); [|done]. injection Hv as <-. eauto.
Qed.

Lemma new_frame_Ok rs (cols : list string) :
  Forall (fun r : list pyobj => length r = length cols) rs ->
  new_frame rs cols = Ok (Frame cols (row_of_list cols <$> rs)).
Proof.
  intros Hlen. unfold new_frame. destruct rs as [|r rs]; [done|].
  rewrite (max_list_const _ (length cols)); [by rewrite Nat.eqb_refl|done|].
  by apply Forall_fmap.
Qed.

(** The cells of a row without an empty field, through the casts. *)
Lemma typed_row cols (src : list pyobj) (r3 r : row) v :
  NoDup cols.*1 -> Forall (fun col => is_int_dtype col.2 = true) cols ->
  length src = length cols -> forallb is_csv_cell src = true ->
  has_empty src = false ->
  astype_row astype_int astype_obj cols
    (replace_cell <$> row_of_list cols.*1 src) = Ok r3 ->
  to_timedelta_ms (cell "time_elapsed" r3) = Ok v ->
  r = <["time_elapsed" := v]> r3 ->
  present astype_int cols src r.
Proof.
  intros Hnd Hint Hlen Hcsv Hne Hcast Htd ->.
  apply astype_row_cells in Hcast as [Hcells _]; [|done].
  apply Forall2_same_length_lookup_2; [done|].
  intros j [c d] o Hc Ho. simpl.
  assert (Hin : (c, d) ∈ cols) by by eapply list_elem_of_lookup_2.
  rewrite Forall_forall in Hcells, Hint.
  specialize (Hcells _ Hin). specialize (Hint _ Hin). simpl in *.
  erewrite cell_row_of_list in Hcells; eauto;
    [|by rewrite list_lookup_fmap, Hc].
  assert (Ho' : is_empty_str o = false).
  { unfold has_empty in Hne. rewrite <- not_true_iff_false in Hne |- *.
    intros Hoe. apply Hne. apply existsb_exists. exists o. split; [|done].
    apply list_elem_of_In. by eapply list_elem_of_lookup_2. }
  assert (Hrep : replace_cell (VObj o) = VObj o)
    by by destruct o as [| | | |[|]| |].
  rewrite Hrep in Hcells.
  unfold astype_cell in Hcells. rewrite Hint in Hcells.
  destruct (astype_int d (VObj o)) as [z|] eqn:Hz; [|done].
  injection Hcells as Hcell. exists z. split; [done|]. simpl.
  destruct (String.eqb_spec c "time_elapsed") as [->|Hne'].
  - rewrite cell_insert_eq. rewrite <- Hcell in Htd. simpl in Htd.
    destruct (checked _) as [ns|] eqn:Hns; [|done]. injection Htd as <-.
    unfold checked in Hns. destruct (in_time_range _); [|done]. by injection Hns as <-.
  - by rewrite cell_insert_ne.
Qed.

Lemma from_list_rows rs cols log df :
  NoDup cols.*1 -> Forall (fun col => is_int_dtype col.2 = true) cols ->
  Forall (fun r => length r = length cols /\ forallb is_csv_cell r = true) rs ->
  from_list rs cols = (log, Ok df) ->
  Forall2 (present astype_int cols)
          (List.filter (fun r => negb (has_empty r)) rs) (rows df)
  /\ log = (let n := length (List.filter has_empty rs) in
            if (0 <? n)%nat then [DroppedRows n] else []).
Proof.
  intros Hnd Hint Hrs H.
  apply from_list_inv in H as (df0 & df3 & H0 & H3 & H & ->).
  rewrite new_frame_Ok in H0;
    [|eapply Forall_impl; [done|]; intros r [Hr _]; by rewrite length_fmap].
  injection H0 as <-.
  set (g := fun src : list pyobj => replace_cell <$> row_of_list cols.*1 src) in *.
  assert (Hdrop : rows (dropna (replace_empty (Frame cols.*1 (row_of_list cols.*1 <$> rs))))
                  = g <$> List.filter (fun r => negb (has_empty r)) rs).
  { unfold dropna, replace_empty. simpl. rewrite <- list_fmap_compose.
    apply filter_fmap_ext. eapply Forall_impl; [done|].
    intros r [Hlen Hcsv]. simpl. unfold g, compose.
    rewrite has_na_row_of_list; [done|done| |done]. by rewrite length_fmap. }
  split.
  - unfold astype in H3. rewrite Hdrop in H3.
    destruct (mapM _ _) as [rows3|] eqn:Hm; [|done]. injection H3 as <-.
    apply mapM_Ok_Forall2 in Hm. apply Forall2_fmap_l in Hm.
    apply to_timedelta_rows in H. simpl in H.
    apply Forall2_same_length_lookup_2.
    { by rewrite (Forall2_length _ _ _ Hm), (Forall2_length _ _ _ H). }
    intros i src r Hsrc Hr.
    destruct (Forall2_lookup_l _ _ _ _ _ Hm Hsrc) as (r3 & Hr3 & Hcast).
    destruct (Forall2_lookup_l _ _ _ _ _ H Hr3) as (r' & Hr' & v & Hv & ->).
    rewrite Hr in Hr'. injection Hr' as ->.
    apply list_elem_of_lookup_2, list_elem_of_In, filter_In in Hsrc as [Hin Hne].
    rewrite Forall_forall in Hrs.
    destruct (Hrs src) as [Hlen Hcsv]; [by apply list_elem_of_In|].
    eapply typed_row; eauto. by apply negb_true_iff.
  - unfold n_rows. rewrite Hdrop. simpl. rewrite !length_fmap.
    by rewrite filter_complement_length.
Qed.

(** C9. In the conversion of a batch of heart rate or accelerometer
    rows to a table, the rows of the table are, in order, the rows of
    the batch that have no empty field, each cast to the dtypes of the
    columns; a row with an empty field is in the table no more, and
    the count the warning reports is the number of rows with an empty
    field (nothing is printed when there is none). *)
Theorem dataframe_from_list_drops_rows_with_empty_field rs cols log df :
  cols = cols_hr \/ cols = cols_accel ->
  Forall (fun r => length r = length cols /\ forallb is_csv_cell r = true) rs ->
  from_list rs cols = (log, Ok df) ->
  Forall2 (present astype_int cols)
          (List.filter (fun r => negb (has_empty r)) rs) (rows df)
  /\ n_rows df = length (List.filter (fun r => negb (has_empty r)) rs)
  /\ log = (let n := length (List.filter has_empty rs) in
            if (0 <? n)%nat then [DroppedRows n] else []).
Proof.
  intros Hcols Hrs H.
  assert (NoDup cols.*1 /\ Forall (fun col => is_int_dtype col.2 = true) cols)
    as [Hnd Hint].
  { destruct Hcols as [-> | ->]; split;
      solve [ apply (bool_decide_unpack _); by vm_compute
            | repeat constructor ]. }
  destruct (from_list_rows _ _ _ _ Hnd Hint Hrs H) as [Hrows Hlog].
  split; [done|]. split; [|done].
  unfold n_rows. symmetry. by eapply Forall2_length.
Qed.

(** *** The whole of [parse_file] *)

Lemma parse_file_inv f v log fd :
  parse f v = (log, Ok fd) ->
  exists df_hr0 df_accel0 meta df_survey df_hr df_accel d_hr d_accel l1 l2 l3 l4 l5,
    let b := (read_file json_loads f v).2 in
    from_list (rows_hr b) cols_hr = (l1, Ok df_hr0)
    /\ from_list (rows_accel b) cols_accel = (l2, Ok df_accel0)
    /\ process_objs (json_objs b) = (l3, Ok (meta, df_survey))
    /\ backfill meta df_hr0 = (l4, Ok df_hr)
    /\ backfill meta df_accel0 = (l5, Ok df_accel)
    /\ series_max (cell "time_elapsed" <$> rows df_hr) = Ok d_hr
    /\ series_max (cell "time_elapsed" <$> rows df_accel) = Ok d_accel
    /\ fd = file_data
              (update_metadata meta (summary df_hr df_accel df_survey d_hr d_accel))
              df_hr df_accel df_survey
    /\ log = (read_file json_loads f v).1 ++ l1 ++ l2 ++ l3 ++ l4 ++ l5.
Proof.
  unfold parse_file. intros H.
  apply bind_Ok in H as (l0 & b & l0' & H0 & H & ->).
  destruct (read_file json_loads f v) as [lr br] eqn:Hread.
  injection H0 as -> ->.
  apply bind_Ok in H as (l1 & df_hr0 & l1' & H1 & H & ->).
  apply bind_Ok in H as (l2 & df_accel0 & l2' & H2 & H & ->).
  apply bind_Ok in H as (l3 & [meta df_survey] & l3' & H3 & H & ->).
  apply bind_Ok in H as (l4 & df_hr & l4' & H4 & H & ->).
  apply bind_Ok in H as (l5 & df_accel & l5' & H5 & H & ->).
  apply bind_Ok in H as (l6 & e_hr & l6' & H6 & H & ->).
  apply lift_Ok in H6 as [H6 ->]. apply get_col_Ok in H6 as ->.
  apply bind_Ok in H as (l7 & d_hr & l7' & H7 & H & ->).
  apply lift_Ok in H7 as [H7 ->].
  apply bind_Ok in H as (l8 & e_accel & l8' & H8 & H & ->).
  apply lift_Ok in H8 as [H8 ->]. apply get_col_Ok in H8 as ->.
  apply bind_Ok in H as (l9 & d_accel & l9' & H9 & H & ->).
  apply lift_Ok in H9 as [H9 ->].
  apply ret_Ok in H as [<- ->].
  exists df_hr0, df_accel0, meta, df_survey, df_hr, df_accel, d_hr, d_accel,
    l1, l2, l3, l4, l5.
  simpl. repeat split; try done. by rewrite !app_nil_r.
Qed.

(** What the back-fill leaves in a row of a converted table. *)
Lemma backfilled_row rs cols l1 df0 meta l2 df r :
  from_list rs cols = (l1, Ok df0) ->
  backfill meta df0 = (l2, Ok df) ->
  r ∈ rows df ->
  exists te, cell "time_elapsed" r = VTimedelta te
    /\ time_add (VTimedelta te) (record_start meta) = Ok (cell "time_absolute" r).
Proof.
  intros H0 H Hr. apply backfill_rows in H.
  apply list_elem_of_lookup in Hr as [i Hi].
  destruct (Forall2_lookup_r _ _ _ _ _ H Hi) as (r0 & Hr0 & ta & Hta & ->).
  destruct (from_list_elapsed _ _ _ _ r0 H0) as [te Hte];
    [by eapply list_elem_of_lookup_2|].
  exists te. rewrite cell_insert_ne by done. rewrite cell_insert_eq.
  split; [done|]. by rewrite <- Hte.
Qed.

(** C6. After [parse_file], every row of the heart rate table and of
    the accelerometer table has [time_absolute = time_elapsed +
    record_start_timestamp], the start read from the returned metadata:
    the sum is exact for a start that is a timestamp, and
    [time_absolute] is not-a-time when the start is. *)
Theorem parse_file_time_absolute f v log fd m key df r :
  parse f v = (log, Ok fd) ->
  fd !! "metadata" = Some (Mapping m) ->
  key = "data_hr" \/ key = "data_accel" ->
  fd !! key = Some (Table df) ->
  r ∈ rows df ->
  exists te,
    cell "time_elapsed" r = VTimedelta te
    /\ time_add (VTimedelta te) (record_start m) = Ok (cell "time_absolute" r)
    /\ (forall s tz, record_start m = VTimestamp s tz ->
          cell "time_absolute" r = VTimestamp (s + te) tz)
    /\ (record_start m = VNaT -> cell "time_absolute" r = VNaT).
Proof.
  intros H Hm Hkey Hdf Hr.
  apply parse_file_inv in H
    as (df_hr0 & df_accel0 & meta & df_survey & df_hr & df_accel & d_hr & d_accel
        & l1 & l2 & l3 & l4 & l5 & H1 & H2 & _ & H4 & H5 & _ & _ & -> & _).
  rewrite file_data_metadata in Hm.
  assert (m = update_metadata meta
                (summary df_hr df_accel df_survey d_hr d_accel)) as ->
    by congruence.
  clear Hm.
  assert (Hstart : record_start
                     (update_metadata meta
                        (summary df_hr df_accel df_survey d_hr d_accel))
                   = record_start meta).
  { apply record_start_ext. apply update_metadata_other.
    unfold summary_keys. rewrite !elem_of_cons, elem_of_nil.
    intros [|[|[|[|[|[]]]]]]; discriminate. }
  rewrite Hstart.
  assert (exists te, cell "time_elapsed" r = VTimedelta te
            /\ time_add (VTimedelta te) (record_start meta)
               = Ok (cell "time_absolute" r)) as (te & Hte & Hadd).
  { destruct Hkey as [-> | ->].
    - rewrite file_data_hr in Hdf. destruct (empty df_hr); [done|].
      injection Hdf as Hdf. subst df.
      exact (backfilled_row _ _ _ _ _ _ _ _ H1 H4 Hr).
    - rewrite file_data_accel in Hdf. destruct (empty df_accel); [done|].
      injection Hdf as Hdf. subst df.
      exact (backfilled_row _ _ _ _ _ _ _ _ H2 H5 Hr). }
  exists te. repeat split; try done.
  - intros s tz Hs. rewrite Hs in Hadd. simpl in Hadd.
    unfold checked in Hadd. destruct (in_time_range _); [|done].
    congruence.
  - intros Hs. rewrite Hs in Hadd. simpl in Hadd. by injection Hadd as <-.
Qed.

Lemma table_entry_intro fd key df :
  fd !! key = (if empty df then None else Some (Table df)) ->
  table_entry fd key (n_rows df).
Proof.
  unfold table_entry. intros ->. destruct (empty df) eqn:E.
  - by apply empty_n_rows.
  - split; [done|]. intros Hn. apply empty_n_rows in Hn. congruence.
Qed.

Lemma series_max_empty df d :
  series_max (cell "time_elapsed" <$> rows df) = Ok d ->
  n_rows df = 0%nat -> d = VNaT.
Proof.
  unfold n_rows. intros H Hn. apply length_zero_iff_nil in Hn.
  rewrite Hn in H. simpl in H. congruence.
Qed.

(** The summary of a returned structure. *)
Lemma parse_file_summary f v log fd :
  parse f v = (log, Ok fd) ->
  exists m n_hr n_accel n_survey d_hr d_accel,
    fd !! "metadata" = Some (Mapping m)
    /\ m !! "n_samples_hr" = Some (VInt (Z.of_nat n_hr))
    /\ m !! "n_samples_accel" = Some (VInt (Z.of_nat n_accel))
    /\ m !! "n_survey_responses" = Some (VInt (Z.of_nat n_survey))
    /\ m !! "duration_hr" = Some d_hr
    /\ m !! "duration_accel" = Some d_accel
    /\ table_entry fd "data_hr" n_hr
    /\ table_entry fd "data_accel" n_accel
    /\ table_entry fd "data_survey" n_survey
    /\ (n_hr = 0%nat -> d_hr = VNaT)
    /\ (n_accel = 0%nat -> d_accel = VNaT).
Proof.
  intros H.
  apply parse_file_inv in H
    as (df_hr0 & df_accel0 & meta & df_survey & df_hr & df_accel & d_hr & d_accel
        & l1 & l2 & l3 & l4 & l5 & _ & _ & _ & _ & _ & Hd1 & Hd2 & -> & _).
  destruct (update_metadata_summary meta df_hr df_accel df_survey d_hr d_accel)
    as (K1 & K2 & K3 & K4 & K5).
  eexists _, (n_rows df_hr), (n_rows df_accel), (n_rows df_survey), d_hr, d_accel.
  split; [apply file_data_metadata|].
  do 5 (split; [done|]).
  split; [apply table_entry_intro, file_data_hr|].
  split; [apply table_entry_intro, file_data_accel|].
  split; [apply table_entry_intro, file_data_survey|].
  split; by apply series_max_empty.
Qed.

(** A file that cannot be opened: the metadata alone, with its
    baseline and its summary. *)
Lemma parse_file_unreadable e v :
  exists log fd m,
    parse (Unreadable e) v = (log, Ok fd)
    /\ fd !! "metadata" = Some (Mapping m)
    /\ fd !! "data_hr" = None /\ fd !! "data_accel" = None
    /\ fd !! "data_survey" = None
    /\ m !! "Parsed_on" = Some (VStr now)
    /\ m !! "StudyName" = Some (VStr "NA")
    /\ m !! "StudyInstance" = Some (VStr "NA")
    /\ m !! "n_samples_hr" = Some (VInt 0)
    /\ m !! "n_samples_accel" = Some (VInt 0)
    /\ m !! "n_survey_responses" = Some (VInt 0)
    /\ m !! "duration_hr" = Some VNaT
    /\ m !! "duration_accel" = Some VNaT.
Proof.
  set (df_hr := Frame (cols_hr.*1 ++ ["time_absolute"]) []).
  set (df_accel := Frame (cols_accel.*1 ++ ["time_absolute"]) []).
  set (df_survey :=
         Frame ["number"; "item"; "question"; "input"; "range"; "response";
                "time_elapsed"; "time_absolute"] []).
  set (m := update_metadata (meta_baseline now)
              (summary df_hr df_accel df_survey VNaT VNaT)).
  set (start := NoStartTimestamp (KeyError "start_UNIXTimeStamp")).
  exists [on_exception e; NoMetadata; start; start; start],
    (file_data m df_hr df_accel df_survey), m.
  split; [vm_compute; reflexivity|].
  split; [apply file_data_metadata|].
  split; [by rewrite file_data_hr|].
  split; [by rewrite file_data_accel|].
  split; [by rewrite file_data_survey|].
  destruct (update_metadata_summary (meta_baseline now) df_hr df_accel df_survey
              VNaT VNaT) as (K1 & K2 & K3 & K4 & K5).
  assert (Hb : forall k, k ∉ summary_keys -> m !! k = meta_baseline now !! k)
    by (intros k; apply update_metadata_other).
  unfold summary_keys in Hb.
  rewrite !Hb by (rewrite !elem_of_cons, elem_of_nil; intros [|[|[|[|[|[]]]]]]; discriminate).
  repeat split; done.
Qed.

(** C10. Whenever [parse_file] returns, also for a file that cannot be
    opened (and then it does return), the metadata has the five summary
    keys; a count is the number of rows of its table and the duration
    of a table without rows is not-a-time; and a table key is in the
    returned structure if and only if its table has a row. *)
Theorem parse_file_metadata_summary :
  (forall e v, exists log fd, parse (Unreadable e) v = (log, Ok fd))
  /\ (forall f v log fd,
        parse f v = (log, Ok fd) ->
        exists m n_hr n_accel n_survey d_hr d_accel,
          fd !! "metadata" = Some (Mapping m)
          /\ m !! "n_samples_hr" = Some (VInt (Z.of_nat n_hr))
          /\ m !! "n_samples_accel" = Some (VInt (Z.of_nat n_accel))
          /\ m !! "n_survey_responses" = Some (VInt (Z.of_nat n_survey))
          /\ m !! "duration_hr" = Some d_hr
          /\ m !! "duration_accel" = Some d_accel
          /\ table_entry fd "data_hr" n_hr
          /\ table_entry fd "data_accel" n_accel
          /\ table_entry fd "data_survey" n_survey
          /\ (n_hr = 0%nat -> d_hr = VNaT)
          /\ (n_accel = 0%nat -> d_accel = VNaT)).
Proof.
  split.
  - intros e v. destruct (parse_file_unreadable e v) as (log & fd & _ & H & _).
    eauto.
  - apply parse_file_summary.
Qed.

(** *** The classification of a line *)

Local Abbreviation line_step := (process_line json_loads).

Lemma legacy_transform_Ok (fields : list string) r' :
  legacy_transform fields = Ok r' ->
  exists src z z',
    fields !! 1%nat = Some src /\ Str.int src = Some z /\ round_div10 z = Ok z'
    /\ r' = <[1%nat := PInt z']> (PStr <$> fields).
Proof.
  unfold legacy_transform.
  destruct (fields !! 1%nat) as [src|]; [|done].
  destruct (Str.int src) as [z|] eqn:Hz; [|done].
  destruct (round_div10 z) as [z'|] eqn:Hz'; [|done].
  intros [= <-]. by exists src, z, z'.
Qed.

Lemma process_line_hr version n raw_line b log b' :
  line_step version n raw_line b = (log, Ok b') ->
  rows_hr b' <> rows_hr b ->
  exists fields r',
    Csv.reader_next (Str.strip raw_line) = Ok fields
    /\ length fields = 5%nat
    /\ accepts_hr_row b b' r'
    /\ (if PrimFloat.ltb version 0.2 then legacy_transform fields
        else Ok (PStr <$> fields)) = Ok r'.
Proof.
  unfold process_line. intros H Hne.
  destruct (Str.strip raw_line) as [|c0 line] eqn:Hline.
  { apply ret_Ok in H as [<- _]. done. }
  destruct (Ascii.eqb c0 "{").
  { destruct (json_loads _) as [o|[]]; try done.
    - apply ret_Ok in H as [<- _]. done.
    - apply bind_Ok in H as (? & ? & ? & _ & H & _).
      apply ret_Ok in H as [<- _]. done. }
  apply bind_Ok in H as (l1 & fields & l2 & H1 & H & ->).
  apply lift_Ok in H1 as [H1 ->].
  destruct fields as [|f0 fs]; [apply ret_Ok in H as [<- _]; done|].
  destruct (Str.startswith "A" f0 && _).
  { apply ret_Ok in H as [<- _]. done. }
  destruct (Str.startswith "A" f0 && _).
  { apply bind_Ok in H as (? & ? & ? & _ & H & _).
    apply ret_Ok in H as [<- _]. done. }
  apply bind_Ok in H as (l3 & c & l4 & H3 & H & ->).
  destruct (Str.isdigit c && Nat.eqb _ _) eqn:Hhr.
  - apply andb_true_iff in Hhr as [_ Hlen]. apply Nat.eqb_eq in Hlen.
    apply bind_Ok in H as (l5 & r' & l6 & H5 & H & ->).
    apply lift_Ok in H5 as [H5 ->]. apply ret_Ok in H as [<- _].
    exists (f0 :: fs), r'. by repeat split.
  - destruct (Str.isdigit c && negb _).
    + apply bind_Ok in H as (? & ? & ? & _ & H & _).
      apply ret_Ok in H as [<- _]. done.
    + apply bind_Ok in H as (? & ? & ? & _ & H & _).
      apply ret_Ok in H as [<- _]. done.
Qed.

(** C1, as the code has it.  For every heart rate row the parser
    accepts, the row it collects has the five source fields, the
    confidence field among them, as they are in the file, for every
    format version; the one field the legacy transform touches is
    [heart_rate_bpm] (field 1), which for a version below 0.2 becomes
    [round(int(field) / 10)]. *)
Theorem hr_row_version_transform version n raw_line b log b' :
  line_step version n raw_line b = (log, Ok b') ->
  rows_hr b' <> rows_hr b ->
  exists fields r',
    Csv.reader_next (Str.strip raw_line) = Ok fields
    /\ length fields = 5%nat
    /\ rows_hr b' = rows_hr b ++ [r']
    /\ length r' = 5%nat
    /\ r' !! 2%nat = PStr <$> fields !! 2%nat
    /\ (forall j, j <> 1%nat -> r' !! j = PStr <$> fields !! j)
    /\ (PrimFloat.ltb version 0.2 = false -> r' = PStr <$> fields)
    /\ (PrimFloat.ltb version 0.2 = true ->
        exists src z z',
          fields !! 1%nat = Some src /\ Str.int src = Some z
          /\ round_div10 z = Ok z' /\ r' !! 1%nat = Some (PInt z')).
Proof.
  intros H Hne.
  destruct (process_line_hr _ _ _ _ _ _ H Hne)
    as (fields & r' & Hcsv & Hlen & (Hrows & _ & _) & Hr').
  exists fields, r'. do 3 (split; [done|]).
  destruct (PrimFloat.ltb version 0.2).
  - apply legacy_transform_Ok in Hr' as (src & z & z' & Hsrc & Hz & Hz' & ->).
    split; [by rewrite length_insert, length_fmap|].
    split; [by rewrite list_lookup_insert_ne, list_lookup_fmap|].
    split; [intros j Hj; by rewrite list_lookup_insert_ne, list_lookup_fmap|].
    split; [done|]. intros _. exists src, z, z'. repeat split; try done.
    apply list_lookup_insert_eq. rewrite length_fmap. lia.
  - injection Hr' as <-.
    split; [by rewrite length_fmap|].
    split; [by rewrite list_lookup_fmap|].
    split; [intros j _; by rewrite list_lookup_fmap|].
    split; [done|]. done.
Qed.

End ParserFacts.

(** ** Input on which [parse_file] returns *)

Lemma mapM_total {A B} (f : A -> result B) l :
  Forall (fun a => exists b, f a = Ok b) l -> exists l', mapM f l = Ok l'.
Proof.
  induction 1 as [|a l [b Hb] _ [l' IH]]; simpl; [by eexists|].
  rewrite Hb, IH. by eexists.
Qed.

Lemma series_max_timedeltas vs :
  Forall (fun v => exists ns, v = VTimedelta ns) vs ->
  exists d, series_max vs = Ok d /\ (d = VNaT \/ exists ns, d = VTimedelta ns).
Proof.
  induction 1 as [|v vs [ns ->] _ (d & IH & Hd)]; simpl; [by eauto|].
  rewrite IH. simpl. destruct Hd as [-> | [ns' ->]]; simpl; [by eauto|].
  destruct (ns <? ns'); eauto.
Qed.

Section CleanFacts.

Context (now : string) (json_loads : string -> result pydict)
  (astype_int : string -> value -> option Z)
  (astype_obj : string -> value -> option value)
  (to_datetime_ms to_datetime_other : value -> result (option Z))
  (timezone : string).

Local Abbreviation record_start := (record_start_timestamp to_datetime_other timezone).
Local Abbreviation backfill := (_process_absolute_timestamps to_datetime_other timezone).
Local Abbreviation from_list := (_dataframe_from_list astype_int astype_obj).
Local Abbreviation cast_row := (astype_row astype_int astype_obj).

Lemma astype_row_total cols (r : row) :
  NoDup cols.*1 ->
  Forall (fun col => exists v, astype_cell astype_int astype_obj col.2 (cell col.1 r) = Ok v)
         cols ->
  exists r', cast_row cols r = Ok r'.
Proof.
  revert r. induction cols as [|[c d] cols IH]; intros r Hnd Hall; simpl.
  - by eexists.
  - apply NoDup_cons in Hnd as [Hc Hnd].
    apply Forall_cons in Hall as [[v Hv] Hall]. simpl in Hv. rewrite Hv.
    apply IH; [done|]. apply Forall_forall. intros [c' d'] Hin.
    rewrite Forall_forall in Hall. destruct (Hall _ Hin) as [v' Hv']. simpl in *.
    exists v'. rewrite cell_insert_ne; [done|].
    intros ->. apply Hc. apply list_elem_of_fmap. by exists (c', d').
Qed.

Lemma dropna_rows rs (cols : list string) :
  NoDup cols ->
  Forall (fun r : list pyobj => length r = length cols /\ forallb is_csv_cell r = true) rs ->
  rows (dropna (replace_empty (Frame cols (row_of_list cols <$> rs))))
  = (fun src => replace_cell <$> row_of_list cols src)
      <$> List.filter (fun r => negb (has_empty r)) rs.
Proof.
  intros Hnd Hrs. unfold dropna, replace_empty. simpl. rewrite <- list_fmap_compose.
  apply filter_fmap_ext. eapply Forall_impl; [done|].
  intros r [Hlen Hcsv]. simpl. unfold compose. by rewrite has_na_row_of_list.
Qed.

(** The cells of a castable row without an empty field. *)
Lemma castable_cells start cols (src : list pyobj) :
  NoDup cols.*1 -> Forall (fun col => is_int_dtype col.2 = true) cols ->
  length src = length cols -> forallb is_csv_cell src = true ->
  has_empty src = false -> castable astype_int start cols src = true ->
  Forall (fun col => exists z,
            astype_cell astype_int astype_obj col.2
              (cell col.1 (replace_cell <$> row_of_list cols.*1 src)) = Ok (VInt z)
            /\ (col.1 = "time_elapsed" -> elapsed_ok start z = true))
         cols.
Proof.
  intros Hnd Hint Hlen Hcsv Hne Hc. unfold castable in Hc. rewrite Hne in Hc.
  simpl in Hc. rewrite forallb_forall in Hc.
  apply Forall_lookup. intros j [c d] Hj. simpl.
  destruct (lookup_lt_is_Some_2 src j) as [o Ho].
  { rewrite Hlen. by eapply lookup_lt_Some. }
  specialize (Hc ((c, d), o)). simpl in Hc. unfold castable_cell in Hc. simpl in Hc.
  assert (Hin : In ((c, d), o) (zip cols src)).
  { apply list_elem_of_In. apply list_elem_of_lookup. exists j.
    by apply lookup_zip_with_Some; eauto. }
  specialize (Hc Hin).
  destruct (astype_int d (VObj o)) as [z|] eqn:Hz; [|done].
  exists z. split.
  - erewrite cell_row_of_list; [| | |done]; [|done|by rewrite list_lookup_fmap, Hj].
    assert (Ho' : is_empty_str o = false).
    { unfold has_empty in Hne. rewrite <- not_true_iff_false in Hne |- *.
      intros Hoe. apply Hne. apply existsb_exists. exists o. split; [|done].
      apply list_elem_of_In. by eapply list_elem_of_lookup_2. }
    assert (Hrep : replace_cell (VObj o) = VObj o)
      by by destruct o as [| | | |[|]| |].
    rewrite Hrep. unfold astype_cell. rewrite Forall_lookup in Hint.
    specialize (Hint _ _ Hj). simpl in Hint. by rewrite Hint, Hz.
  - intros ->. by rewrite String.eqb_refl in Hc.
Qed.

Lemma from_list_intro rs cols df0 df3 df :
  new_frame rs cols.*1 = Ok df0 ->
  astype astype_int astype_obj cols (dropna (replace_empty df0)) = Ok df3 ->
  to_timedelta_cols timedelta_cols df3 = Ok df ->
  from_list rs cols
  = ((let n := (n_rows df0 - n_rows (dropna (replace_empty df0)))%nat in
      if (0 <? n)%nat then [DroppedRows n] else []), Ok df).
Proof.
  intros H0 H3 H. unfold _dataframe_from_list. rewrite H0.
  unfold bind, lift, print, ret. cbv beta iota zeta.
  destruct (0 <? _)%nat; rewrite H3; cbv beta iota; rewrite H; reflexivity.
Qed.

Lemma from_list_total start rs cols :
  NoDup cols.*1 -> Forall (fun col => is_int_dtype col.2 = true) cols ->
  "time_elapsed" ∈ cols.*1 ->
  Forall (fun r => length r = length cols /\ forallb is_csv_cell r = true) rs ->
  forallb (castable astype_int start cols) rs = true ->
  exists l df,
    from_list rs cols = (l, Ok df)
    /\ "time_elapsed" ∈ columns df
    /\ Forall (fun r : row =>
                 exists ms, cell "time_elapsed" r = VTimedelta (ms * 1000000)
                            /\ elapsed_ok start ms = true) (rows df).
Proof.
  intros Hnd Hint Hte Hrs Hc.
  set (g := fun src : list pyobj => replace_cell <$> row_of_list cols.*1 src).
  set (kept := List.filter (fun r => negb (has_empty r)) rs).
  assert (Hdrop : rows (dropna (replace_empty (Frame cols.*1 (row_of_list cols.*1 <$> rs))))
                  = g <$> kept).
  { apply dropna_rows; [done|]. eapply Forall_impl; [done|].
    intros r [Hr ?]. by rewrite length_fmap. }
  assert (Hkept : Forall (fun src => exists r3,
                            cast_row cols (g src) = Ok r3
                            /\ exists ms, cell "time_elapsed" r3 = VInt ms
                                          /\ elapsed_ok start ms = true) kept).
  { apply Forall_forall. intros src Hsrc.
    apply list_elem_of_In, filter_In in Hsrc as [Hin Hne].
    apply negb_true_iff in Hne.
    rewrite Forall_forall in Hrs. destruct (Hrs src) as [Hlen Hcsv];
      [by apply list_elem_of_In|].
    rewrite forallb_forall in Hc. specialize (Hc _ Hin).
    pose proof (castable_cells _ _ _ Hnd Hint Hlen Hcsv Hne Hc) as Hcells.
    destruct (astype_row_total cols (g src) Hnd) as [r3 Hr3].
    { eapply Forall_impl; [done|]. intros col (z & Hz & _). eauto. }
    exists r3. split; [done|].
    apply astype_row_cells in Hr3 as [Hr3 _]; [|done].
    apply list_elem_of_fmap in Hte as ([c d] & Hcd & Hin'). simpl in Hcd. subst c.
    rewrite Forall_forall in Hcells, Hr3.
    destruct (Hcells _ Hin') as (z & Hz & Hok). specialize (Hr3 _ Hin').
    simpl in *. exists z. split; [|by apply Hok].
    unfold g in Hr3. rewrite Hz in Hr3. by injection Hr3. }
  destruct (mapM_total (cast_row cols) (g <$> kept)) as [rows3 Hrows3].
  { apply Forall_fmap. eapply Forall_impl; [exact Hkept|].
    intros src (r3 & H & _). simpl. eauto. }
  assert (H3 : Forall (fun r3 : row => exists ms, cell "time_elapsed" r3 = VInt ms
                                                  /\ elapsed_ok start ms = true) rows3).
  { pose proof (mapM_Ok_Forall2 _ _ _ Hrows3) as HF. apply Forall2_fmap_l in HF.
    apply Forall_forall. intros r3 Hin. apply list_elem_of_lookup in Hin as [i Hi].
    destruct (Forall2_lookup_r _ _ _ _ _ HF Hi) as (src & Hsrc & Hcast).
    rewrite Forall_lookup in Hkept.
    destruct (Hkept _ _ Hsrc) as (r3' & Hcast' & Hms). simpl in Hcast.
    assert (r3 = r3') as -> by congruence. exact Hms. }
  destruct (mapM_total to_timedelta_ms (cell "time_elapsed" <$> rows3)) as [vs Hvs].
  { apply Forall_fmap. eapply Forall_impl; [exact H3|].
    intros r3 (ms & Hms & Hok). simpl. rewrite Hms. simpl.
    unfold elapsed_ok in Hok. apply andb_true_iff in Hok as [Hok _].
    unfold checked. rewrite Hok. eauto. }
  eexists _, (set_col "time_elapsed" vs (Frame cols.*1 rows3)).
  split; [|split].
  - eapply from_list_intro.
    + apply new_frame_Ok. eapply Forall_impl; [done|].
      intros r [Hr _]. by rewrite length_fmap.
    + unfold astype. rewrite Hdrop. fold g. by rewrite Hrows3.
    + unfold timedelta_cols. simpl. unfold map_col, get_col. simpl.
      rewrite bool_decide_eq_true_2 by done. by rewrite Hvs.
  - unfold set_col. simpl. by rewrite bool_decide_eq_true_2.
  - rewrite rows_set_col. simpl.
    apply mapM_Ok_Forall2 in Hvs.
    pose proof (zip_with_insert_Forall2 to_timedelta_ms "time_elapsed" "time_elapsed"
                  rows3 vs Hvs) as HF.
    apply Forall_forall. intros r Hin. apply list_elem_of_lookup in Hin as [i Hi].
    destruct (Forall2_lookup_r _ _ _ _ _ HF Hi) as (r3 & Hr3 & v & Hv & ->).
    rewrite Forall_lookup in H3. destruct (H3 _ _ Hr3) as (ms & Hms & Hok).
    exists ms. split; [|done]. rewrite cell_insert_eq. rewrite Hms in Hv. simpl in Hv.
    unfold elapsed_ok in Hok. apply andb_true_iff in Hok as [Hok' _].
    unfold checked in Hv. rewrite Hok' in Hv. congruence.
Qed.

Lemma backfill_total meta df :
  "time_elapsed" ∈ columns df ->
  Forall (fun r : row =>
            exists ms, cell "time_elapsed" r = VTimedelta (ms * 1000000)
                       /\ elapsed_ok (record_start meta) ms = true) (rows df) ->
  exists l df',
    backfill meta df = (l, Ok df')
    /\ "time_elapsed" ∈ columns df'
    /\ Forall (fun v => exists ns, v = VTimedelta ns) (cell "time_elapsed" <$> rows df').
Proof.
  intros Hte Hrows. unfold _process_absolute_timestamps.
  destruct (get_start_timestamp_returns to_datetime_other timezone meta) as [ls Hs].
  destruct (mapM_total (fun te => time_add te (record_start meta))
              (cell "time_elapsed" <$> rows df)) as [absolute Habs].
  { apply Forall_fmap. eapply Forall_impl; [exact Hrows|].
    intros r (ms & Hms & Hok). simpl. rewrite Hms.
    unfold elapsed_ok in Hok. apply andb_true_iff in Hok as [_ Hok].
    destruct (time_add _ _); [eauto|done]. }
  eexists _, (set_col "time_absolute" absolute df). split; [|split].
  - eapply bind_Ok_intro.
    { unfold get_col. by rewrite bool_decide_eq_true_2. }
    eapply bind_Ok_intro; [exact Hs|].
    eapply bind_Ok_intro; [by rewrite Habs|]. reflexivity.
  - unfold set_col. simpl. case_bool_decide; [done|]. apply elem_of_app. by left.
  - rewrite rows_set_col. apply Forall_fmap.
    apply mapM_Ok_Forall2 in Habs.
    pose proof (zip_with_insert_Forall2 _ "time_elapsed" "time_absolute" _ _ Habs) as HF.
    apply Forall_forall. intros r Hin. apply list_elem_of_lookup in Hin as [i Hi].
    destruct (Forall2_lookup_r _ _ _ _ _ HF Hi) as (r0 & Hr0 & v & Hv & ->).
    rewrite Forall_lookup in Hrows. destruct (Hrows _ _ Hr0) as (ms & Hms & _).
    simpl. rewrite cell_insert_ne by done. eauto.
Qed.

(** *** The objects *)

Lemma copy_items_is_Some prefix items (m : metadata) k :
  is_Some (m !! k) -> is_Some (copy_items prefix items m !! k).
Proof.
  unfold copy_items. revert m. induction items as [|[k' v] items IH]; intros m Hm; simpl.
  - done.
  - apply IH. destruct (decide (prefix +:+ k' = k)) as [<-|Hne].
    + rewrite lookup_insert_eq. by eexists.
    + by rewrite lookup_insert_ne.
Qed.

Lemma process_json_obj_total o (st : metadata * list pydict) :
  well_shaped o = true ->
  exists l m',
    process_json_obj o st = (l, Ok (m', st.2 ++ (if is_survey o then [o] else [])))
    /\ keeps_keys st.1 m'.
Proof.
  intros Hw. destruct st as [m rs].
  unfold process_json_obj, is_survey, dict_has, subscript.
  unfold well_shaped, dict_has in Hw. simpl.
  assert (Hcopy : forall p items, keeps_keys m (copy_items p items m))
    by (intros p items k; apply copy_items_is_Some).
  assert (Hcopy2 : forall p items p' items',
             keeps_keys m (copy_items p items (copy_items p' items' m)))
    by (intros p items p' items' k Hk; by do 2 apply copy_items_is_Some).
  assert (Hid : keeps_keys m m) by by intros k.
  destruct (dict_get "File" o) as [file_info|] eqn:HF.
  { destruct file_info; try done. simpl. rewrite app_nil_r. by eexists _, _. }
  destruct (dict_get "Status" o) as [status|] eqn:HS.
  { destruct status as [| | | | | |status]; try done. simpl.
    destruct (dict_get "state" status) as [state|] eqn:Hst; [|done]. simpl.
    destruct (eq_str state "START_RECORD") eqn:E1; simpl in *.
    { destruct (dict_get "Record" o) as [[]|] eqn:HR; try done.
      simpl. rewrite app_nil_r. by eexists _, _. }
    destruct (eq_str state "STOP_RECORD") eqn:E2; simpl in *.
    { destruct (dict_get "Record" o) as [[]|] eqn:HR; try done.
      simpl. rewrite app_nil_r. by eexists _, _. }
    rewrite app_nil_r. by eexists _, _. }
  destruct (dict_get "Record" o) as [record|] eqn:HR.
  { destruct record as [| | | | | |record]; try done. simpl.
    destruct (dict_get "State" record) as [state|] eqn:Hst; [|done]. simpl.
    destruct (eq_str state "START_RECORD"); simpl;
      [rewrite app_nil_r; by eexists _, _|].
    destruct (eq_str state "STOP_RECORD"); simpl; rewrite app_nil_r; by eexists _, _. }
  simpl. destruct (dict_get "question" o); simpl.
  - by eexists _, _.
  - rewrite app_nil_r. by eexists _, _.
Qed.

Lemma process_json_list_total objs (st : metadata * list pydict) :
  forallb well_shaped objs.*2 = true ->
  exists l m',
    process_json_list objs st
    = (l, Ok (m', st.2 ++ List.filter is_survey objs.*2))
    /\ keeps_keys st.1 m'.
Proof.
  revert st. induction objs as [|[n o] objs IH]; intros st Hw; simpl in *.
  - rewrite app_nil_r. destruct st as [m rs]. exists [], m. split; [done|]. by intros k.
  - apply andb_true_iff in Hw as [Ho Hw].
    destruct (process_json_obj_total o st Ho) as (l1 & m1 & H1 & K1).
    destruct (IH (m1, st.2 ++ (if is_survey o then [o] else [])) Hw)
      as (l2 & m2 & H2 & K2).
    eexists _, m2. split; [|intros k Hk; by apply K2, K1].
    eapply bind_Ok_intro; [exact H1|]. rewrite H2. simpl.
    destruct (is_survey o); simpl; by rewrite <- ?app_assoc, ?app_nil_r.
Qed.

Lemma reconciled_eq objs l st :
  process_json_list objs (meta_baseline now, []) = (l, Ok st) ->
  reconciled now objs = st.1.
Proof. intros H. unfold reconciled. by rewrite H. Qed.

(** *** The survey frame *)

Lemma zip_with_fmap_const {A B C D} (f : B -> C -> D) (g : A -> B) (c : C) (l : list A) :
  zip_with f (g <$> l) ((fun _ => c) <$> (g <$> l)) = (fun a => f (g a) c) <$> l.
Proof. induction l as [|a l IH]; csimpl; [done|]. by rewrite IH. Qed.

Local Abbreviation survey :=
  (survey_frame astype_int astype_obj to_datetime_ms to_datetime_other timezone).
Local Abbreviation response_ok :=
  (survey_ok astype_int astype_obj to_datetime_ms timezone).

Lemma survey_frame_total rows_survey meta :
  forallb (response_ok (record_start meta)) rows_survey = true ->
  exists l df, survey rows_survey meta = (l, Ok df).
Proof.
  intros Hok. unfold survey_frame.
  set (start := record_start meta) in *.
  set (h := fun o : pydict =>
              <["time_elapsed" := VInt 0]> (row_of_dict cols_survey.*1 o)).
  set (df1 := set_col "time_elapsed" _ _).
  assert (Hdf1 : df1 = Frame cols_survey.*1 (h <$> rows_survey)).
  { unfold df1, set_col. simpl. f_equal.
    apply (zip_with_fmap_const (fun (r : row) v => <["time_elapsed" := v]> r)). }
  rewrite Hdf1. clear df1 Hdf1.
  assert (Hrows : Forall (fun o => exists r t v,
                            cast_row cols_survey (h o) = Ok r
                            /\ to_datetime_ms (cell "timeStamp" r) = Ok t
                            /\ time_sub (tz_convert timezone t) start = Ok v)
                         rows_survey).
  { apply Forall_forall. intros o Hin. rewrite forallb_forall in Hok.
    apply list_elem_of_In in Hin. specialize (Hok o Hin).
    unfold survey_ok in Hok. fold (h o) in Hok.
    destruct (cast_row cols_survey (h o)) as [r|] eqn:Hr; [|done].
    destruct (to_datetime_ms (cell "timeStamp" r)) as [t|] eqn:Ht; [|done].
    destruct (time_sub (tz_convert timezone t) start) as [v|] eqn:Hv; [|done].
    by exists r, t, v. }
  destruct (mapM_total (cast_row cols_survey) (h <$> rows_survey)) as [rows3 H3].
  { apply Forall_fmap. eapply Forall_impl; [exact Hrows|].
    intros o (r & _ & _ & Hr & _). simpl. eauto. }
  pose proof (mapM_Ok_Forall2 _ _ _ H3) as HF3. apply Forall2_fmap_l in HF3.
  set (conv := fun v => match to_datetime_ms v with
                        | Ok t => Ok (tz_convert timezone t)
                        | Raise e => Raise e
                        end).
  assert (Hstamps : Forall (fun r3 : row => exists ta v,
                              conv (cell "timeStamp" r3) = Ok ta
                              /\ time_sub ta start = Ok v) rows3).
  { apply Forall_forall. intros r3 Hin. apply list_elem_of_lookup in Hin as [i Hi].
    destruct (Forall2_lookup_r _ _ _ _ _ HF3 Hi) as (o & Ho & Hcast).
    rewrite Forall_lookup in Hrows.
    destruct (Hrows _ _ Ho) as (r & t & v & Hr & Ht & Hv). cbv beta in Hcast.
    assert (r3 = r) as -> by congruence.
    exists (tz_convert timezone t), v. unfold conv. by rewrite Ht. }
  destruct (mapM_total conv (cell "timeStamp" <$> rows3)) as [absolute Habs].
  { apply Forall_fmap. eapply Forall_impl; [exact Hstamps|].
    intros r3 (ta & _ & Hta & _). simpl. eauto. }
  destruct (mapM_total (fun ta => time_sub ta start) absolute) as [elapsed Hel].
  { pose proof (mapM_Ok_Forall2 _ _ _ Habs) as HFa. apply Forall2_fmap_l in HFa.
    apply Forall_forall. intros ta Hin. apply list_elem_of_lookup in Hin as [i Hi].
    destruct (Forall2_lookup_r _ _ _ _ _ HFa Hi) as (r3 & Hr3 & Hconv).
    rewrite Forall_lookup in Hstamps.
    destruct (Hstamps _ _ Hr3) as (ta' & v & Hta' & Hv). cbv beta in Hconv.
    assert (ta = ta') as -> by congruence. eauto. }
  destruct (get_start_timestamp_returns to_datetime_other timezone meta) as [ls Hs].
  eexists _, _.
  eapply bind_Ok_intro; [unfold astype; cbn [rows columns]; by rewrite H3|].
  eapply bind_Ok_intro; [reflexivity|]. cbn [rows columns].
  eapply bind_Ok_intro; [fold conv; by rewrite Habs|].
  eapply bind_Ok_intro; [exact Hs|].
  eapply bind_Ok_intro; [fold start; by rewrite Hel|].
  reflexivity.
Qed.

(** *** The rows the reading collects *)

Lemma forallb_csv_fmap (r : list string) : forallb is_csv_cell (PStr <$> r) = true.
Proof. induction r as [|s r IH]; [done|]. by rewrite fmap_cons. Qed.

Lemma forallb_csv_insert (r : list pyobj) i z :
  forallb is_csv_cell r = true -> forallb is_csv_cell (<[i := PInt z]> r) = true.
Proof.
  revert i. induction r as [|o r IH]; intros i H; [done|].
  simpl in H. apply andb_true_iff in H as [Ho Hr].
  destruct i as [|i]; simpl; [done|]. by rewrite Ho, IH.
Qed.

Lemma process_line_wf version n raw_line b l b' :
  process_line json_loads version n raw_line b = (l, Ok b') ->
  batches_wf b -> batches_wf b'.
Proof.
  unfold process_line. intros H [Hhr Hac].
  destruct (Str.strip raw_line) as [|c0 line] eqn:Hline.
  { apply ret_Ok in H as [<- _]. done. }
  destruct (Ascii.eqb c0 "{").
  { destruct (json_loads _) as [o|[]]; try done.
    - apply ret_Ok in H as [<- _]. done.
    - apply bind_Ok in H as (? & ? & ? & _ & H & _).
      apply ret_Ok in H as [<- _]. done. }
  apply bind_Ok in H as (l1 & fields & l2 & H1 & H & ->).
  destruct fields as [|f0 fs]; [apply ret_Ok in H as [<- _]; done|].
  destruct (Str.startswith "A" f0 && Nat.eqb _ _) eqn:Hacc.
  { apply ret_Ok in H as [<- _]. split; [done|]. cbn [rows_accel].
    apply andb_true_iff in Hacc as [_ Hlen]. apply Nat.eqb_eq in Hlen.
    apply Forall_app. split; [done|]. constructor; [|constructor].
    split; [rewrite <- Hlen; rewrite !length_cons; by rewrite length_fmap|].
    apply (forallb_csv_fmap (_ :: fs)). }
  destruct (Str.startswith "A" f0 && negb _).
  { apply bind_Ok in H as (? & ? & ? & _ & H & _).
    apply ret_Ok in H as [<- _]. done. }
  apply bind_Ok in H as (l3 & c & l4 & H3 & H & ->).
  destruct (Str.isdigit c && Nat.eqb _ _) eqn:Hhrow.
  - apply andb_true_iff in Hhrow as [_ Hlen]. apply Nat.eqb_eq in Hlen.
    apply bind_Ok in H as (l5 & r' & l6 & H5 & H & ->).
    apply lift_Ok in H5 as [H5 ->]. apply ret_Ok in H as [<- _].
    split; [|done]. cbn [rows_hr]. apply Forall_app. split; [done|].
    constructor; [|constructor].
    destruct (PrimFloat.ltb version 0.2).
    + apply legacy_transform_Ok in H5 as (src & z & z' & _ & _ & _ & ->).
      split; [by rewrite length_insert, length_fmap|].
      apply forallb_csv_insert, forallb_csv_fmap.
    + assert (r' = PStr <$> f0 :: fs) as -> by congruence.
      split; [by rewrite length_fmap|apply forallb_csv_fmap].
  - destruct (Str.isdigit c && negb _).
    + apply bind_Ok in H as (? & ? & ? & _ & H & _).
      apply ret_Ok in H as [<- _]. done.
    + apply bind_Ok in H as (? & ? & ? & _ & H & _).
      apply ret_Ok in H as [<- _]. done.
Qed.

Lemma read_lines_wf version n ls b l b' e :
  read_lines json_loads version n ls b = (l, b', e) -> batches_wf b -> batches_wf b'.
Proof.
  revert n b l b' e. induction ls as [|raw ls IH]; intros n b l b' e; simpl.
  - by intros [= <- <- <-].
  - destruct (process_line json_loads version n raw b) as [l1 [b1|e1]] eqn:H1.
    + destruct (read_lines json_loads version (S n) ls b1) as [[l2 b2] e2] eqn:H2.
      intros [= <- <- <-] Hb. eapply IH; [done|]. by eapply process_line_wf.
    + by intros [= <- <- <-].
Qed.

Lemma read_file_wf f version : batches_wf (read_file json_loads f version).2.
Proof.
  unfold read_file. destruct f as [e|ls failure]; [by split; constructor|].
  destruct (read_lines json_loads version 0 ls (Batches [] [] [])) as [[l b] e] eqn:H.
  apply read_lines_wf in H; [|by split; constructor].
  by destruct e, failure.
Qed.

(** *** The whole of [parse_file] *)

Local Abbreviation process_objs :=
  (_process_json_objs now astype_int astype_obj to_datetime_ms to_datetime_other
     timezone).
Local Abbreviation parse :=
  (parse_file now json_loads astype_int astype_obj to_datetime_ms
     to_datetime_other timezone).
Local Abbreviation is_clean :=
  (clean now json_loads astype_int astype_obj to_datetime_ms to_datetime_other
     timezone).

Lemma process_json_objs_total objs :
  forallb well_shaped objs.*2 = true ->
  forallb (response_ok (record_start (reconciled now objs)))
          (List.filter is_survey objs.*2) = true ->
  exists l df,
    process_objs objs = (l, Ok (reconciled now objs, df))
    /\ keeps_keys (meta_baseline now) (reconciled now objs).
Proof.
  intros Hw Hs.
  destruct (process_json_list_total objs (meta_baseline now, []) Hw)
    as (l1 & m' & H1 & K).
  rewrite (reconciled_eq _ _ _ H1) in *. cbn [fst snd app] in *.
  destruct (survey_frame_total _ _ Hs) as (l2 & df & H2).
  unfold _process_json_objs. destruct objs as [|o objs].
  - assert (m' = meta_baseline now) as ->
      by (cbn in H1; unfold ret in H1; congruence).
    eexists _, df. split; [|done].
    eapply bind_Ok_intro; [reflexivity|]. cbn [fst snd].
    eapply bind_Ok_intro; [exact H2|]. reflexivity.
  - eexists _, df. split; [|done].
    eapply bind_Ok_intro; [exact H1|]. cbn [fst snd].
    eapply bind_Ok_intro; [exact H2|]. reflexivity.
Qed.

Lemma update_metadata_keeps_keys meta update : keeps_keys meta (update_metadata meta update).
Proof.
  unfold update_metadata. revert meta.
  induction update as [|[k v] update IH]; intros meta k' Hk'; simpl; [done|].
  apply IH. destruct (decide (k = k')) as [->|Hne].
  - rewrite lookup_insert_eq. by eexists.
  - by rewrite lookup_insert_ne.
Qed.

(** Clean input makes [parse_file] return, with the baseline and the
    summary in its metadata. *)
Lemma clean_input_parses f v :
  is_clean f v = true ->
  exists log fd m,
    parse f v = (log, Ok fd)
    /\ fd !! "metadata" = Some (Mapping m)
    /\ Forall (fun k => is_Some (m !! k))
         (["Parsed_on"; "StudyName"; "StudyInstance"] ++ summary_keys).
Proof.
  unfold clean. intros Hclean.
  assert (Hread : (let '(l, b0) := read_file json_loads f v in (l, Ok b0))
                  = ((read_file json_loads f v).1, Ok (read_file json_loads f v).2))
    by by destruct (read_file json_loads f v).
  set (b := (read_file json_loads f v).2) in *.
  set (meta := reconciled now (json_objs b)) in *.
  set (start := record_start meta) in *.
  apply andb_true_iff in Hclean as [Hclean _].
  apply andb_true_iff in Hclean as [Hclean Hsv].
  apply andb_true_iff in Hclean as [Hclean Hac].
  apply andb_true_iff in Hclean as [Hws Hhr].
  destruct (read_file_wf f v) as [Whr Wac]. fold b in Whr, Wac.
  assert (Hcols : forall cols, cols = cols_hr \/ cols = cols_accel ->
            NoDup cols.*1 /\ Forall (fun col => is_int_dtype col.2 = true) cols
            /\ "time_elapsed" ∈ cols.*1).
  { intros cols [-> | ->]; (split; [|split]);
      solve [ apply (bool_decide_unpack _); by vm_compute
            | repeat constructor ]. }
  destruct (Hcols cols_hr) as (N1 & I1 & T1); [by left|].
  destruct (Hcols cols_accel) as (N2 & I2 & T2); [by right|].
  destruct (from_list_total start _ _ N1 I1 T1 Whr Hhr) as (l1 & df_hr0 & H1 & C1 & R1).
  destruct (from_list_total start _ _ N2 I2 T2 Wac Hac) as (l2 & df_ac0 & H2 & C2 & R2).
  destruct (process_json_objs_total _ Hws Hsv) as (l3 & df_survey & H3 & K3).
  fold meta in H3, K3.
  destruct (backfill_total meta _ C1 R1) as (l4 & df_hr & H4 & C4 & R4).
  destruct (backfill_total meta _ C2 R2) as (l5 & df_ac & H5 & C5 & R5).
  destruct (series_max_timedeltas _ R4) as (d_hr & D4 & _).
  destruct (series_max_timedeltas _ R5) as (d_ac & D5 & _).
  set (m := update_metadata meta (summary df_hr df_ac df_survey d_hr d_ac)).
  eexists _, (file_data m df_hr df_ac df_survey), m. split; [|split].
  - unfold parse_file.
    eapply bind_Ok_intro; [exact Hread|].
    eapply bind_Ok_intro; [exact H1|].
    eapply bind_Ok_intro; [exact H2|].
    eapply bind_Ok_intro; [exact H3|]. cbv beta iota.
    eapply bind_Ok_intro; [exact H4|].
    eapply bind_Ok_intro; [exact H5|].
    eapply bind_Ok_intro.
    { unfold get_col. by rewrite bool_decide_eq_true_2. }
    eapply bind_Ok_intro; [by rewrite D4|].
    eapply bind_Ok_intro.
    { unfold get_col. by rewrite bool_decide_eq_true_2. }
    eapply bind_Ok_intro; [by rewrite D5|].
    reflexivity.
  - apply file_data_metadata.
  - destruct (update_metadata_summary meta df_hr df_ac df_survey d_hr d_ac)
      as (S1 & S2 & S3 & S4 & S5).
    fold m in S1, S2, S3, S4, S5.
    pose proof (update_metadata_keeps_keys meta
                  (summary df_hr df_ac df_survey d_hr d_ac)) as K.
    fold m in K.
    repeat constructor; try (by eexists);
      apply K, K3; unfold meta_baseline; by simplify_map_eq.
Qed.

(** *** The messages of a call that returns *)

Local Abbreviation get_start := (_get_start_timestamp to_datetime_other timezone).
Local Abbreviation start_of := (start_message to_datetime_other timezone).
Local Abbreviation after_reading :=
  (messages_after_reading now to_datetime_other timezone).

Lemma process_json_obj_log o (st st' : metadata * list pydict) l :
  process_json_obj o st = (l, Ok st') ->
  l = if is_unknown o then [UnknownObject o] else [].
Proof.
  destruct st as [m rs].
  unfold process_json_obj, is_unknown, dict_has, subscript, items_of.
  destruct (dict_get "File" o) as [file_info|] eqn:HF.
  { destruct file_info; try done. cbn [bind lift ret print app andb negb].
    by intros [= <- <-]. }
  destruct (dict_get "Status" o) as [status|] eqn:HS.
  { destruct status as [| | | | | |status]; try done. cbn [bind lift ret print app andb negb].
    destruct (dict_get "state" status) as [state|] eqn:Hst; [|done].
    cbn [bind lift ret print app andb negb].
    destruct (eq_str state "START_RECORD") eqn:E1; cbn [bind lift ret print app andb negb].
    { destruct (dict_get "Record" o) as [[]|] eqn:HR; try done.
      cbn [bind lift ret print app andb negb]. by intros [= <- <-]. }
    destruct (eq_str state "STOP_RECORD") eqn:E2; cbn [bind lift ret print app andb negb].
    { destruct (dict_get "Record" o) as [[]|] eqn:HR; try done.
      cbn [bind lift ret print app andb negb]. by intros [= <- <-]. }
    by intros [= <- <-]. }
  destruct (dict_get "Record" o) as [record|] eqn:HR.
  { destruct record as [| | | | | |record]; try done. cbn [bind lift ret print app andb negb].
    destruct (dict_get "State" record) as [state|] eqn:Hst; [|done].
    cbn [bind lift ret print app andb negb].
    destruct (eq_str state "START_RECORD"); cbn [bind lift ret print app andb negb];
      [by intros [= <- <-]|].
    destruct (eq_str state "STOP_RECORD"); cbn [bind lift ret print app andb negb];
      by intros [= <- <-]. }
  cbn [bind lift ret print app andb negb].
  destruct (dict_get "question" o); cbn [bind lift ret print app andb negb];
    by intros [= <- <-].
Qed.

Lemma process_json_list_log objs (st st' : metadata * list pydict) l :
  process_json_list objs st = (l, Ok st') ->
  l = UnknownObject <$> List.filter is_unknown objs.*2.
Proof.
  revert st l. induction objs as [|[n o] objs IH]; intros st l; simpl.
  - by intros [= <- <-].
  - intros H. apply bind_Ok in H as (l1 & st1 & l2 & H1 & H2 & ->).
    apply process_json_obj_log in H1 as ->. apply IH in H2 as ->.
    by destruct (is_unknown o).
Qed.

Lemma get_start_log meta l v : get_start meta = (l, Ok v) -> l = start_of meta.
Proof. unfold start_message. by intros ->. Qed.

Lemma backfill_log meta df l df' :
  backfill meta df = (l, Ok df') -> l = start_of meta.
Proof.
  unfold _process_absolute_timestamps. intros H.
  apply bind_Ok in H as (l1 & elapsed & l2 & H1 & H & ->).
  apply lift_Ok in H1 as [_ ->].
  apply bind_Ok in H as (l3 & start & l4 & H2 & H & ->).
  apply bind_Ok in H as (l5 & absolute & l6 & H3 & H & ->).
  apply lift_Ok in H3 as [_ ->]. apply ret_Ok in H as [_ ->].
  apply get_start_log in H2 as ->. by rewrite !app_nil_r.
Qed.

Lemma survey_frame_log rows_survey meta l df :
  survey rows_survey meta = (l, Ok df) -> l = start_of meta.
Proof.
  unfold survey_frame. intros H.
  apply bind_Ok in H as (l1 & df3 & l1' & H1 & H & ->).
  apply lift_Ok in H1 as [_ ->].
  apply bind_Ok in H as (l2 & stamps & l2' & H2 & H & ->).
  apply lift_Ok in H2 as [_ ->].
  apply bind_Ok in H as (l4 & absolute & l4' & H4 & H & ->).
  apply lift_Ok in H4 as [_ ->].
  apply bind_Ok in H as (l5 & start & l5' & H5 & H & ->).
  apply bind_Ok in H as (l6 & elapsed & l6' & H6 & H & ->).
  apply lift_Ok in H6 as [_ ->].
  apply lift_Ok in H as [_ ->].
  apply get_start_log in H5 as ->. by rewrite !app_nil_r.
Qed.

Lemma process_objs_log objs l meta df :
  process_objs objs = (l, Ok (meta, df)) ->
  meta = reconciled now objs /\ l = object_messages objs ++ start_of meta.
Proof.
  unfold _process_json_objs. intros H.
  apply bind_Ok in H as (l1 & st & l2 & H1 & H & ->).
  apply bind_Ok in H as (l3 & df' & l4 & H3 & H & ->).
  apply ret_Ok in H as [[= <- <-] ->].
  apply survey_frame_log in H3 as ->. rewrite app_nil_r.
  destruct objs as [|o objs].
  - apply bind_Ok in H1 as (l5 & [] & l6 & H5 & H1 & ->).
    apply ret_Ok in H1 as [<- ->]. injection H5 as <-. done.
  - pose proof (reconciled_eq _ _ _ H1) as ->.
    by apply process_json_list_log in H1 as ->.
Qed.

(** What [parse_file] prints when it returns. *)
Lemma parse_file_log f v log fd :
  parse f v = (log, Ok fd) ->
  log = (read_file json_loads f v).1
        ++ messages_after_reading now to_datetime_other timezone
             (read_file json_loads f v).2.
Proof.
  intros H.
  apply parse_file_inv in H
    as (df_hr0 & df_accel0 & meta & df_survey & df_hr & df_accel & d_hr & d_accel
        & l1 & l2 & l3 & l4 & l5 & H1 & H2 & H3 & H4 & H5 & _ & _ & _ & ->).
  destruct (read_file_wf f v) as [Whr Wac].
  assert (Hcols : forall cols, cols = cols_hr \/ cols = cols_accel ->
            NoDup cols.*1 /\ Forall (fun col => is_int_dtype col.2 = true) cols).
  { intros cols [-> | ->]; split;
      solve [ apply (bool_decide_unpack _); by vm_compute | repeat constructor ]. }
  destruct (Hcols cols_hr) as [N1 I1]; [by left|].
  destruct (Hcols cols_accel) as [N2 I2]; [by right|].
  destruct (from_list_rows _ _ _ _ _ _ N1 I1 Whr H1) as [_ ->].
  destruct (from_list_rows _ _ _ _ _ _ N2 I2 Wac H2) as [_ ->].
  apply process_objs_log in H3 as [-> ->].
  apply backfill_log in H4 as ->. apply backfill_log in H5 as ->.
  unfold messages_after_reading, dropped_warning. by rewrite <- !app_assoc.
Qed.

(** C3, as the code has it.  [parse_file] returns, and raises nothing,
    whenever what the reading collected is clean: every row without an
    empty field casts to the dtypes of its columns, with its duration
    and absolute time in the 64-bit range; every JSON object has the
    entries [_process_json_objs] reads of it, the survey responses
    casting to the survey schema; and the start of the record is no
    JSON array.  The anomalies of such a file are messages and nothing
    else: after the messages of the reading, [parse_file] prints the
    warning of the dropped rows of each batch, the message of no
    metadata or one message for each unknown object, and three times
    the message of [_get_start_timestamp], if it has one; and the
    metadata it returns has the baseline and the summary.  An exception
    that ends the reading is caught: it is the last message of the
    reading, and a file that cannot be opened is clean. *)
Theorem parse_file_returns_on_clean_input :
  (forall f v,
     is_clean f v = true ->
     exists fd m,
       parse_file now json_loads astype_int astype_obj to_datetime_ms
         to_datetime_other timezone f v
       = ((read_file json_loads f v).1 ++ after_reading (read_file json_loads f v).2,
          Ok fd)
       /\ fd !! "metadata" = Some (Mapping m)
       /\ Forall (fun k => is_Some (m !! k))
            (["Parsed_on"; "StudyName"; "StudyInstance"] ++ summary_keys))
  /\ (forall f v e,
        reading_exception json_loads f v = Some e ->
        last (read_file json_loads f v).1 = Some (on_exception e))
  /\ (forall e v, is_clean (Unreadable e) v = true).
Proof.
  split; [|split].
  - intros f v Hclean.
    destruct (clean_input_parses f v Hclean) as (log & fd & m & Hp & Hm & Hk).
    exists fd, m. split; [|done].
    by rewrite <- (parse_file_log _ _ _ _ Hp).
  - intros f v e. unfold reading_exception, read_file.
    destruct f as [e0|ls failure]; [by intros [= ->]|].
    destruct (read_lines json_loads v 0 ls (Batches [] [] [])) as [[l b] [e1|]];
      cbn [fst snd].
    + intros [= ->]. cbn [fst]. by rewrite app_comm_cons, last_snoc.
    + intros ->. cbn [fst]. by rewrite app_comm_cons, last_snoc.
  - done.
Qed.

End CleanFacts.

(** ** The period selector *)

Lemma loc_mask_sublist (rs : list row) mask : loc_mask rs mask `sublist_of` rs.
Proof.
  revert mask. induction rs as [|r rs IH]; intros [|[] mask]; simpl;
    try apply sublist_nil_l.
  - by apply sublist_skip.
  - by apply sublist_cons.
Qed.

Lemma select_rows_spec t1 t2 col name df l df' :
  select_rows t1 t2 col name df = (l, Ok df') ->
  columns df' = columns df /\ rows df' `sublist_of` rows df.
Proof.
  unfold select_rows. intros H.
  apply bind_Ok in H as (? & vs & ? & _ & H & _).
  apply bind_Ok in H as (? & df_min & ? & _ & H & _).
  apply bind_Ok in H as (? & df_max & ? & _ & H & _).
  apply bind_Ok in H as (? & after & ? & _ & H & _).
  apply bind_Ok in H as (? & [] & ? & _ & H & _).
  apply bind_Ok in H as (? & mask & ? & _ & H & _).
  apply bind_Ok in H as (? & [] & ? & _ & H & _).
  apply ret_Ok in H as [<- _]. simpl. split; [done|apply loc_mask_sublist].
Qed.

Section SelectFacts.

Context (t1 t2 : value) (col : string).

Lemma select_spec name v h h' l res :
  _select t1 t2 col name v h = (h', (l, res)) ->
  h `prefix_of` h' /\ forall r, res = Ok r -> selected h h' v r.
Proof.
  unfold _select, selected.
  destruct (h !! v) as [[df|items|m]|] eqn:Hv; simpl;
    try (intros [= <- <- <-]; split; [done|]; by intros r [= <-]).
  destruct (select_rows t1 t2 col name df) as [l' [df'|e]] eqn:Hsel.
  - intros [= <- <- <-]. split.
    + rewrite <- app_assoc. by apply prefix_app_r.
    + intros r [= <-]. rewrite length_app. simpl. split; [lia|].
      apply select_rows_spec in Hsel as [Hc Hr]. exists df'.
      split; [|done].
      rewrite lookup_app_r; rewrite length_app; simpl; [|lia].
      by replace (length h + 1 - (length h + 1))%nat with 0%nat by lia.
  - intros [= <- <- <-]. split; [by apply prefix_app_r|done].
Qed.

Lemma selected_mono h h1 h' v r :
  h `prefix_of` h1 -> (v < length h)%nat -> selected h1 h' v r -> selected h h' v r.
Proof.
  intros Hpre Hv. unfold selected.
  destruct (lookup_lt_is_Some_2 h v Hv) as [o Ho].
  rewrite Ho, (prefix_lookup_Some _ _ _ _ Ho Hpre).
  destruct o; [|done..]. intros [Hr H]. split; [|done].
  apply prefix_length in Hpre. lia.
Qed.

Lemma selected_extend h h1 h' v r :
  h1 `prefix_of` h' -> selected h h1 v r -> selected h h' v r.
Proof.
  intros Hpre. unfold selected. destruct (h !! v) as [[df| |]|]; try done.
  intros [Hr (df' & Hdf' & H)]. split; [done|]. exists df'. split; [|done].
  by eapply prefix_lookup_Some.
Qed.

Lemma select_items_spec items h h' l res :
  Forall (fun kv : string * nat => (kv.2 < length h)%nat) items ->
  select_items t1 t2 col items h = (h', (l, res)) ->
  h `prefix_of` h'
  /\ forall out, res = Ok out ->
       Forall2 (fun kv kv' : string * nat =>
                  kv'.1 = kv.1 /\ selected h h' kv.2 kv'.2) items out.
Proof.
  revert h h' l res. induction items as [|[k v] items IH]; intros h h' l res Hwf; simpl.
  - intros [= <- <- <-]. split; [done|]. intros out [= <-]. constructor.
  - apply Forall_cons in Hwf as [Hv Hwf]. simpl in Hv.
    destruct (_select t1 t2 col k v h) as [h1 [l1 [v'|e]]] eqn:Hsel.
    + apply select_spec in Hsel as [Hpre1 Hsel]. specialize (Hsel _ eq_refl).
      destruct (select_items t1 t2 col items h1) as [h2 [l2 [out|e]]] eqn:Hrest.
      * apply IH in Hrest as [Hpre2 Hout].
        2:{ eapply Forall_impl; [done|]. intros kv Hkv. simpl in *.
            apply prefix_length in Hpre1. lia. }
        intros [= <- <- <-]. split; [by etrans|].
        intros out' [= <-]. constructor.
        -- split; [done|]. simpl. by eapply selected_extend.
        -- specialize (Hout _ eq_refl).
           apply Forall2_same_length_lookup in Hout as [Hlen Hout].
           apply Forall2_same_length_lookup. split; [done|].
           intros i [k1 v1] [k2 v2] H1 H2.
           destruct (Hout _ _ _ H1 H2) as [Hk Hs]. split; [done|]. simpl in *.
           eapply selected_mono; [done| |done].
           rewrite Forall_lookup in Hwf. apply (Hwf _ _ H1).
      * apply IH in Hrest as [Hpre2 _].
        2:{ eapply Forall_impl; [done|]. intros kv Hkv. simpl in *.
            apply prefix_length in Hpre1. lia. }
        intros [= <- <- <-]. split; [by etrans|done].
    + apply select_spec in Hsel as [Hpre1 _].
      intros [= <- <- <-]. by split.
Qed.

End SelectFacts.

Lemma alloc_lookup o (h : heap) :
  (alloc o h).1 !! (alloc o h).2 = Some o /\ h `prefix_of` (alloc o h).1.
Proof.
  unfold alloc. simpl. split; [|by apply prefix_app_r].
  by rewrite lookup_app_r, Nat.sub_diag.
Qed.

(** C8. [select_period] changes no object of the heap it is given: every
    reference the caller holds (the input table, the input bundle, the
    entries of the bundle) reads after the call what it read before it.
    What it returns is a new object: for a table, a table of some of its
    rows; for a bundle, a bundle with the same keys in which an entry
    that is not a table is the very object of the input, and an entry
    that is a table is a new one. *)
Theorem select_period_leaves_input_unchanged data ts te d col h h' log res :
  select_period data ts te d col h = (h', (log, res)) ->
  (forall items, h !! data = Some (OFileData items) ->
                 Forall (fun kv : string * nat => (kv.2 < length h)%nat) items) ->
  (forall l o, h !! l = Some o -> h' !! l = Some o)
  /\ forall r, res = Ok r ->
       (length h <= r)%nat
       /\ match h !! data with
          | Some (ODataFrame df) =>
              exists df', h' !! r = Some (ODataFrame df')
                          /\ columns df' = columns df
                          /\ rows df' `sublist_of` rows df
          | Some (OFileData items) =>
              exists out, h' !! r = Some (OFileData out)
                /\ Forall2 (fun kv kv' : string * nat =>
                              kv'.1 = kv.1 /\ selected h h' kv.2 kv'.2) items out
          | Some (OMapping m) => h' !! r = Some (OMapping m)
          | None => False
          end.
Proof.
  unfold select_period. intros H Hwf.
  assert (Hframe : h `prefix_of` h' ->
                   forall l o, h !! l = Some o -> h' !! l = Some o)
    by (intros Hp l o Ho; by eapply prefix_lookup_Some).
  destruct (window ts te d) as [lw [[t1 t2]|e]].
  2:{ injection H as <- <- <-. split; [done|]. intros r. discriminate. }
  destruct (h !! data) as [[df|items|m]|] eqn:Hdata.
  - destruct (_select t1 t2 col "(single)" data h) as [h1 [l1 r1]] eqn:Hsel.
    injection H as <- <- <-.
    apply select_spec in Hsel as [Hpre Hsel]. split; [by apply Hframe|].
    intros r ->. specialize (Hsel _ eq_refl). unfold selected in Hsel.
    rewrite Hdata in Hsel. by destruct Hsel.
  - destruct (select_items t1 t2 col items h) as [h1 [l1 [out|e]]] eqn:Hsel;
      apply select_items_spec in Hsel as [Hpre Hsel]; try (by apply Hwf).
    + destruct (alloc_lookup (OFileData out) h1) as [Hr Hpre'].
      destruct (alloc (OFileData out) h1) as [h2 r2] eqn:Ha. simpl in *.
      injection H as <- <- <-. split; [apply Hframe; by etrans|].
      intros r [= <-]. injection Ha as <- <-. split.
      * by apply prefix_length.
      * exists out. split; [done|].
        eapply Forall2_impl; [by apply Hsel|].
        intros kv kv' [Hk Hs]. split; [done|]. by eapply selected_extend.
    + injection H as <- <- <-. split; [by apply Hframe|]. intros r. discriminate.
  - destruct (alloc_lookup (OMapping m) h) as [Hr Hpre].
    destruct (alloc (OMapping m) h) as [h1 r1] eqn:Ha. simpl in *.
    injection H as <- <- <-. split; [by apply Hframe|].
    intros r [= <-]. injection Ha as <- <-. by split.
  - injection H as <- <- <-. split; [done|]. intros r. discriminate.
Qed.

(** With both ends or the start and the duration given and not zero,
    the two calls of C7 select the same. *)
Lemma select_period_end_or_duration data T D E col h :
  time_add (value_of T) (value_of D) = Ok (value_of E) ->
  truthy (Some T) = true -> truthy (Some D) = true -> truthy (Some E) = true ->
  select_period data (Some T) (Some E) None col h
  = select_period data (Some T) None (Some D) col h.
Proof.
  intros Hadd HT HD HE. unfold select_period, window.
  rewrite HT, HD, HE. simpl. by rewrite Hadd.
Qed.

(** ** More on the classifier, the selector and the back-fill *)

(** A line that is no JSON object, whose first field is not empty and
    starts with neither the sentinel nor a digit: the diagnostic is
    printed, the collections are as before, and the reading goes on. *)
Lemma process_line_unknown json_loads version n raw_line b c0 line c f0 fs :
  Str.strip raw_line = String c0 line -> Ascii.eqb c0 "{" = false ->
  Csv.reader_next (String c0 line) = Ok (String c f0 :: fs) ->
  Ascii.eqb c "A" = false -> Str.isdigit c = false ->
  process_line json_loads version n raw_line b
  = ([UnknownData (PStr <$> String c f0 :: fs)], Ok b).
Proof.
  intros Hline Hb Hcsv HA Hd. unfold process_line.
  rewrite Hline, Hb, Hcsv. simpl. by rewrite HA, Hd.
Qed.

Lemma read_lines_step json_loads version n raw_line ls b l b' :
  process_line json_loads version n raw_line b = (l, Ok b') ->
  read_lines json_loads version n (raw_line :: ls) b
  = (let '(l', b'', e) := read_lines json_loads version (S n) ls b' in
     (l ++ l', b'', e)).
Proof. intros H. simpl. by rewrite H. Qed.

(** With fewer than two of the three arguments given, [select_period]
    raises the error of a missing argument and creates nothing. *)
Lemma select_period_fewer_than_two_raises data ts te d col h :
  (count_true [given ts; given te; given d] < 2)%nat ->
  select_period data ts te d col h = (h, ([], Raise ValueError)).
Proof.
  intros H. unfold select_period, window.
  destruct ts as [[]|], te as [[]|], d as [[]|];
    try (exfalso; cbn in H; lia); simpl; by rewrite ?andb_false_r.
Qed.

Section BackfillNaT.
Context (to_datetime_other : value -> result (option Z)) (timezone : string).

(** With no start of the record, the back-fill returns and every
    [time_absolute] is not-a-time. *)
Lemma backfill_propagates_not_a_time meta df :
  record_start_timestamp to_datetime_other timezone meta = VNaT ->
  "time_elapsed" ∈ columns df ->
  Forall (fun r : row => exists ns, cell "time_elapsed" r = VTimedelta ns) (rows df) ->
  exists l df',
    _process_absolute_timestamps to_datetime_other timezone meta df = (l, Ok df')
    /\ length (rows df') = length (rows df)
    /\ Forall (fun r : row => cell "time_absolute" r = VNaT) (rows df').
Proof.
  intros Hs Hte Hrows. unfold _process_absolute_timestamps.
  destruct (get_start_timestamp_returns to_datetime_other timezone meta) as [ls Hls].
  rewrite Hs in Hls.
  assert (Habs : mapM (fun te => time_add te VNaT) (cell "time_elapsed" <$> rows df)
                 = Ok ((fun _ => VNaT) <$> rows df)).
  { apply Forall2_mapM_Ok. apply Forall2_fmap. apply Forall_Forall2_diag.
    eapply Forall_impl; [exact Hrows|]. intros r [ns ->]. done. }
  eexists _, (set_col "time_absolute" ((fun _ => VNaT) <$> rows df) df).
  split; [|split].
  - eapply bind_Ok_intro.
    { unfold get_col. by rewrite bool_decide_eq_true_2. }
    eapply bind_Ok_intro; [exact Hls|].
    eapply bind_Ok_intro; [by rewrite Habs|]. reflexivity.
  - rewrite rows_set_col, length_zip_with, length_fmap. lia.
  - rewrite rows_set_col. apply Forall_forall. intros r Hin.
    apply list_elem_of_lookup in Hin as [i Hi].
    apply lookup_zip_with_Some in Hi as (r0 & v & -> & _ & Hv).
    rewrite list_lookup_fmap in Hv. destruct (rows df !! i); [|done].
    injection Hv as <-. apply cell_insert_eq.
Qed.

End BackfillNaT.

(** * Scenarios *)

(** ** The scenario of the specification

    One [START_RECORD] status object with [start_UNIXTimeStamp =
    1700000000000] and one heart rate row, parsed in UTC. *)

Lemma scenario_parse :
  Lib.parse_file "UTC" scenario 0.2
  = ([Reading],
     Ok (<["data_hr" := Table scenario_hr]> {["metadata" := Mapping scenario_metadata]})).
Proof. vm_compute. reflexivity. Qed.

(** The start of the record is the integer of the metadata read as a
    count of nanoseconds. *)
Lemma record_start_of_int to_datetime_other tz (m : metadata) n :
  m !! "start_UNIXTimeStamp" = Some (VInt n) -> in_time_range n = true ->
  record_start_timestamp to_datetime_other tz m = VTimestamp n tz.
Proof.
  intros Hm Hn. unfold record_start_timestamp, _get_start_timestamp, to_datetime.
  by rewrite Hm, Hn.
Qed.

(** C2, on the code.  In the scenario the start is 1700000000000 ns after
    the epoch, 1970-01-01T00:28:20Z, and the row's [time_absolute] is
    five seconds later; read as milliseconds the start would be
    2023-11-14T22:13:20Z, that is 1700000000000000000 ns. *)
Theorem scenario_start_read_as_nanoseconds :
  exists fd df r,
    Lib.parse_file "UTC" scenario 0.2 = ([Reading], Ok fd)
    /\ fd !! "data_hr" = Some (Table df) /\ rows df = [r]
    /\ cell "time_elapsed" r = VTimedelta 5000000000
    /\ cell "confidence" r = VInt 95
    /\ cell "time_absolute" r = VTimestamp (1700000000000 + 5000000000) "UTC"
    /\ cell "time_absolute" r
       <> VTimestamp (1700000000000 * 1000000 + 5000000000) "UTC".
Proof.
  eexists _, scenario_hr, _. split; [apply scenario_parse|].
  repeat split; try reflexivity. discriminate.
Qed.

(** C6 on the scenario. *)
Lemma parse_file_time_absolute_witness :
  exists te r,
    rows scenario_hr = [r]
    /\ cell "time_elapsed" r = VTimedelta te
    /\ time_add (VTimedelta te)
         (record_start_timestamp Lib.to_datetime_other "UTC" scenario_metadata)
       = Ok (cell "time_absolute" r)
    /\ cell "time_absolute" r = VTimestamp (1700000000000 + te) "UTC".
Proof.
  set (r := list_to_map
           [("time_elapsed", VTimedelta 5000000000); ("heart_rate_bpm", VInt 72);
            ("confidence", VInt 95); ("ppg_raw", VInt 1000); ("ppg_filter", VInt 2000);
            ("time_absolute", VTimestamp 1705000000000 "UTC")] : row).
  destruct (parse_file_time_absolute Lib.now Json.loads Lib.astype_int Lib.astype_obj
              Lib.to_datetime_ms Lib.to_datetime_other "UTC" scenario 0.2%float [Reading]
              _ scenario_metadata "data_hr" scenario_hr r scenario_parse)
    as (te & Hte & Hadd & Hts & _).
  - reflexivity.
  - by left.
  - reflexivity.
  - apply list_elem_of_here.
  - exists te, r. repeat split; try done.
    apply Hts. by apply record_start_of_int.
Defined.

(** C10 on the scenario. *)
Lemma parse_file_metadata_summary_witness :
  exists m n_hr n_accel n_survey d_hr d_accel,
    (<["data_hr" := Table scenario_hr]> {["metadata" := Mapping scenario_metadata]}
       : FileData) !! "metadata" = Some (Mapping m)
    /\ m !! "n_samples_hr" = Some (VInt (Z.of_nat n_hr))
    /\ m !! "n_samples_accel" = Some (VInt (Z.of_nat n_accel))
    /\ m !! "n_survey_responses" = Some (VInt (Z.of_nat n_survey))
    /\ m !! "duration_hr" = Some d_hr
    /\ m !! "duration_accel" = Some d_accel
    /\ (n_accel = 0%nat -> d_accel = VNaT).
Proof.
  destruct (proj2 (parse_file_metadata_summary Lib.now Json.loads Lib.astype_int
                     Lib.astype_obj Lib.to_datetime_ms Lib.to_datetime_other "UTC")
              scenario 0.2%float _ _ scenario_parse)
    as (m & n_hr & n_accel & n_survey & d_hr & d_accel & H).
  exists m, n_hr, n_accel, n_survey, d_hr, d_accel. tauto.
Defined.

(** ** A legacy heart rate row (version 0.1) *)

Lemma legacy_line_step :
  Lib.process_line 0.1 0 legacy_line (Batches [] [] [])
  = ([], Ok (Batches [] [[PStr "5000"; PInt 72; PStr "95"; PStr "1000"; PStr "2000"]] [])).
Proof. vm_compute. reflexivity. Qed.

Lemma legacy_line_parse :
  Lib.parse_file "UTC" (Lines [legacy_line] None) 0.1
  = ([Reading; NoMetadata; no_start; no_start; no_start],
     Ok (<["data_hr" := Table (hr_frame [hr_row 5000000000 72 95 1000 2000 VNaT])]>
           {["metadata" := Mapping (plain_metadata 1 0 (VTimedelta 5000000000) VNaT)]})).
Proof. vm_compute. reflexivity. Qed.

(** C1 on the legacy row. *)
Lemma hr_row_version_transform_witness :
  exists (fields : list string) (r' : list pyobj),
    Csv.reader_next (Str.strip legacy_line) = Ok fields
    /\ r' !! 2%nat = PStr <$> fields !! 2%nat
    /\ r' !! 2%nat = Some (PStr "95")
    /\ r' !! 1%nat = Some (PInt 72).
Proof.
  destruct (hr_row_version_transform Json.loads 0.1%float 0 legacy_line
              (Batches [] [] []) [] _ legacy_line_step)
    as (fields & r' & Hcsv & _ & Hrows & _ & Hconf & _ & _ & _).
  - discriminate.
  - simpl in Hrows. injection Hrows as <-.
    exists fields, [PStr "5000"; PInt 72; PStr "95"; PStr "1000"; PStr "2000"].
    repeat split; done.
Defined.

(** C1 as stated fails: under version 0.1 the confidence of the table is
    the source field, 95, and not [round(95 / 10) = 10]; the scaled field
    is the heart rate, 720 in the file and 72 in the table. *)
Lemma legacy_confidence_not_scaled :
  exists log fd df r,
    Lib.parse_file "UTC" (Lines [legacy_line] None) 0.1 = (log, Ok fd)
    /\ fd !! "data_hr" = Some (Table df) /\ rows df = [r]
    /\ round_div10 95 = Ok 10
    /\ cell "confidence" r = VInt 95
    /\ cell "confidence" r <> VInt 10
    /\ cell "heart_rate_bpm" r = VInt 72.
Proof.
  eexists _, _, (hr_frame _), _. split; [apply legacy_line_parse|].
  repeat split; try reflexivity. discriminate.
Qed.

(** ** Rows with a missing value *)

Lemma batch_with_gap_table :
  Lib._dataframe_from_list batch_with_gap cols_hr
  = ([DroppedRows 1], Ok table_without_gap).
Proof. vm_compute. reflexivity. Qed.

(** C9 on a batch of three rows, one with an empty field. *)
Lemma dataframe_from_list_drops_rows_with_empty_field_witness :
  Forall2 (present Lib.astype_int cols_hr)
    [[PStr "5000"; PStr "72"; PStr "95"; PStr "1000"; PStr "2000"];
     [PStr "5080"; PInt 74; PStr "96"; PStr "1002"; PStr "2002"]]
    (rows table_without_gap)
  /\ n_rows table_without_gap = 2%nat.
Proof.
  destruct (dataframe_from_list_drops_rows_with_empty_field Lib.astype_int
              Lib.astype_obj batch_with_gap cols_hr [DroppedRows 1]
              table_without_gap) as (Hrows & Hn & _).
  - by left.
  - repeat constructor.
  - exact batch_with_gap_table.
  - split; [exact Hrows|exact Hn].
Defined.

(** ** Lines the classifier does not know *)

(** C4 on the code.  A line whose first field is empty is neither an
    accelerometer row nor a heart rate row; [row[0][0]] raises on it, the
    handler of the reading prints the exception and the reading ends:
    the well-formed row after it is in no table. *)
Theorem empty_first_field_ends_the_reading :
  Lib.parse_file "UTC" (Lines [",1,2"; "5000,72,95,1000,2000"] None) 0.2
  = ([Reading; Error IndexError; NoMetadata; no_start; no_start; no_start],
     Ok {["metadata" := Mapping (plain_metadata 0 0 VNaT VNaT)]})
  /\ Lib.parse_file "UTC" (Lines ["hello"; "5000,72,95,1000,2000"] None) 0.2
     = ([Reading; UnknownData [PStr "hello"]; NoMetadata; no_start; no_start; no_start],
        Ok (<["data_hr" := Table (hr_frame [hr_row 5000000000 72 95 1000 2000 VNaT])]>
              {["metadata" := Mapping (plain_metadata 1 0 (VTimedelta 5000000000) VNaT)]})).
Proof. split; vm_compute; reflexivity. Qed.

(** ** Input that makes [parse_file] raise *)

(** C3 as stated fails: a cell of an accepted row that is no number, and
    a status object without a state, raise out of [parse_file]. *)
Lemma parse_file_raises :
  Lib.parse_file "UTC" (Lines ["5000,72,x,1000,2000"] None) 0.2
  = ([Reading], Raise CastError)
  /\ Lib.parse_file "UTC" (Lines [Json.text "{'Status': {}}"] None) 0.2
     = ([Reading], Raise (KeyError "state")).
Proof. split; vm_compute; reflexivity. Qed.

(** ** Selections *)

(** C5 on the code.  The first five seconds of the record are asked for
    with [time_start] and [time_end] given: a start of zero counts as not
    given, and the call raises the error of a missing argument. *)
Theorem select_period_from_zero_raises :
  select_period 1 (Some (Timedelta 0)) (Some (Timedelta 5000000000)) None
    "time_elapsed" bundle_heap
  = (bundle_heap, ([], Raise ValueError))
  /\ count_true [given (Some (Timedelta 0)); given (Some (Timedelta 5000000000));
                 given None] = 2%nat.
Proof. split; reflexivity. Qed.

(** C7 on the code.  With [D] zero, [time_start = T, time_end = T + D]
    selects the sample at [T], and [time_start = T, duration = D]
    raises. *)
Theorem select_period_zero_duration_differs :
  let T := Timestamp t0 "UTC" in
  let D := Timedelta 0 in
  time_add (value_of T) (value_of D) = Ok (value_of T)
  /\ select_period 1 (Some T) (Some T) None "time_absolute" bundle_heap
     = (bundle_heap ++ [ODataFrame two_samples;
                        ODataFrame (Frame ["time_elapsed"; "time_absolute"] [sample 0])],
        ([SelectingPeriod (value_of T) (value_of T); Samples "(single)" 1], Ok 4%nat))
  /\ select_period 1 (Some T) None (Some D) "time_absolute" bundle_heap
     = (bundle_heap, ([], Raise ValueError)).
Proof. repeat split; vm_compute; reflexivity. Qed.

Lemma bundle_selection :
  select_period 2 (Some (Timedelta 1000000000)) (Some (Timedelta 6000000000)) None
    "time_elapsed" bundle_heap
  = (bundle_heap
       ++ [ODataFrame two_samples;
           ODataFrame (Frame ["time_elapsed"; "time_absolute"] [sample 5000000000]);
           OFileData [("metadata", 0%nat); ("data_hr", 4%nat)]],
     ([SelectingPeriod (VTimedelta 1000000000) (VTimedelta 6000000000);
       Samples "data_hr" 1],
      Ok 5%nat)).
Proof. vm_compute. reflexivity. Qed.

(** C8 on the bundle. *)
Lemma select_period_leaves_input_unchanged_witness :
  exists h' out,
    (forall l o, bundle_heap !! l = Some o -> h' !! l = Some o)
    /\ h' !! 5%nat = Some (OFileData out)
    /\ Forall2 (fun kv kv' : string * nat =>
                  kv'.1 = kv.1 /\ selected bundle_heap h' kv.2 kv'.2)
               [("metadata", 0%nat); ("data_hr", 1%nat)] out.
Proof.
  destruct (select_period_leaves_input_unchanged 2
              (Some (Timedelta 1000000000)) (Some (Timedelta 6000000000)) None
              "time_elapsed" bundle_heap _ _ _ bundle_selection)
    as [Hframe Hres].
  - intros items [= <-]. repeat constructor.
  - destruct (Hres 5%nat eq_refl) as (_ & out & Hout & Hitems).
    eexists _, out. split; [exact Hframe|]. split; [exact Hout|exact Hitems].
Defined.

(** ** Clean input *)

(** C3 on the untidy file. *)
Lemma parse_file_returns_on_clean_input_witness :
  exists fd m,
    Lib.parse_file "UTC" untidy 0.2
    = ([Reading; UnknownData [PStr "hello"];
        BadHrRow [PStr "5000"; PStr "72"; PStr "95"]; ErrorReadingLine 2;
        Error OSError; DroppedRows 1; UnknownObject [("extra", PInt 1)];
        no_start; no_start; no_start],
       Ok fd)
    /\ fd !! "metadata" = Some (Mapping m)
    /\ Forall (fun k => is_Some (m !! k))
         (["Parsed_on"; "StudyName"; "StudyInstance"] ++ summary_keys).
Proof.
  destruct (proj1 (parse_file_returns_on_clean_input Lib.now Json.loads
                     Lib.astype_int Lib.astype_obj Lib.to_datetime_ms
                     Lib.to_datetime_other "UTC") untidy 0.2%float)
    as (fd & m & Hp & Hm & Hk).
  - vm_compute. reflexivity.
  - exists fd, m. split; [|by split].
    unfold Lib.parse_file. rewrite Hp. f_equal.
Defined.

(** * More properties

    Properties of the parser and of the period selector beside those of
    the specification. *)

(** ** The rounding of the legacy transform *)






(** ** Strings *)

Lemma to_list_app s1 s2 : Str.to_list (s1 +:+ s2) = Str.to_list s1 ++ Str.to_list s2.
Proof. induction s1 as [|c s1 IH]; simpl; [done|]. unfold Str.to_list in *. simpl. by rewrite IH. Qed.

Lemma of_to_list s : Str.of_list (Str.to_list s) = s.
Proof. apply string_of_list_ascii_of_string. Qed.

Lemma to_of_list l : Str.to_list (Str.of_list l) = l.
Proof. apply list_ascii_of_string_of_list_ascii. Qed.

Lemma lstrip_by_all p l : Forall (fun c => p c = true) l -> Str.lstrip_by p l = [].
Proof. induction 1 as [|c l Hc _ IH]; simpl; [done|]. by rewrite Hc. Qed.

Lemma lstrip_by_app p pre l :
  Forall (fun c => p c = true) pre -> Str.lstrip_by p (pre ++ l) = Str.lstrip_by p l.
Proof. induction 1 as [|c pre Hc _ IH]; simpl; [done|]. by rewrite Hc. Qed.

Lemma lstrip_by_head p c l : p c = false -> Str.lstrip_by p (c :: l) = c :: l.
Proof. intros H. simpl. by rewrite H. Qed.

(** [strip] takes the characters to strip off both ends, and no other. *)
Lemma strip_by_spec p pre core post :
  Forall (fun c => p c = true) pre -> Forall (fun c => p c = true) post ->
  (core = [] \/ exists c c', head core = Some c /\ last core = Some c'
                            /\ p c = false /\ p c' = false) ->
  Str.strip_by p (pre ++ core ++ post) = core.
Proof.
  intros Hpre Hpost Hcore. unfold Str.strip_by.
  rewrite lstrip_by_app by done.
  destruct Hcore as [->|(c & c' & Hh & Hl & Hc & Hc')].
  - simpl. rewrite (lstrip_by_all p post) by done. done.
  - destruct core as [|c0 core]; [done|]. injection Hh as ->.
    rewrite <- app_comm_cons, lstrip_by_head by done.
    rewrite app_comm_cons, rev_app_distr.
    rewrite lstrip_by_app by (by apply Forall_rev).
    destruct (rev (c :: core)) as [|d l] eqn:Hrev.
    { apply (f_equal (@rev _)) in Hrev. rewrite rev_involutive in Hrev. done. }
    assert (d = c') as ->.
    { apply (f_equal (@rev _)) in Hrev. rewrite rev_involutive in Hrev.
      rewrite Hrev in Hl. simpl in Hl. rewrite last_snoc in Hl. congruence. }
    rewrite lstrip_by_head by done. rewrite <- Hrev. apply rev_involutive.
Qed.

Lemma strip_blank s :
  Forall (fun c => Str.isspace c = true) (Str.to_list s) -> Str.strip s = "".
Proof.
  intros H. unfold Str.strip.
  rewrite <- (app_nil_r (Str.to_list s)), <- (app_nil_r (Str.to_list s ++ [])), <- app_assoc.
  rewrite (strip_by_spec _ _ [] []); [done|done|done|by left].
Qed.

(** ** The csv reader on plain fields *)

Lemma run_plain cs rest r :
  Forall (fun c => plain c = true) cs -> cs <> [] ->
  Z.of_nat (length (Csv.field r) + length cs) <= Csv.field_limit ->
  Csv.st r = Csv.START_RECORD \/ Csv.st r = Csv.START_FIELD \/ Csv.st r = Csv.IN_FIELD ->
  Csv.run (cs ++ rest) r
  = Csv.run rest (Csv.Reader Csv.IN_FIELD (rev cs ++ Csv.field r) (Csv.fields r)).
Proof.
  intros Hcs. revert r. induction Hcs as [|c cs Hc Hcs IH]; intros r Hne Hlen Hst; [done|].
  assert (Hstep : Csv.process_char c r
                  = Ok (Csv.Reader Csv.IN_FIELD (c :: Csv.field r) (Csv.fields r))).
  { unfold plain in Hc. apply andb_true_iff in Hc as [Hc Hd].
    apply andb_true_iff in Hc as [Hn Hq].
    apply negb_true_iff in Hn, Hq, Hd.
    assert (Hadd : Csv.add_char Csv.IN_FIELD c r
                   = Ok (Csv.Reader Csv.IN_FIELD (c :: Csv.field r) (Csv.fields r))).
    { unfold Csv.add_char. simpl in Hlen.
      destruct (Csv.field_limit <=? Z.of_nat (length (Csv.field r))) eqn:E; [lia|done]. }
    unfold Csv.process_char, Csv.start_field.
    destruct Hst as [->|[->| ->]]; by rewrite ?Hn, ?Hq, ?Hd. }
  simpl. rewrite Hstep.
  destruct cs as [|c' cs']; [done|].
  rewrite IH; [|done|simpl in *; lia|by right; right].
  simpl. by rewrite <- !app_assoc.
Qed.

Lemma plain_field_inv f :
  plain_field f = true ->
  Forall (fun c => plain c = true) (Str.to_list f)
  /\ Z.of_nat (length (Str.to_list f)) <= Csv.field_limit.
Proof.
  unfold plain_field. intros [H1 H2] % andb_true_iff. split; [|lia].
  apply Forall_forall. intros c Hc. rewrite forallb_forall in H1.
  apply H1. by apply list_elem_of_In.
Qed.

Lemma delimiter_step r :
  Csv.st r = Csv.START_RECORD \/ Csv.st r = Csv.START_FIELD \/ Csv.st r = Csv.IN_FIELD ->
  Csv.process_char Csv.delimiter r = Ok (Csv.save_field Csv.START_FIELD r).
Proof. intros [H|[H|H]]; unfold Csv.process_char; by rewrite H. Qed.

Lemma to_list_nil s : Str.to_list s = [] -> s = "".
Proof. by destruct s. Qed.

Lemma run_join fs : forall f r,
  Forall (fun f => plain_field f = true) (f :: fs) -> Csv.field r = [] ->
  Csv.st r = Csv.START_FIELD \/ (Csv.st r = Csv.START_RECORD /\ join_fields (f :: fs) <> "") ->
  Csv.run (Str.to_list (join_fields (f :: fs))) r = Ok (rev (Csv.fields r) ++ f :: fs).
Proof.
  induction fs as [|g fs IH]; intros f r Hpl Hfield Hst.
  - apply Forall_cons in Hpl as [Hf _]. apply plain_field_inv in Hf as [Hf Hlen].
    cbn [join_fields] in *.
    destruct (Str.to_list f) as [|c cs] eqn:Hcs.
    + apply to_list_nil in Hcs as ->. destruct Hst as [Hst|[_ ?]]; [|done].
      simpl. unfold Csv.end_of_input. rewrite Hst. simpl. by rewrite Hfield.
    + rewrite <- (app_nil_r (c :: cs)).
      rewrite run_plain; [|done|done|rewrite Hfield; simpl in *; lia|destruct Hst as [?|[? _]]; auto].
      cbn [Csv.run]. unfold Csv.end_of_input, Csv.save_field. cbn [Csv.st Csv.field Csv.fields].
      rewrite Hfield, app_nil_r, rev_involutive.
      by rewrite <- Hcs, of_to_list.
  - apply Forall_cons in Hpl as [Hf Hpl]. apply plain_field_inv in Hf as [Hf Hlen].
    change (join_fields (f :: g :: fs))
      with (f +:+ String Csv.delimiter (join_fields (g :: fs))).
    rewrite to_list_app.
    change (Str.to_list (String Csv.delimiter (join_fields (g :: fs))))
      with (Csv.delimiter :: Str.to_list (join_fields (g :: fs))).
    destruct (Str.to_list f) as [|c cs] eqn:Hcs.
    + apply to_list_nil in Hcs as ->. cbn [app Csv.run].
      rewrite delimiter_step by (destruct Hst as [?|[? _]]; auto).
      rewrite IH; [|done|done|by left].
      simpl. rewrite Hfield. simpl. by rewrite <- app_assoc.
    + rewrite run_plain; [|done|done|rewrite Hfield; simpl in *; lia|destruct Hst as [?|[? _]]; auto].
      cbn [Csv.run]. rewrite delimiter_step by (simpl; auto).
      rewrite IH; [|done|done|by left].
      cbn [Csv.save_field Csv.st Csv.field Csv.fields].
      rewrite Hfield, app_nil_r, rev_involutive, <- Hcs, of_to_list.
      simpl. by rewrite <- app_assoc.
Qed.

Lemma reader_next_join f fs :
  Forall (fun f => plain_field f = true) (f :: fs) -> join_fields (f :: fs) <> "" ->
  Csv.reader_next (join_fields (f :: fs)) = Ok (f :: fs).
Proof.
  intros Hpl Hne. unfold Csv.reader_next. rewrite run_join; [done|done|done|].
  right. done.
Qed.

(** ** The classifier on lines of plain fields *)

Lemma isdigit_not_sentinel c :
  Str.isdigit c = true -> Ascii.eqb c "{" = false /\ Ascii.eqb c "A" = false.
Proof.
  destruct c as [[] [] [] [] [] [] [] []]; vm_compute; intros; (done || by split).
Qed.

Lemma join_fields_cons f g fs :
  join_fields (f :: g :: fs) = f +:+ String Csv.delimiter (join_fields (g :: fs)).
Proof. done. Qed.

Lemma join_fields_head c f0 fs :
  exists rest, join_fields (String c f0 :: fs) = String c rest.
Proof. destruct fs as [|g fs]; [by exists f0|]. rewrite join_fields_cons. by eexists. Qed.

Section LineFacts.

Context (json_loads : string -> result pydict).

Local Abbreviation line_step := (process_line json_loads).
Local Abbreviation reading := (read_lines json_loads).

(** What a line that does not raise does to the collections. *)
Lemma process_line_cases version n raw_line b l b' :
  line_step version n raw_line b = (l, Ok b') ->
  b' = b
  \/ (exists o, json_loads (Str.strip raw_line) = Ok o /\ l = []
                /\ b' = Batches (json_objs b ++ [(n, o)]) (rows_hr b) (rows_accel b))
  \/ (exists r, l = []
                /\ b' = Batches (json_objs b) (rows_hr b ++ [r]) (rows_accel b))
  \/ (exists r, l = []
                /\ b' = Batches (json_objs b) (rows_hr b) (rows_accel b ++ [r])).
Proof.
  unfold process_line. intros H.
  destruct (Str.strip raw_line) as [|c0 line] eqn:Hline.
  { apply ret_Ok in H as [<- _]. by left. }
  destruct (Ascii.eqb c0 "{").
  { destruct (json_loads _) as [o|[]] eqn:Ho; try done.
    - apply ret_Ok in H as [<- ->]. right; left. by exists o.
    - apply bind_Ok in H as (? & ? & ? & _ & H & _).
      apply ret_Ok in H as [<- _]. by left. }
  apply bind_Ok in H as (l1 & fields & l2 & H1 & H & ->).
  apply lift_Ok in H1 as [H1 ->].
  destruct fields as [|f0 fs]; [apply ret_Ok in H as [<- _]; by left|].
  destruct (Str.startswith "A" f0 && Nat.eqb _ _).
  { apply ret_Ok in H as [<- ->]. do 3 right. by eexists. }
  destruct (Str.startswith "A" f0 && negb _).
  { apply bind_Ok in H as (? & ? & ? & _ & H & _).
    apply ret_Ok in H as [<- _]. by left. }
  apply bind_Ok in H as (l3 & c & l4 & H3 & H & ->).
  apply lift_Ok in H3 as [H3 ->].
  destruct (Str.isdigit c && Nat.eqb _ _).
  - apply bind_Ok in H as (l5 & r' & l6 & H5 & H & ->).
    apply lift_Ok in H5 as [H5 ->]. apply ret_Ok in H as [<- ->].
    right; right; left. by eexists.
  - destruct (Str.isdigit c && negb _).
    + apply bind_Ok in H as (? & ? & ? & _ & H & _).
      apply ret_Ok in H as [<- _]. by left.
    + apply bind_Ok in H as (? & ? & ? & _ & H & _).
      apply ret_Ok in H as [<- _]. by left.
Qed.

Lemma reading_step version n raw_line ls b l b' :
  line_step version n raw_line b = (l, Ok b') ->
  reading version n (raw_line :: ls) b = after_line l (reading version (S n) ls b').
Proof. intros H. simpl. rewrite H. unfold after_line. by destruct (reading _ _ _ _) as [[??]?]. Qed.

(** X1. A line of white space only (an empty line among them) is passed
    over: nothing is printed, nothing is collected, and the lines after
    it are read with the line numbers that follow its own. *)
Theorem blank_line_is_passed_over version n raw_line ls b :
  Forall (fun c => Str.isspace c = true) (Str.to_list raw_line) ->
  reading version n (raw_line :: ls) b = reading version (S n) ls b.
Proof.
  intros H. rewrite (reading_step _ _ _ _ _ [] b).
  - unfold after_line. by destruct (reading _ _ _ _) as [[??]?].
  - unfold process_line. by rewrite (strip_blank _ H).
Qed.

(** X2. A line that starts with a brace and that the decoder refuses
    with [JSONDecodeError] costs the message with its line number and
    nothing else: the reading goes on with the next line.  Any other
    exception of the decoder ends the reading. *)
Theorem json_decode_error_is_local version n raw_line line ls b e :
  Str.strip raw_line = String "{" line ->
  json_loads (String "{" line) = Raise e ->
  reading version n (raw_line :: ls) b
  = match e with
    | JSONDecodeError => after_line [ErrorReadingLine n] (reading version (S n) ls b)
    | _ => ([], b, Some e)
    end.
Proof.
  intros Hline He.
  assert (Hstep : line_step version n raw_line b
                  = match e with
                    | JSONDecodeError => ([ErrorReadingLine n], Ok b)
                    | _ => ([], Raise e)
                    end).
  { unfold process_line. rewrite Hline. cbn [Ascii.eqb Bool.eqb]. rewrite He.
    by destruct e. }
  cbn [read_lines]. rewrite Hstep. unfold after_line.
  by destruct e.
Qed.

(** X3. A heart rate line of plain fields: five fields, the first one
    starting with a digit.  For a version that is not below 0.2 the row
    is collected as it is in the file, and nothing is printed. *)
Theorem plain_hr_line_is_collected version n raw_line c f0 fs b :
  Str.strip raw_line = join_fields (String c f0 :: fs) ->
  Forall (fun f => plain_field f = true) (String c f0 :: fs) ->
  length fs = 4%nat -> Str.isdigit c = true ->
  PrimFloat.ltb version 0.2 = false ->
  line_step version n raw_line b
  = ([], Ok (Batches (json_objs b) (rows_hr b ++ [PStr <$> String c f0 :: fs])
                     (rows_accel b))).
Proof.
  intros Hline Hpl Hlen Hc Hv.
  destruct (isdigit_not_sentinel c Hc) as [Hb HA].
  destruct (join_fields_head c f0 fs) as [rest Hj].
  assert (Hcsv : Csv.reader_next (String c rest) = Ok (String c f0 :: fs)).
  { rewrite <- Hj. apply reader_next_join; [done|]. by rewrite Hj. }
  unfold process_line. rewrite Hline, Hj, Hb, Hcsv.
  cbn [lift bind app Str.startswith first_char]. rewrite HA. cbn [andb].
  rewrite Hc. cbn [length]. rewrite Hlen, Hv. reflexivity.
Qed.

(** X4. An accelerometer line of plain fields: six fields, the first
    one starting with the sentinel.  The row is collected for every
    version, and its first cell is the field without the sentinels at
    its two ends: [t] when the field is [t] between runs of sentinels
    and [t] neither starts nor ends with one. *)
Theorem plain_accel_line_is_collected version n raw_line pre t post f0 fs b :
  f0 = Str.of_list ("A"%char :: pre ++ Str.to_list t ++ post) ->
  Forall (fun c => c = "A"%char) pre -> Forall (fun c => c = "A"%char) post ->
  head (Str.to_list t) <> Some "A"%char -> last (Str.to_list t) <> Some "A"%char ->
  Str.strip raw_line = join_fields (f0 :: fs) ->
  Forall (fun f => plain_field f = true) (f0 :: fs) ->
  length fs = 5%nat ->
  line_step version n raw_line b
  = ([], Ok (Batches (json_objs b) (rows_hr b) (rows_accel b ++ [PStr t :: (PStr <$> fs)]))).
Proof.
  intros -> Hpre Hpost Hh Hl Hline Hpl Hlen.
  set (f0 := Str.of_list ("A"%char :: pre ++ Str.to_list t ++ post)) in *.
  assert (Hf0 : f0 = String "A" (Str.of_list (pre ++ Str.to_list t ++ post))) by done.
  destruct (join_fields_head "A" (Str.of_list (pre ++ Str.to_list t ++ post)) fs)
    as [rest Hj].
  rewrite <- Hf0 in Hj.
  assert (Hcsv : Csv.reader_next (String "A" rest) = Ok (f0 :: fs)).
  { rewrite <- Hj. apply reader_next_join; [done|]. by rewrite Hj. }
  assert (Hstrip : Str.strip_chars "A" f0 = t).
  { unfold Str.strip_chars, f0. rewrite to_of_list.
    rewrite (app_comm_cons pre _ "A"%char).
    rewrite (strip_by_spec _ ("A"%char :: pre) (Str.to_list t) post).
    - apply of_to_list.
    - constructor; [done|]. eapply Forall_impl; [exact Hpre|]. by intros ? ->.
    - eapply Forall_impl; [exact Hpost|]. by intros ? ->.
    - destruct (Str.to_list t) as [|c l] eqn:Ht; [by left|]. right.
      assert (is_Some (last (c :: l))) as [c' Hlast] by (by apply last_is_Some).
      exists c, c'. repeat split; [done|..].
      + apply Ascii.eqb_neq. intros <-. by apply Hh.
      + apply Ascii.eqb_neq. intros <-. by apply Hl. }
  unfold process_line. rewrite Hline, Hj. cbn [Ascii.eqb Bool.eqb]. rewrite Hcsv.
  cbn [lift bind app]. rewrite Hf0 at 1. cbn [Str.startswith Ascii.eqb Bool.eqb andb length].
  rewrite Hlen. cbn [Nat.eqb cols_accel length]. rewrite Hstrip. reflexivity.
Qed.

(** X5. A line of plain fields that is not collected costs one message
    and the reading goes on: a row that starts with the sentinel and has
    not six fields is a bad accelerometer row, a row that starts with a
    digit and has not five fields is a bad heart rate row, and a row
    whose first character is neither (nor a brace) is unknown data. *)
Theorem rejected_line_costs_a_message version n raw_line ls c f0 fs b :
  Str.strip raw_line = join_fields (String c f0 :: fs) ->
  Forall (fun f => plain_field f = true) (String c f0 :: fs) ->
  let r := String c f0 :: fs in
  let next := reading version (S n) ls b in
  (c = "A"%char -> length r <> 6%nat ->
   reading version n (raw_line :: ls) b = after_line [BadAccelRow (PStr <$> r)] next)
  /\ (Str.isdigit c = true -> length r <> 5%nat ->
      reading version n (raw_line :: ls) b = after_line [BadHrRow (PStr <$> r)] next)
  /\ (c <> "A"%char -> c <> "{"%char -> Str.isdigit c = false ->
      reading version n (raw_line :: ls) b = after_line [UnknownData (PStr <$> r)] next).
Proof.
  intros Hline Hpl r next.
  destruct (join_fields_head c f0 fs) as [rest Hj].
  assert (Hcsv : Csv.reader_next (String c rest) = Ok r).
  { rewrite <- Hj. apply reader_next_join; [done|]. by rewrite Hj. }
  split; [|split].
  - intros -> Hlen. apply reading_step.
    unfold process_line. rewrite Hline, Hj. cbn [Ascii.eqb Bool.eqb]. rewrite Hcsv.
    cbn [lift bind app]. unfold r at 1 2. cbn [Str.startswith Ascii.eqb Bool.eqb andb].
    apply Nat.eqb_neq in Hlen. fold r. change (length cols_accel) with 6%nat.
    by rewrite Hlen.
  - intros Hc Hlen. apply reading_step.
    destruct (isdigit_not_sentinel c Hc) as [Hb HA].
    unfold process_line. rewrite Hline, Hj, Hb, Hcsv.
    cbn [lift bind app]. unfold r at 1 2 3. cbn [Str.startswith first_char]. rewrite HA.
    cbn [andb lift bind app]. rewrite Hc.
    apply Nat.eqb_neq in Hlen. fold r. change (length cols_hr) with 5%nat.
    by rewrite Hlen.
  - intros HA Hb Hc. apply reading_step.
    apply Ascii.eqb_neq in HA, Hb.
    unfold process_line. rewrite Hline, Hj, Hb, Hcsv.
    cbn [lift bind app]. unfold r at 1 2 3. cbn [Str.startswith first_char]. rewrite HA.
    cbn [andb lift bind app]. by rewrite Hc.
Qed.

End LineFacts.

Section ReadingFacts.

Context (json_loads : string -> result pydict).

Local Abbreviation line_step := (process_line json_loads).
Local Abbreviation reading := (read_lines json_loads).

(** X6. The JSON objects are collected under the numbers of their
    lines: what a reading adds to [json_objs] has increasing keys (no
    key twice, so no object is overwritten), and each object is the
    decoding of the line its key numbers, lines counted from [n] on,
    with the empty ones. *)
Theorem json_objs_are_keyed_by_line version n ls b l b' e :
  reading version n ls b = (l, b', e) ->
  exists new,
    json_objs b' = json_objs b ++ new
    /\ StronglySorted lt new.*1
    /\ Forall (fun ko : nat * pydict =>
                 (n <= ko.1)%nat
                 /\ exists raw_line, ls !! (ko.1 - n)%nat = Some raw_line
                                     /\ json_loads (Str.strip raw_line) = Ok ko.2) new.
Proof.
  revert n b l b' e. induction ls as [|raw ls IH]; intros n b l b' e; simpl.
  { intros [= <- <- <-]. exists []. rewrite app_nil_r. repeat split; constructor. }
  destruct (line_step version n raw b) as [l1 [b1|e1]] eqn:H1.
  2:{ intros [= <- <- <-]. exists []. rewrite app_nil_r. repeat split; constructor. }
  destruct (reading version (S n) ls b1) as [[l2 b2] e2] eqn:H2.
  intros [= <- <- <-]. destruct (IH _ _ _ _ _ H2) as (new & Hnew & Hsort & Hall).
  assert (Hshift : Forall (fun ko : nat * pydict =>
                 (n <= ko.1)%nat
                 /\ exists raw_line, (raw :: ls) !! (ko.1 - n)%nat = Some raw_line
                                     /\ json_loads (Str.strip raw_line) = Ok ko.2) new).
  { eapply Forall_impl; [exact Hall|]. intros [k o] (Hk & raw' & Hl & Ho). simpl in *.
    split; [lia|]. exists raw'. split; [|done].
    replace (k - n)%nat with (S (k - S n)) by lia. done. }
  destruct (process_line_cases _ _ _ _ _ _ _ H1)
    as [->|[(o & Ho & -> & ->)|[(r & -> & ->)|(r & -> & ->)]]].
  - by exists new.
  - exists ((n, o) :: new). cbn [json_objs] in Hnew. rewrite Hnew, <- app_assoc.
    split; [done|]. split.
    + rewrite fmap_cons. constructor; [done|]. apply Forall_fmap.
      eapply Forall_impl; [exact Hall|]. intros [k o'] [Hk _]. simpl in *. lia.
    + constructor; [|done]. simpl. split; [lia|]. exists raw.
      by rewrite Nat.sub_diag.
  - by exists new.
  - by exists new.
Qed.

(** X7. The reading only appends: each of the three collections it
    returns starts with the collection it was given, and a line adds at
    most one item to them all. *)
Theorem reading_only_appends version n ls b l b' e :
  read_lines json_loads version n ls b = (l, b', e) ->
  json_objs b `prefix_of` json_objs b'
  /\ rows_hr b `prefix_of` rows_hr b'
  /\ rows_accel b `prefix_of` rows_accel b'
  /\ (length (json_objs b') + length (rows_hr b') + length (rows_accel b')
      <= length (json_objs b) + length (rows_hr b) + length (rows_accel b)
         + length ls)%nat.
Proof.
  revert n b l b' e. induction ls as [|raw ls IH]; intros n b l b' e; simpl.
  { intros [= <- <- <-]. repeat split; (done || lia). }
  destruct (line_step version n raw b) as [l1 [b1|e1]] eqn:H1.
  2:{ intros [= <- <- <-]. repeat split; (done || lia). }
  destruct (reading version (S n) ls b1) as [[l2 b2] e2] eqn:H2.
  intros [= <- <- <-]. destruct (IH _ _ _ _ _ H2) as (Hj & Hh & Ha & Hlen).
  destruct (process_line_cases _ _ _ _ _ _ _ H1)
    as [->|[(o & Ho & -> & ->)|[(r & -> & ->)|(r & -> & ->)]]];
    cbn [json_objs rows_hr rows_accel] in *.
  - repeat split; (done || lia).
  - repeat split; try done.
    + etrans; [|exact Hj]. by apply prefix_app_r.
    + rewrite length_app in Hlen. simpl in Hlen. lia.
  - repeat split; try done.
    + etrans; [|exact Hh]. by apply prefix_app_r.
    + rewrite length_app in Hlen. simpl in Hlen. lia.
  - repeat split; try done.
    + etrans; [|exact Ha]. by apply prefix_app_r.
    + rewrite length_app in Hlen. simpl in Hlen. lia.
Qed.

(** X8. The rows the reading of a file collects fit the columns of
    their tables, five cells for a heart rate row and six for an
    accelerometer row: the construction of the two frames does not
    raise, whatever the file holds. *)
Theorem collected_rows_fit_the_columns f version :
  let b := (read_file json_loads f version).2 in
  new_frame (rows_hr b) cols_hr.*1
  = Ok (Frame cols_hr.*1 (row_of_list cols_hr.*1 <$> rows_hr b))
  /\ new_frame (rows_accel b) cols_accel.*1
     = Ok (Frame cols_accel.*1 (row_of_list cols_accel.*1 <$> rows_accel b)).
Proof.
  intros b. destruct (read_file_wf json_loads f version) as [Hhr Hac]. fold b in Hhr, Hac.
  split; apply new_frame_Ok.
  - eapply Forall_impl; [exact Hhr|]. intros r [Hr _]. by rewrite length_fmap.
  - eapply Forall_impl; [exact Hac|]. intros r [Hr _]. by rewrite length_fmap.
Qed.

(** X9. The lines of a file can be read in two parts: reading [ls1 ++ ls2]
    is reading [ls1] and then, unless an exception has ended the
    reading, [ls2] with the collections of [ls1] and the line numbers
    that follow. *)
Theorem reading_in_two_parts version n ls1 ls2 b :
  reading version n (ls1 ++ ls2) b
  = match reading version n ls1 b with
    | (l1, b1, None) => after_line l1 (reading version (n + length ls1) ls2 b1)
    | (l1, b1, Some e) => (l1, b1, Some e)
    end.
Proof.
  revert n b. induction ls1 as [|raw ls1 IH]; intros n b.
  - simpl. rewrite Nat.add_0_r. unfold after_line.
    by destruct (reading _ _ _ _) as [[??]?].
  - simpl. destruct (line_step version n raw b) as [l1 [b1|e1]] eqn:H1; [|done].
    rewrite IH. replace (n + S (length ls1))%nat with (S n + length ls1)%nat by lia.
    destruct (reading version (S n) ls1 b1) as [[l2 b2] [e2|]]; [done|].
    unfold after_line. destruct (reading _ _ _ _) as [[l3 b3] e3].
    by rewrite app_assoc.
Qed.

Lemma rows_hr_grow version n ls b l b' e :
  reading version n ls b = (l, b', e) -> rows_hr b `prefix_of` rows_hr b'.
Proof.
  revert n b l b' e. induction ls as [|raw ls IH]; intros n b l b' e; simpl.
  { by intros [= <- <- <-]. }
  destruct (line_step version n raw b) as [l1 [b1|e1]] eqn:H1.
  2:{ by intros [= <- <- <-]. }
  destruct (reading version (S n) ls b1) as [[l2 b2] e2] eqn:H2.
  intros [= <- <- <-]. etrans; [|by eapply IH].
  destruct (process_line_cases _ _ _ _ _ _ _ H1)
    as [->|[(o & Ho & -> & ->)|[(r & -> & ->)|(r & -> & ->)]]]; try done.
  by apply prefix_app_r.
Qed.

Lemma line_version_irrelevant v1 v2 n raw b l b' :
  line_step v1 n raw b = (l, Ok b') -> rows_hr b' = rows_hr b ->
  line_step v2 n raw b = (l, Ok b').
Proof.
  unfold process_line. intros H Hhr.
  destruct (Str.strip raw) as [|c0 line] eqn:Hline; [done|].
  destruct (Ascii.eqb c0 "{"); [done|].
  destruct (Csv.reader_next _) as [fields|]; [|done].
  cbn [lift bind app] in *.
  destruct fields as [|f0 fs]; [done|].
  destruct (Str.startswith "A" f0 && Nat.eqb _ _); [done|].
  destruct (Str.startswith "A" f0 && negb _); [done|].
  destruct (first_char f0) as [c|]; [|done].
  cbn [lift bind app] in *.
  destruct (Str.isdigit c && Nat.eqb _ _); [|done].
  destruct (if PrimFloat.ltb v1 _ then _ else _) as [r'|]; [|done].
  injection H as <- <-. cbn [rows_hr] in Hhr.
  apply (f_equal length) in Hhr. rewrite length_app in Hhr. simpl in Hhr. lia.
Qed.

(** X10. The version matters to heart rate rows only: a reading that
    went through all the lines and collected no heart rate row gives
    the same messages and collections for every other version. *)
Theorem version_matters_to_heart_rate_rows_only v1 v2 n ls b l b' :
  read_lines json_loads v1 n ls b = (l, b', None) -> rows_hr b' = rows_hr b ->
  read_lines json_loads v2 n ls b = (l, b', None).
Proof.
  revert n b l b'. induction ls as [|raw ls IH]; intros n b l b'; simpl; [done|].
  destruct (line_step v1 n raw b) as [l1 [b1|e1]] eqn:H1.
  2:{ intros [= <- <- ?]. }
  destruct (reading v1 (S n) ls b1) as [[l2 b2] e2] eqn:H2.
  intros [= <- <- ->] Hhr.
  pose proof (rows_hr_grow _ _ _ _ _ _ _ H2) as Hp2.
  assert (Hp1 : rows_hr b `prefix_of` rows_hr b1).
  { destruct (process_line_cases _ _ _ _ _ _ _ H1)
      as [->|[(o & Ho & -> & ->)|[(r & -> & ->)|(r & -> & ->)]]]; try done.
    by apply prefix_app_r. }
  assert (Hb1 : rows_hr b1 = rows_hr b).
  { apply prefix_length in Hp1 as Hl1. apply prefix_length in Hp2 as Hl2.
    rewrite Hhr in Hl2. destruct Hp1 as [k Hk]. rewrite Hk, length_app in Hl2.
    destruct k; [by rewrite app_nil_r in Hk|simpl in Hl2; lia]. }
  rewrite (line_version_irrelevant _ v2 _ _ _ _ _ H1 Hb1).
  rewrite (IH _ _ _ _ H2); [done|]. by rewrite Hb1.
Qed.


End ReadingFacts.


(** ** The metadata mapping *)

Lemma append_inj prefix a b : prefix +:+ a = prefix +:+ b -> a = b.
Proof. induction prefix as [|c p IH]; simpl; [done|]. intros [= H]. by apply IH. Qed.

(** X13. The loops that copy the items of an object into the metadata
    under a prefix: afterwards the key [prefix + k] holds the value the
    object has under [k], and a key that is no [prefix + k] for a key
    [k] of the object holds what it held. *)
Theorem copy_items_lookup prefix items (m : metadata) :
  (forall k, copy_items prefix items m !! (prefix +:+ k)
             = match dict_get k items with
               | Some v => Some (VObj v)
               | None => m !! (prefix +:+ k)
               end)
  /\ (forall key, (forall k, k ∈ items.*1 -> key <> prefix +:+ k) ->
                  copy_items prefix items m !! key = m !! key).
Proof.
  unfold copy_items. split.
  - revert m. induction items as [|[k' v'] items IH]; intros m k; simpl; [done|].
    rewrite IH. destruct (dict_get k items); [done|].
    destruct (String.eqb_spec k k') as [->|Hne].
    + by rewrite lookup_insert_eq.
    + rewrite lookup_insert_ne; [done|]. intros H. by apply append_inj in H.
  - revert m. induction items as [|[k' v'] items IH]; intros m key Hkey; simpl; [done|].
    rewrite IH.
    + rewrite lookup_insert_ne; [done|]. intros <-. apply (Hkey k'); [|done].
      rewrite fmap_cons. apply elem_of_cons. by left.
    + intros k Hk. apply Hkey. rewrite fmap_cons. apply elem_of_cons. by right.
Qed.

(** [update_metadata] is the union in which the new items win. *)
Lemma update_metadata_union (m : metadata) new :
  NoDup new.*1 -> update_metadata m new = list_to_map new ∪ m.
Proof.
  unfold update_metadata. revert m.
  induction new as [|[k v] new IH]; intros m Hnd; simpl.
  - by rewrite (left_id_L ∅ (∪)).
  - apply NoDup_cons in Hnd as [Hk Hnd]. rewrite IH by done.
    apply map_eq. intros i.
    rewrite !lookup_union. destruct (decide (i = k)) as [->|Hne].
    + rewrite lookup_insert_eq.
      assert ((list_to_map new : metadata) !! k = None) as ->
        by (by apply not_elem_of_list_to_map_1).
      rewrite lookup_insert_eq. by destruct (m !! k).
    + rewrite !lookup_insert_ne by (intros ->; done). done.
Qed.

(** X14. [update_metadata] replaces or adds: the result has the new
    items, and the other keys as they were.  It is the union of the two
    mappings in which the new items win, so the same update a second
    time changes nothing. *)
Theorem update_metadata_replaces_or_adds (m : metadata) new :
  NoDup new.*1 ->
  update_metadata m new = list_to_map new ∪ m
  /\ (forall k v, (k, v) ∈ new -> update_metadata m new !! k = Some v)
  /\ (forall k, k ∉ new.*1 -> update_metadata m new !! k = m !! k)
  /\ update_metadata (update_metadata m new) new = update_metadata m new.
Proof.
  intros Hnd. rewrite !update_metadata_union by done.
  split; [done|]. split; [|split].
  - intros k v Hin. apply lookup_union_Some_l. by apply elem_of_list_to_map_1.
  - intros k Hk. apply lookup_union_r. by apply not_elem_of_list_to_map_1.
  - apply map_eq. intros i. rewrite !lookup_union.
    by destruct (list_to_map new !! i), (m !! i).
Qed.

Lemma series_max_timedelta_spec vs d :
  Forall (fun v => exists ns, v = VTimedelta ns) vs -> vs <> [] ->
  series_max vs = Ok d ->
  exists dn, d = VTimedelta dn /\ d ∈ vs
             /\ Forall (fun v => exists ns, v = VTimedelta ns /\ ns <= dn) vs.
Proof.
  intros Hall. revert d. induction Hall as [|v vs [ns ->] Hall IH]; intros d Hne; [done|].
  simpl. destruct vs as [|v' vs'].
  - simpl. intros [= <-]. exists ns. split; [done|]. split; [by left|].
    constructor; [|done]. exists ns. split; [done|lia].
  - destruct (series_max (v' :: vs')) as [m|] eqn:Hm; [|done].
    destruct (IH m ltac:(done) eq_refl) as (mn & -> & Hin & Hle).
    simpl. destruct (ns <? mn) eqn:E; intros [= <-].
    + exists mn. split; [done|]. split; [by right|].
      constructor; [|done]. exists ns. split; [done|lia].
    + exists ns. split; [done|]. split; [by left|].
      constructor; [exists ns; split; [done|lia]|].
      eapply Forall_impl; [exact Hle|]. intros v (k & -> & Hk). exists k. split; [done|lia].
Qed.

Lemma cell_zip_with_insert c (rs : list row) vs :
  length rs = length vs ->
  cell c <$> zip_with (fun (r : row) v => <[c := v]> r) rs vs = vs.
Proof.
  revert vs. induction rs as [|r rs IH]; intros [|v vs] Hlen; try done.
  simpl in *. rewrite cell_insert_eq, IH by lia. done.
Qed.

Section ParserMore.

Context (now : string) (json_loads : string -> result pydict)
  (astype_int : string -> value -> option Z)
  (astype_obj : string -> value -> option value)
  (to_datetime_ms to_datetime_other : value -> result (option Z))
  (timezone : string).

Local Abbreviation get_start := (_get_start_timestamp to_datetime_other timezone).
Local Abbreviation record_start := (record_start_timestamp to_datetime_other timezone).
Local Abbreviation backfill := (_process_absolute_timestamps to_datetime_other timezone).
Local Abbreviation from_list := (_dataframe_from_list astype_int astype_obj).
Local Abbreviation survey :=
  (survey_frame astype_int astype_obj to_datetime_ms to_datetime_other timezone).
Local Abbreviation process_objs :=
  (_process_json_objs now astype_int astype_obj to_datetime_ms to_datetime_other
     timezone).
Local Abbreviation parse :=
  (parse_file now json_loads astype_int astype_obj to_datetime_ms
     to_datetime_other timezone).

(** *** The objects *)

Lemma process_json_obj_inv o (st st' : metadata * list pydict) l :
  process_json_obj o st = (l, Ok st') ->
  st'.2 = st.2 ++ (if is_survey o then [o] else []) /\ keeps_keys st.1 st'.1.
Proof.
  destruct st as [m rs].
  assert (Hcopy : forall p items, keeps_keys m (copy_items p items m))
    by (intros p items k; apply copy_items_is_Some).
  assert (Hcopy2 : forall p items p' items',
             keeps_keys m (copy_items p items (copy_items p' items' m)))
    by (intros p items p' items' k Hk; by do 2 apply copy_items_is_Some).
  assert (Hid : keeps_keys m m) by by intros k.
  unfold process_json_obj, is_survey, dict_has, subscript, items_of.
  cbn [fst snd].
  destruct (dict_get "File" o) as [file_info|] eqn:HF.
  { destruct file_info; try done. cbn [bind lift ret print app andb negb].
    intros [= <- <-]. split; [by rewrite app_nil_r|apply Hcopy]. }
  destruct (dict_get "Status" o) as [status|] eqn:HS.
  { destruct status as [| | | | | |status]; try done. cbn [bind lift ret print app andb negb].
    destruct (dict_get "state" status) as [state|] eqn:Hst; [|done].
    cbn [bind lift ret print app andb negb].
    destruct (eq_str state "START_RECORD") eqn:E1; cbn [bind lift ret print app andb negb].
    { destruct (dict_get "Record" o) as [[]|] eqn:HR; try done.
      cbn [bind lift ret print app andb negb]. intros [= <- <-].
      split; [by rewrite app_nil_r|apply Hcopy2]. }
    destruct (eq_str state "STOP_RECORD") eqn:E2; cbn [bind lift ret print app andb negb].
    { destruct (dict_get "Record" o) as [[]|] eqn:HR; try done.
      cbn [bind lift ret print app andb negb]. intros [= <- <-].
      split; [by rewrite app_nil_r|apply Hcopy2]. }
    intros [= <- <-]. split; [by rewrite app_nil_r|apply Hcopy]. }
  destruct (dict_get "Record" o) as [record|] eqn:HR.
  { destruct record as [| | | | | |record]; try done. cbn [bind lift ret print app andb negb].
    destruct (dict_get "State" record) as [state|] eqn:Hst; [|done].
    cbn [bind lift ret print app andb negb].
    destruct (eq_str state "START_RECORD"); cbn [bind lift ret print app andb negb];
      [intros [= <- <-]; split; [by rewrite app_nil_r|apply Hcopy]|].
    destruct (eq_str state "STOP_RECORD"); cbn [bind lift ret print app andb negb];
      intros [= <- <-]; (split; [by rewrite app_nil_r|(apply Hcopy || apply Hid)]). }
  cbn [bind lift ret print app andb negb].
  destruct (dict_get "question" o); cbn [bind lift ret print app andb negb];
    intros [= <- <-]; (split; [by rewrite ?app_nil_r|apply Hid]).
Qed.

Lemma process_json_list_inv objs (st st' : metadata * list pydict) l :
  process_json_list objs st = (l, Ok st') ->
  st'.2 = st.2 ++ List.filter is_survey objs.*2 /\ keeps_keys st.1 st'.1.
Proof.
  revert st l. induction objs as [|[n o] objs IH]; intros st l; simpl.
  - intros [= <- <-]. rewrite app_nil_r. split; [done|]. by intros k.
  - intros H. apply bind_Ok in H as (l1 & st1 & l2 & H1 & H2 & ->).
    apply process_json_obj_inv in H1 as [R1 K1].
    apply IH in H2 as [R2 K2]. split; [|intros k Hk; by apply K2, K1].
    rewrite R2, R1, <- app_assoc. by destruct (is_survey o).
Qed.

Lemma process_objs_inv objs l meta df :
  process_objs objs = (l, Ok (meta, df)) ->
  exists l1 l2,
    survey (List.filter is_survey objs.*2) meta = (l2, Ok df)
    /\ keeps_keys (meta_baseline now) meta
    /\ l = l1 ++ l2.
Proof.
  unfold _process_json_objs. intros H.
  apply bind_Ok in H as (l1 & st & l2 & H1 & H & ->).
  apply bind_Ok in H as (l3 & df' & l4 & H3 & H & ->).
  apply ret_Ok in H as [[= <- <-] ->].
  assert (Hst : st.2 = List.filter is_survey objs.*2
                /\ keeps_keys (meta_baseline now) st.1).
  { destruct objs as [|o objs].
    - apply bind_Ok in H1 as (? & ? & ? & _ & H1 & _).
      apply ret_Ok in H1 as [<- _]. split; [done|]. by intros k.
    - by apply process_json_list_inv in H1. }
  destruct Hst as [Hrs Hk]. rewrite Hrs in H3.
  exists l1, l3. by rewrite app_nil_r.
Qed.

(** *** The survey frame *)

Lemma survey_frame_inv rows_survey meta l df :
  survey rows_survey meta = (l, Ok df) ->
  columns df = survey_columns
  /\ n_rows df = length rows_survey
  /\ Forall (fun r : row =>
               r !! "timeStamp" = None
               /\ (exists t, cell "time_absolute" r = tz_convert timezone t)
               /\ time_sub (cell "time_absolute" r) (record_start meta)
                  = Ok (cell "time_elapsed" r)) (rows df).
Proof.
  unfold survey_frame. intros H.
  apply bind_Ok in H as (l1 & df3 & l1' & H1 & H & ->).
  apply lift_Ok in H1 as [H1 ->].
  unfold astype in H1. cbn [rows columns set_col] in H1.
  destruct (mapM _ _) as [rows3|] eqn:H3; [|done]. injection H1 as <-.
  apply bind_Ok in H as (l2 & stamps & l2' & H2 & H & ->).
  apply lift_Ok in H2 as [H2 ->]. apply get_col_Ok in H2 as ->. cbn [rows] in H.
  apply bind_Ok in H as (l4 & absolute & l4' & H4 & H & ->).
  apply lift_Ok in H4 as [H4 ->].
  apply bind_Ok in H as (l5 & start & l5' & H5 & H & ->).
  apply bind_Ok in H as (l6 & elapsed & l6' & H6 & H & ->).
  apply lift_Ok in H6 as [H6 ->].
  apply lift_Ok in H as [H ->].
  assert (start = record_start meta) as ->.
  { destruct (get_start_timestamp_returns to_datetime_other timezone meta) as [ls Hs].
    congruence. }
  apply mapM_Ok_Forall2 in H3 as HF3. apply Forall2_length in HF3 as Hlen3.
  rewrite length_zip_with, !length_fmap in Hlen3.
  apply mapM_Ok_Forall2 in H4 as HF4. apply Forall2_length in HF4 as Hlen4.
  rewrite length_fmap in Hlen4.
  apply mapM_Ok_Forall2 in H6 as HF6. apply Forall2_length in HF6 as Hlen6.
  unfold drop_col in H. rewrite bool_decide_eq_true_2 in H by (vm_compute; set_solver).
  injection H as <-. cbn [columns rows].
  split; [by vm_compute|].
  split.
  { unfold n_rows. cbn [rows set_col]. rewrite length_fmap, !length_zip_with. lia. }
  cbn [rows set_col]. apply Forall_forall. intros r Hin.
  apply list_elem_of_fmap in Hin as (r5 & -> & Hin).
  apply list_elem_of_lookup in Hin as [i Hi].
  apply lookup_zip_with_Some in Hi as (r4 & te & -> & Hr4 & Hte).
  apply lookup_zip_with_Some in Hr4 as (r3 & ta & -> & Hr3 & Hta).
  destruct (Forall2_lookup_r _ _ _ _ _ HF6 Hte) as (ta' & Hta' & Hsub).
  assert (ta' = ta) as -> by congruence.
  destruct (Forall2_lookup_r _ _ _ _ _ HF4 Hta) as (ts & Hts & Hconv).
  cbv beta in Hconv.
  split; [by rewrite lookup_delete_eq|].
  assert (Hca : cell "time_absolute"
                  (delete "timeStamp" (<["time_elapsed" := te]> (<["time_absolute" := ta]> r3)))
                = ta).
  { unfold cell. rewrite lookup_delete_ne by done.
    rewrite lookup_insert_ne by done. by rewrite lookup_insert_eq. }
  assert (Hce : cell "time_elapsed"
                  (delete "timeStamp" (<["time_elapsed" := te]> (<["time_absolute" := ta]> r3)))
                = te).
  { unfold cell. rewrite lookup_delete_ne by done. by rewrite lookup_insert_eq. }
  rewrite Hca, Hce. split; [|done].
  destruct (to_datetime_ms ts) as [t|]; [|done]. injection Hconv as <-. by exists t.
Qed.

(** X16. The back-fill of the absolute times keeps the table: when it
    returns, the table has the rows it had, each with its cells as they
    were but for [time_absolute], and the columns it had with
    [time_absolute] for the last one.  A table without the column
    [time_elapsed] makes it raise [KeyError]. *)
Theorem absolute_timestamps_keep_the_table meta df :
  (forall l df',
     backfill meta df = (l, Ok df') ->
     n_rows df' = n_rows df
     /\ columns df' = (if bool_decide ("time_absolute" ∈ columns df)
                       then columns df else columns df ++ ["time_absolute"])
     /\ Forall2 (fun r r' : row =>
                   forall c, c <> "time_absolute" -> cell c r' = cell c r)
                (rows df) (rows df'))
  /\ ("time_elapsed" ∉ columns df ->
      backfill meta df = ([], Raise (KeyError "time_elapsed"))).
Proof.
  split.
  - intros l df' H. pose proof (backfill_rows _ _ _ _ _ _ H) as Hrows.
    split; [unfold n_rows; symmetry; by eapply Forall2_length|].
    split.
    + unfold _process_absolute_timestamps in H.
      apply bind_Ok in H as (? & ? & ? & _ & H & _).
      apply bind_Ok in H as (? & ? & ? & _ & H & _).
      apply bind_Ok in H as (? & ? & ? & _ & H & _).
      apply ret_Ok in H as [<- _]. done.
    + eapply Forall2_impl; [exact Hrows|].
      intros r r' (ta & _ & ->) c Hc. by apply cell_insert_ne.
  - intros Hno. unfold _process_absolute_timestamps, get_col.
    by rewrite bool_decide_eq_false_2.
Qed.

(** *** The returned structure *)

Lemma record_start_of_summary meta df_hr df_accel df_survey d_hr d_accel :
  record_start (update_metadata meta (summary df_hr df_accel df_survey d_hr d_accel))
  = record_start meta.
Proof.
  apply record_start_ext. apply update_metadata_other.
  unfold summary_keys. rewrite !elem_of_cons, elem_of_nil.
  intros [|[|[|[|[|[]]]]]]; discriminate.
Qed.

(** X17. The keys of the returned structure and the baseline of its
    metadata: whenever [parse_file] returns, the structure has the key
    [metadata] and no key but it and the three table keys, and the
    metadata has the keys [Parsed_on], [StudyName] and [StudyInstance],
    whatever the objects of the file have put there. *)
Theorem parse_file_keeps_the_baseline f v log fd :
  parse_file now json_loads astype_int astype_obj to_datetime_ms to_datetime_other
    timezone f v = (log, Ok fd) ->
  exists m,
    fd !! "metadata" = Some (Mapping m)
    /\ Forall (fun k => is_Some (m !! k)) ["Parsed_on"; "StudyName"; "StudyInstance"]
    /\ forall k, is_Some (fd !! k) ->
                 k ∈ ["metadata"; "data_hr"; "data_accel"; "data_survey"].
Proof.
  intros H.
  apply parse_file_inv in H
    as (df_hr0 & df_accel0 & meta & df_survey & df_hr & df_accel & d_hr & d_accel
        & l1 & l2 & l3 & l4 & l5 & _ & _ & H3 & _ & _ & _ & _ & -> & _).
  apply process_objs_inv in H3 as (l6 & l7 & _ & Hk & _).
  eexists. split; [apply file_data_metadata|]. split.
  - assert (Hb : forall k, is_Some (meta_baseline now !! k) ->
                   is_Some (update_metadata meta
                              (summary df_hr df_accel df_survey d_hr d_accel) !! k)).
    { intros k Hin. by apply update_metadata_keeps_keys, Hk. }
    repeat constructor; apply Hb; by eexists.
  - intros k Hin. unfold file_data in Hin. cbn [fold_left fst snd] in Hin.
    rewrite !elem_of_cons.
    destruct (decide (k = "metadata")) as [->|N0]; [by left|].
    destruct (decide (k = "data_hr")) as [->|N1]; [by right; left|].
    destruct (decide (k = "data_accel")) as [->|N2]; [by right; right; left|].
    destruct (decide (k = "data_survey")) as [->|N3]; [by right; right; right; left|].
    exfalso. revert Hin.
    destruct (negb (empty df_hr)), (negb (empty df_accel)), (negb (empty df_survey));
      rewrite ?lookup_insert_ne by done; rewrite lookup_singleton_ne by done;
      by intros [? ?].
Qed.

(** X18. The counts of the summary are counts of what was collected:
    [n_samples_hr] and [n_samples_accel] count the collected rows
    without an empty field, and [n_survey_responses] counts the
    collected objects that have a [question] and none of [File],
    [Status] and [Record]. *)
Theorem summary_counts_what_was_collected f v log fd m :
  parse f v = (log, Ok fd) ->
  fd !! "metadata" = Some (Mapping m) ->
  let b := (read_file json_loads f v).2 in
  let full := fun rs => Z.of_nat (length (List.filter (fun r => negb (has_empty r)) rs)) in
  m !! "n_samples_hr" = Some (VInt (full (rows_hr b)))
  /\ m !! "n_samples_accel" = Some (VInt (full (rows_accel b)))
  /\ m !! "n_survey_responses"
     = Some (VInt (Z.of_nat (length (List.filter is_survey (json_objs b).*2)))).
Proof.
  intros H Hm b full.
  apply parse_file_inv in H
    as (df_hr0 & df_accel0 & meta & df_survey & df_hr & df_accel & d_hr & d_accel
        & l1 & l2 & l3 & l4 & l5 & H1 & H2 & H3 & H4 & H5 & _ & _ & -> & _).
  rewrite file_data_metadata in Hm.
  assert (m = update_metadata meta
                (summary df_hr df_accel df_survey d_hr d_accel)) as ->
    by congruence.
  clear Hm. fold b in H1, H2, H3.
  destruct (read_file_wf json_loads f v) as [Whr Wac]. fold b in Whr, Wac.
  destruct (update_metadata_summary meta df_hr df_accel df_survey d_hr d_accel)
    as (K1 & K2 & K3 & _ & _).
  assert (Hcount : forall rs cols l0 df0 l' df,
             NoDup cols.*1 -> Forall (fun col => is_int_dtype col.2 = true) cols ->
             batch_rows_wf cols rs ->
             from_list rs cols = (l0, Ok df0) -> backfill meta df0 = (l', Ok df) ->
             Z.of_nat (n_rows df) = full rs).
  { intros rs cols l0 df0 l' df Hnd Hint Hwf Hf Hb.
    edestruct from_list_rows as [Hrows _]; [exact Hnd|exact Hint|exact Hwf|exact Hf|].
    apply backfill_rows in Hb. apply Forall2_length in Hb, Hrows.
    unfold full, n_rows. lia. }
  split; [|split].
  - rewrite K1. do 3 f_equal. eapply (Hcount _ cols_hr); try done.
    + apply (bool_decide_unpack _). by vm_compute.
    + repeat constructor.
  - rewrite K2. do 3 f_equal. eapply (Hcount _ cols_accel); try done.
    + apply (bool_decide_unpack _). by vm_compute.
    + repeat constructor.
  - rewrite K3. do 4 f_equal.
    apply process_objs_inv in H3 as (l6 & l7 & H3 & _ & _).
    by apply survey_frame_inv in H3 as (_ & ? & _).
Qed.

(** X19. The survey table of a returned structure has eight columns,
    [timeStamp] not among them, and in each row [time_elapsed] is
    [time_absolute] minus the start of the record read from the
    returned metadata, [time_absolute] being a time in the time zone of
    the parser or not-a-time. *)
Theorem survey_table_times f v log fd m df :
  parse f v = (log, Ok fd) ->
  fd !! "metadata" = Some (Mapping m) ->
  fd !! "data_survey" = Some (Table df) ->
  columns df = survey_columns
  /\ Forall (fun r : row =>
               r !! "timeStamp" = None
               /\ (exists t, cell "time_absolute" r = tz_convert timezone t)
               /\ time_sub (cell "time_absolute" r) (record_start m)
                  = Ok (cell "time_elapsed" r)) (rows df).
Proof.
  intros H Hm Hdf.
  apply parse_file_inv in H
    as (df_hr0 & df_accel0 & meta & df_survey & df_hr & df_accel & d_hr & d_accel
        & l1 & l2 & l3 & l4 & l5 & _ & _ & H3 & _ & _ & _ & _ & -> & _).
  rewrite file_data_metadata in Hm.
  assert (m = update_metadata meta
                (summary df_hr df_accel df_survey d_hr d_accel)) as ->
    by congruence.
  rewrite record_start_of_summary.
  rewrite file_data_survey in Hdf. destruct (empty df_survey); [done|].
  injection Hdf as <-.
  apply process_objs_inv in H3 as (l6 & l7 & H3 & _ & _).
  apply survey_frame_inv in H3 as (Hc & _ & Hrows). done.
Qed.

(** X20. The durations of the summary: for a table of the returned
    structure, the duration in the metadata is the largest
    [time_elapsed] of the table, the [time_elapsed] of one of its rows. *)
Theorem duration_is_the_largest_time_elapsed f v log fd m key dkey df :
  parse f v = (log, Ok fd) ->
  fd !! "metadata" = Some (Mapping m) ->
  (key = "data_hr" /\ dkey = "duration_hr")
  \/ (key = "data_accel" /\ dkey = "duration_accel") ->
  fd !! key = Some (Table df) ->
  exists d,
    m !! dkey = Some (VTimedelta d)
    /\ (exists r, r ∈ rows df /\ cell "time_elapsed" r = VTimedelta d)
    /\ Forall (fun r : row =>
                 exists te, cell "time_elapsed" r = VTimedelta te /\ te <= d) (rows df).
Proof.
  intros H Hm Hkey Hdf.
  apply parse_file_inv in H
    as (df_hr0 & df_accel0 & meta & df_survey & df_hr & df_accel & d_hr & d_accel
        & l1 & l2 & l3 & l4 & l5 & H1 & H2 & _ & H4 & H5 & Hd1 & Hd2 & -> & _).
  rewrite file_data_metadata in Hm.
  assert (m = update_metadata meta
                (summary df_hr df_accel df_survey d_hr d_accel)) as ->
    by congruence.
  clear Hm.
  destruct (update_metadata_summary meta df_hr df_accel df_survey d_hr d_accel)
    as (_ & _ & _ & K4 & K5).
  assert (Hmax : forall rs cols l0 df0 l' df1 d1,
             from_list rs cols = (l0, Ok df0) -> backfill meta df0 = (l', Ok df1) ->
             empty df1 = false ->
             series_max (cell "time_elapsed" <$> rows df1) = Ok d1 ->
             exists d, d1 = VTimedelta d
               /\ (exists r, r ∈ rows df1 /\ cell "time_elapsed" r = VTimedelta d)
               /\ Forall (fun r : row =>
                            exists te, cell "time_elapsed" r = VTimedelta te /\ te <= d)
                         (rows df1)).
  { intros rs cols l0 df0 l' df1 d1 Hf Hb Hne Hs.
    assert (Hall : Forall (fun v => exists ns, v = VTimedelta ns)
                          (cell "time_elapsed" <$> rows df1)).
    { apply Forall_fmap, Forall_forall. intros r Hr.
      edestruct backfilled_row as (te & Hte & _); [exact Hf|exact Hb|exact Hr|].
      by exists te. }
    destruct (series_max_timedelta_spec _ d1 Hall) as (d & -> & Hin & Hle); [|exact Hs|].
    { unfold empty in Hne. by destruct (rows df1). }
    exists d. split; [done|]. split.
    - apply list_elem_of_fmap in Hin as (r & Hr & Hin). by exists r.
    - apply Forall_forall. intros r Hr. rewrite Forall_forall in Hle.
      apply Hle. apply list_elem_of_fmap. by exists r. }
  destruct Hkey as [[-> ->]|[-> ->]].
  - rewrite file_data_hr in Hdf. destruct (empty df_hr) eqn:E; [done|].
    injection Hdf as <-.
    destruct (Hmax _ _ _ _ _ _ _ H1 H4 E Hd1) as (d & -> & Hr & Hle). by exists d.
  - rewrite file_data_accel in Hdf. destruct (empty df_accel) eqn:E; [done|].
    injection Hdf as <-.
    destruct (Hmax _ _ _ _ _ _ _ H2 H5 E Hd2) as (d & -> & Hr & Hle). by exists d.
Qed.

(** X21. A file of which nothing is collected, no row and no object (a
    file that cannot be opened, an empty file, a file of lines that are
    refused), gives the bare structure: the metadata alone, with its
    baseline, counts of zero and durations that are not-a-time.  The
    messages of the reading are followed by the message of no metadata
    and three messages of no start timestamp. *)
Theorem nothing_collected_gives_the_bare_structure f v :
  (read_file json_loads f v).2 = Batches [] [] [] ->
  parse f v
  = ((read_file json_loads f v).1 ++ [NoMetadata; no_start; no_start; no_start],
     Ok {["metadata" := Mapping (bare_metadata now)]}).
Proof.
  intros H. unfold parse_file.
  destruct (read_file json_loads f v) as [l b]. simpl in H. subst b.
  cbn [fst]. unfold bind at 1. f_equal.
Qed.

End ParserMore.

(** ** The selection on a column of one kind *)

Lemma same_kind_trans a b c :
  same_kind a b = true -> same_kind a c = true -> same_kind b c = true.
Proof. by destruct a as [[]| | | | |], b as [[]| | | | |], c as [[]| | | | |]. Qed.

Lemma time_lt_same_kind a b :
  same_kind a b = true -> time_lt a b = Ok (time_ns a <? time_ns b).
Proof. by destruct a as [[]| | | | |], b as [[]| | | | |]. Qed.

Lemma time_le_same_kind a b :
  same_kind a b = true -> time_le a b = Ok (time_ns a <=? time_ns b).
Proof. by destruct a as [[]| | | | |], b as [[]| | | | |]. Qed.

Lemma same_kind_not_na a b : same_kind a b = true -> isna b = false.
Proof. by destruct a as [[]| | | | |], b as [[]| | | | |]. Qed.

Lemma series_max_same_kind t vs :
  vs <> [] -> Forall (fun v => same_kind t v = true) vs ->
  exists m, series_max vs = Ok m /\ m ∈ vs
            /\ Forall (fun v => time_ns v <= time_ns m) vs.
Proof.
  intros Hne Hall. induction Hall as [|v vs Hv Hall IH]; [done|].
  destruct vs as [|v' vs'].
  - exists v. simpl. rewrite (same_kind_not_na _ _ Hv). simpl.
    split; [done|]. split; [by left|]. constructor; [lia|done].
  - destruct (IH ltac:(done)) as (m & Hm & Hin & Hle).
    assert (Hkm : same_kind t m = true) by (rewrite Forall_forall in Hall; by apply Hall).
    cbn [series_max]. cbn [series_max] in Hm. rewrite Hm.
    rewrite (same_kind_not_na _ _ Hv), (same_kind_not_na _ _ Hkm).
    rewrite (time_lt_same_kind v m) by (by eapply same_kind_trans).
    destruct (time_ns v <? time_ns m) eqn:E.
    + exists m. split; [done|]. split; [by right|]. constructor; [lia|done].
    + exists v. split; [done|]. split; [by left|]. constructor; [lia|].
      eapply Forall_impl; [exact Hle|]. intros x Hx. simpl in Hx. lia.
Qed.

Lemma series_min_same_kind t vs :
  vs <> [] -> Forall (fun v => same_kind t v = true) vs ->
  exists m, series_min vs = Ok m /\ m ∈ vs
            /\ Forall (fun v => time_ns m <= time_ns v) vs.
Proof.
  intros Hne Hall. induction Hall as [|v vs Hv Hall IH]; [done|].
  destruct vs as [|v' vs'].
  - exists v. simpl. rewrite (same_kind_not_na _ _ Hv). simpl.
    split; [done|]. split; [by left|]. constructor; [lia|done].
  - destruct (IH ltac:(done)) as (m & Hm & Hin & Hle).
    assert (Hkm : same_kind t m = true) by (rewrite Forall_forall in Hall; by apply Hall).
    cbn [series_min]. cbn [series_min] in Hm. rewrite Hm.
    rewrite (same_kind_not_na _ _ Hv), (same_kind_not_na _ _ Hkm).
    rewrite (time_lt_same_kind m v) by (by eapply same_kind_trans).
    destruct (time_ns m <? time_ns v) eqn:E.
    + exists m. split; [done|]. split; [by right|]. constructor; [lia|done].
    + exists v. split; [done|]. split; [by left|]. constructor; [lia|].
      eapply Forall_impl; [exact Hle|]. intros x Hx. simpl in Hx. lia.
Qed.

Lemma in_window_same_kind t1 t2 v :
  same_kind t1 t2 = true -> same_kind t1 v = true ->
  in_window t1 t2 v = Ok (between t1 t2 v).
Proof.
  intros H12 H1v. unfold in_window, between.
  rewrite (time_le_same_kind t1 v) by done.
  rewrite (time_le_same_kind v t2) by (by eapply same_kind_trans). done.
Qed.

Lemma mapM_in_window t1 t2 vs :
  same_kind t1 t2 = true -> Forall (fun v => same_kind t1 v = true) vs ->
  mapM (in_window t1 t2) vs = Ok (between t1 t2 <$> vs).
Proof.
  intros H12 Hall. apply Forall2_mapM_Ok. apply Forall2_fmap_r.
  apply Forall_Forall2_diag. eapply Forall_impl; [exact Hall|].
  intros v Hv. by apply in_window_same_kind.
Qed.

Lemma loc_mask_filter (f : row -> bool) rs : loc_mask rs (f <$> rs) = List.filter f rs.
Proof. induction rs as [|r rs IH]; csimpl; [done|]. by rewrite IH. Qed.

Lemma filter_id_fmap {A} (f : A -> bool) l :
  length (List.filter id (f <$> l)) = length (List.filter f l).
Proof.
  induction l as [|a l IH]; csimpl; [done|]. unfold id at 1.
  destruct (f a); simpl; by rewrite <- IH.
Qed.

(** The warning of [_select]. *)
Lemma select_rows_same_kind t1 t2 col name df :
  col ∈ columns df -> rows df <> [] -> same_kind t1 t2 = true ->
  Forall (fun r : row => same_kind t1 (cell col r) = true) (rows df) ->
  exists warn,
    select_rows t1 t2 col name df
    = (warn ++ [Samples name (length (rows_between t1 t2 col df))],
       Ok (Frame (columns df) (rows_between t1 t2 col df)))
    /\ (warn = []
        \/ rows_between t1 t2 col df = []
           /\ exists v, warn = [StartOutOfRange v] \/ warn = [EndOutOfRange v]).
Proof.
  intros Hcol Hne H12 Hall.
  set (vs := cell col <$> rows df).
  assert (Hvs : Forall (fun v => same_kind t1 v = true) vs)
    by (by apply Forall_fmap).
  assert (Hvne : vs <> []) by (unfold vs; by destruct (rows df)).
  destruct (series_min_same_kind t1 vs Hvne Hvs) as (mn & Hmn & Hmin & Hmle).
  destruct (series_max_same_kind t1 vs Hvne Hvs) as (mx & Hmx & Hmax & Hxle).
  assert (Hkmn : same_kind t1 mn = true) by (rewrite Forall_forall in Hvs; by apply Hvs).
  assert (Hkmx : same_kind t1 mx = true) by (rewrite Forall_forall in Hvs; by apply Hvs).
  assert (Hempty : forall (P : Prop), (forall v, v ∈ vs -> between t1 t2 v = true -> P -> False) ->
                     P -> rows_between t1 t2 col df = []).
  { intros P HP p. unfold rows_between.
    destruct (List.filter _ _) as [|r rs] eqn:Hf; [done|]. exfalso.
    assert (Hr : In r (List.filter (fun r => between t1 t2 (cell col r)) (rows df)))
      by (rewrite Hf; by left).
    apply filter_In in Hr as [Hr Hb]. apply (HP (cell col r)); [|done|done].
    apply list_elem_of_fmap. exists r. split; [done|]. by apply list_elem_of_In. }
  set (after := time_ns mx <? time_ns t1).
  set (before := time_ns t2 <? time_ns mn).
  exists (if after then [StartOutOfRange mx]
          else if before then [EndOutOfRange mn] else []).
  split.
  - unfold select_rows, get_col. rewrite bool_decide_eq_true_2 by done.
    fold vs. cbn [bind lift app]. rewrite Hmn. cbn [bind lift app]. rewrite Hmx.
    cbn [bind lift app].
    rewrite (time_lt_same_kind mx t1) by (eapply same_kind_trans; [exact Hkmx|];
      by destruct t1 as [[]| | | | |]).
    fold after. cbn [bind lift app].
    rewrite (mapM_in_window t1 t2 vs H12 Hvs).
    assert (Hmask : loc_mask (rows df) (between t1 t2 <$> vs) = rows_between t1 t2 col df).
    { unfold vs. rewrite <- list_fmap_compose. apply loc_mask_filter. }
    assert (Hcount : length (List.filter id (between t1 t2 <$> vs))
                     = length (rows_between t1 t2 col df)).
    { unfold vs. rewrite <- list_fmap_compose. apply filter_id_fmap. }
    destruct after.
    + cbn [bind lift print ret app]. by rewrite Hmask, Hcount.
    + cbn [bind lift app].
      rewrite (time_lt_same_kind t2 mn) by (eapply same_kind_trans; [exact H12|done]).
      fold before. destruct before; cbn [bind lift print ret app];
        by rewrite Hmask, Hcount.
  - destruct after eqn:Ea.
    + right. split; [|by eauto]. apply (Hempty True); [|done].
      intros v Hv Hb _. unfold between in Hb. rewrite Forall_forall in Hxle.
      specialize (Hxle v Hv). simpl in Hxle. unfold after in Ea. lia.
    + destruct before eqn:Eb; [|by left].
      right. split; [|by eauto]. apply (Hempty True); [|done].
      intros v Hv Hb _. unfold between in Hb. rewrite Forall_forall in Hmle.
      specialize (Hmle v Hv). simpl in Hmle. unfold before in Eb. lia.
Qed.

(** ** [select_period] on a table *)

Lemma select_period_frame data ts te d col h df l0 t1 t2 :
  h !! data = Some (ODataFrame df) ->
  window ts te d = (l0, Ok (t1, t2)) ->
  select_period data ts te d col h
  = match select_rows t1 t2 col "(single)" df with
    | (l, Ok df') =>
        (h ++ [ODataFrame df; ODataFrame df'],
         ((l0 ++ [SelectingPeriod t1 t2]) ++ l, Ok (S (length h))))
    | (l, Raise e) =>
        (h ++ [ODataFrame df], ((l0 ++ [SelectingPeriod t1 t2]) ++ l, Raise e))
    end.
Proof.
  intros Hdata Hw. unfold select_period. rewrite Hw, Hdata.
  unfold _select. rewrite Hdata. unfold alloc.
  destruct (select_rows t1 t2 col "(single)" df) as [l [df'|e]]; [|done].
  rewrite <- app_assoc, length_app. simpl. by rewrite Nat.add_1_r.
Qed.

(** X22. [select_period] on a table whose time column and the two
    bounds are of one kind, timestamps or durations: it returns a new
    table with the columns of the table and exactly the rows whose time
    is between the bounds, both bounds included, in their order; the
    count it prints is the number of these rows. *)
Theorem select_period_keeps_the_rows_in_the_window data ts te d col h df l0 t1 t2 :
  h !! data = Some (ODataFrame df) ->
  window ts te d = (l0, Ok (t1, t2)) ->
  col ∈ columns df -> rows df <> [] -> same_kind t1 t2 = true ->
  Forall (fun r : row => same_kind t1 (cell col r) = true) (rows df) ->
  exists warn,
    select_period data ts te d col h
    = (h ++ [ODataFrame df; ODataFrame (Frame (columns df) (rows_between t1 t2 col df))],
       (l0 ++ SelectingPeriod t1 t2 :: warn
           ++ [Samples "(single)" (length (rows_between t1 t2 col df))],
        Ok (S (length h)))).
Proof.
  intros Hdata Hw Hcol Hne H12 Hall.
  destruct (select_rows_same_kind t1 t2 col "(single)" df Hcol Hne H12 Hall)
    as (warn & Hsel & _).
  exists warn. rewrite (select_period_frame _ _ _ _ _ _ _ _ _ _ Hdata Hw), Hsel.
  by rewrite <- app_assoc.
Qed.

(** X23. A warning of [select_period] that the start or the end is out
    of the range of the table means an empty selection: on a table whose
    time column and the bounds are of one kind, when one of the two
    warnings is printed no row is selected. *)
Theorem out_of_range_warning_means_no_row data ts te d col h df l0 t1 t2 h' log res :
  h !! data = Some (ODataFrame df) ->
  window ts te d = (l0, Ok (t1, t2)) ->
  col ∈ columns df -> rows df <> [] -> same_kind t1 t2 = true ->
  Forall (fun r : row => same_kind t1 (cell col r) = true) (rows df) ->
  select_period data ts te d col h = (h', (log, res)) ->
  (exists v, StartOutOfRange v ∈ log \/ EndOutOfRange v ∈ log) ->
  rows_between t1 t2 col df = []
  /\ h' !! S (length h) = Some (ODataFrame (Frame (columns df) [])).
Proof.
  intros Hdata Hw Hcol Hne H12 Hall Hsel [v Hv].
  destruct (select_rows_same_kind t1 t2 col "(single)" df Hcol Hne H12 Hall)
    as (warn & Hrows & Hwarn).
  rewrite (select_period_frame _ _ _ _ _ _ _ _ _ _ Hdata Hw), Hrows in Hsel.
  injection Hsel as <- <- <-.
  assert (Hl0 : forall x, x ∈ l0 -> exists dv, x = IgnoringDuration dv).
  { intros x Hx. unfold window in Hw.
    destruct (truthy ts && truthy te).
    - destruct (truthy d); cbn in Hw; injection Hw as <- _ _.
      + apply list_elem_of_singleton in Hx. by eexists.
      + by apply elem_of_nil in Hx.
    - destruct (truthy ts && truthy d).
      + destruct (time_add _ _); cbn in Hw; [|done]. injection Hw as <- _ _.
        by apply elem_of_nil in Hx.
      + destruct (truthy te && truthy d); [|done].
        destruct (time_sub _ _); cbn in Hw; [|done]. injection Hw as <- _ _.
        by apply elem_of_nil in Hx. }
  assert (Hempty : rows_between t1 t2 col df = []).
  { destruct Hwarn as [->|[He _]]; [|done]. exfalso.
    rewrite app_nil_l in Hv.
    destruct Hv as [Hv|Hv];
      rewrite !elem_of_app, !list_elem_of_singleton in Hv;
      destruct Hv as [[Hv|Hv]|Hv]; try done;
      apply Hl0 in Hv as [dv Hv]; done. }
  split; [done|]. rewrite Hempty.
  rewrite lookup_app_r by lia. by rewrite Nat.sub_succ_l, Nat.sub_diag by lia.
Qed.

(** X24. [select_period] on a table that has not the time column raises
    [KeyError] with the name of the column, after the message of the
    period; the table it was given is as it was. *)
Theorem select_period_without_the_time_column data ts te d col h df l0 t1 t2 :
  h !! data = Some (ODataFrame df) ->
  window ts te d = (l0, Ok (t1, t2)) ->
  col ∉ columns df ->
  select_period data ts te d col h
  = (h ++ [ODataFrame df], (l0 ++ [SelectingPeriod t1 t2], Raise (KeyError col))).
Proof.
  intros Hdata Hw Hcol. rewrite (select_period_frame _ _ _ _ _ _ _ _ _ _ Hdata Hw).
  unfold select_rows, get_col. rewrite bool_decide_eq_false_2 by done.
  cbn [bind lift]. by rewrite app_nil_r.
Qed.

Lemma window_values ts te d l0 t1 t2 :
  window ts te d = (l0, Ok (t1, t2)) ->
  (same_kind t1 t1 = true) /\ (same_kind t2 t2 = true).
Proof.
  unfold window.
  destruct (truthy ts && truthy te) eqn:E1.
  { apply andb_true_iff in E1 as [Hs He].
    destruct (truthy d); cbn; intros [= _ <- <-];
      destruct ts as [[]|], te as [[]|]; done. }
  destruct (truthy ts && truthy d) eqn:E2.
  { apply andb_true_iff in E2 as [Hs Hd].
    destruct ts as [[]|], d as [[]|]; try done; cbn;
      unfold checked; destruct (in_time_range _); cbn; try done;
      by intros [= _ <- <-]. }
  destruct (truthy te && truthy d) eqn:E3; [|done].
  apply andb_true_iff in E3 as [He Hd].
  destruct te as [[]|], d as [[]|]; try done; cbn;
    unfold checked; destruct (in_time_range _); cbn; try done;
    by intros [= _ <- <-].
Qed.

Lemma time_lt_other_kind k a b :
  same_kind k a = true -> same_kind b b = true -> same_kind k b = false ->
  time_lt a b = Raise TypeError /\ time_lt b a = Raise TypeError
  /\ time_le a b = Raise TypeError /\ time_le b a = Raise TypeError.
Proof. by destruct k as [[]| | | | |], a as [[]| | | | |], b as [[]| | | | |]. Qed.

(** X25. [select_period] refuses bounds of another kind than the time
    column: on a table whose times are timestamps a bound that is a
    duration makes it raise [TypeError], and so does a timestamp on a
    column of durations (the default column is [time_absolute], so
    durations need [time_column_name = "time_elapsed"]). *)
Theorem select_period_refuses_bounds_of_another_kind
  data ts te d col h df l0 t1 t2 k :
  h !! data = Some (ODataFrame df) ->
  window ts te d = (l0, Ok (t1, t2)) ->
  col ∈ columns df -> rows df <> [] ->
  Forall (fun r : row => same_kind k (cell col r) = true) (rows df) ->
  same_kind k t1 && same_kind k t2 = false ->
  exists log, select_period data ts te d col h
              = (h ++ [ODataFrame df], (log, Raise TypeError)).
Proof.
  intros Hdata Hw Hcol Hne Hall Hk.
  destruct (window_values _ _ _ _ _ _ Hw) as [V1 V2].
  rewrite (select_period_frame _ _ _ _ _ _ _ _ _ _ Hdata Hw).
  set (vs := cell col <$> rows df).
  assert (Hvs : Forall (fun v => same_kind k v = true) vs) by (by apply Forall_fmap).
  assert (Hvne : vs <> []) by (unfold vs; by destruct (rows df)).
  destruct (series_min_same_kind k vs Hvne Hvs) as (mn & Hmn & Hmin & _).
  destruct (series_max_same_kind k vs Hvne Hvs) as (mx & Hmx & Hmax & _).
  assert (Hkmn : same_kind k mn = true) by (rewrite Forall_forall in Hvs; by apply Hvs).
  assert (Hkmx : same_kind k mx = true) by (rewrite Forall_forall in Hvs; by apply Hvs).
  unfold select_rows, get_col. rewrite bool_decide_eq_true_2 by done.
  fold vs. cbn [bind lift app]. rewrite Hmn. cbn [bind lift app]. rewrite Hmx.
  cbn [bind lift app].
  destruct (same_kind k t1) eqn:K1.
  - cbn [andb] in Hk.
    rewrite (time_lt_same_kind mx t1) by (by apply (same_kind_trans k)).
    assert (Hmask : mapM (in_window t1 t2) vs = Raise TypeError).
    { destruct vs as [|v vs']; [done|]. apply Forall_cons in Hvs as [Hv _].
      cbn [mapM]. unfold in_window.
      rewrite (time_le_same_kind t1 v) by (by apply (same_kind_trans k)).
      destruct (time_lt_other_kind k v t2 Hv V2 Hk) as (_ & _ & -> & _). done. }
    destruct (time_ns mx <? time_ns t1).
    + cbn [bind lift print app]. rewrite Hmask. by eexists.
    + cbn [bind lift app].
      destruct (time_lt_other_kind k mn t2 Hkmn V2 Hk) as (_ & -> & _). by eexists.
  - destruct (time_lt_other_kind k mx t1 Hkmx V1 K1) as (-> & _). by eexists.
Qed.

(** ** The window *)

(** X26. [select_period] needs two of its three time arguments to be
    true: with fewer than two, an argument that is [None] or a duration
    of zero not counting, it raises [ValueError], having printed nothing
    and created nothing. *)
Theorem select_period_needs_two_true_arguments data ts te d col h :
  (count_true [truthy ts; truthy te; truthy d] < 2)%nat ->
  select_period data ts te d col h = (h, ([], Raise ValueError)).
Proof.
  intros H. unfold select_period, window.
  destruct (truthy ts), (truthy te), (truthy d);
    try (exfalso; cbn in H; lia); reflexivity.
Qed.

(** X27. With a start and an end that are true (neither is a duration
    of zero), the duration takes no part in the selection, whatever it
    is: [select_period] selects, returns and prints what it does without
    a duration, after the warning that it ignores the duration when the
    duration is true, and with no warning for a duration that is [None]
    or zero. *)
Theorem select_period_ignores_the_duration data ts te d col h :
  truthy (Some ts) = true -> truthy (Some te) = true ->
  select_period data (Some ts) (Some te) d col h
  = (let '(h', (log, res)) := select_period data (Some ts) (Some te) None col h in
     (h', ((if truthy d then [IgnoringDuration (arg_value d)] else []) ++ log, res))).
Proof.
  intros Hs He. unfold select_period, window. rewrite Hs, He.
  destruct (truthy d); cbn [andb truthy bind print ret app arg_value];
    (destruct (h !! data) as [[df|items|m]|]; try done;
     [by destruct (_select _ _ _ _ _ _) as [h' [l' r]]
     |by destruct (select_items _ _ _ _ _) as [h1 [l' [out|e]]]]).
Qed.

(** X28. The three ways to give a window agree: for a start [T], a
    duration [D] and the end [E = T + D], none of them a duration of
    zero, the start with the duration, the end with the duration, and
    the start with the end select the same. *)
Theorem select_period_three_ways data T D E col h :
  time_add (value_of T) (value_of D) = Ok (value_of E) ->
  time_sub (value_of E) (value_of D) = Ok (value_of T) ->
  truthy (Some T) = true -> truthy (Some D) = true -> truthy (Some E) = true ->
  select_period data (Some T) None (Some D) col h
  = select_period data (Some T) (Some E) None col h
  /\ select_period data None (Some E) (Some D) col h
     = select_period data (Some T) (Some E) None col h.
Proof.
  intros Hadd Hsub HT HD HE. unfold select_period, window.
  rewrite HT, HD, HE. cbn [andb truthy arg_value bind lift ret app].
  by rewrite Hadd, Hsub.
Qed.

(** ** [select_period] on a bundle *)

Lemma select_items_exact t1 t2 col items : forall h0 h,
  h0 `prefix_of` h -> same_kind t1 t2 = true ->
  Forall (fun kv : string * nat => entry_timed_by t1 col h0 kv.2) items ->
  exists h' log out,
    select_items t1 t2 col items h = (h', (log, Ok out))
    /\ h `prefix_of` h'
    /\ Forall2 (fun kv kv' : string * nat =>
                  kv'.1 = kv.1 /\ selection_of t1 t2 col h0 h' kv.2 kv'.2) items out.
Proof.
  induction items as [|[k v] items IH]; intros h0 h Hpre H12 Hall.
  { exists h, [], []. by repeat split. }
  apply Forall_cons in Hall as [Hv Hall]. cbn [snd] in Hv.
  unfold entry_timed_by in Hv. cbn [select_items].
  destruct (h0 !! v) as [o|] eqn:Ho; [|done].
  pose proof (prefix_lookup_Some _ _ _ _ Ho Hpre) as Hh.
  assert (Hstep : exists h1 l1 v', _select t1 t2 col k v h = (h1, (l1, Ok v'))
                    /\ h `prefix_of` h1
                    /\ forall h', h1 `prefix_of` h' -> selection_of t1 t2 col h0 h' v v').
  { unfold _select, selection_of. rewrite Hh, Ho. destruct o as [df|its|m].
    - destruct Hv as (Hcol & Hne & Hkind).
      destruct (select_rows_same_kind t1 t2 col k df Hcol Hne H12 Hkind)
        as (warn & Hsel & _).
      unfold alloc. rewrite Hsel. eexists _, _, _. split; [reflexivity|].
      split; [rewrite <- app_assoc; by apply prefix_app_r|].
      intros h' Hp. eapply prefix_lookup_Some; [|exact Hp].
      rewrite lookup_app_r by (rewrite length_app; simpl; lia).
      rewrite length_app. simpl.
      by replace (length h + 1 - (length h + 1))%nat with 0%nat by lia.
    - by exists h, [], v.
    - by exists h, [], v. }
  destruct Hstep as (h1 & l1 & v' & Hsel & Hp1 & Hv').
  rewrite Hsel.
  destruct (IH h0 h1 ltac:(by etrans) H12 Hall) as (h' & l2 & out & Hitems & Hp2 & Hout).
  rewrite Hitems. exists h', (l1 ++ l2), ((k, v') :: out).
  split; [done|]. split; [by etrans|].
  constructor; [|done]. split; [done|]. by apply Hv'.
Qed.

(** X29. [select_period] on a bundle selects in each of its tables: for
    a bundle whose tables have rows and times of the kind of the bounds
    in the time column, it returns a new bundle with the keys of the
    bundle, in which a table is the table of its rows in the window and
    any other entry, the metadata, is the entry of the bundle itself. *)
Theorem select_period_on_a_bundle data ts te d col h items l0 t1 t2 :
  h !! data = Some (OFileData items) ->
  window ts te d = (l0, Ok (t1, t2)) -> same_kind t1 t2 = true ->
  Forall (fun kv : string * nat => entry_timed_by t1 col h kv.2) items ->
  exists h' log out r,
    select_period data ts te d col h = (h', (log, Ok r))
    /\ h' !! r = Some (OFileData out)
    /\ Forall2 (fun kv kv' : string * nat =>
                  kv'.1 = kv.1 /\ selection_of t1 t2 col h h' kv.2 kv'.2) items out.
Proof.
  intros Hdata Hw H12 Hall. unfold select_period. rewrite Hw, Hdata.
  destruct (select_items_exact t1 t2 col items h h ltac:(done) H12 Hall)
    as (h1 & l1 & out & Hitems & Hp & Hout).
  rewrite Hitems. unfold alloc.
  exists (h1 ++ [OFileData out]), ((l0 ++ [SelectingPeriod t1 t2]) ++ l1), out, (length h1).
  split; [done|]. split.
  - rewrite lookup_app_r by lia. by rewrite Nat.sub_diag.
  - eapply Forall2_impl; [exact Hout|]. intros [k v] [k' v'] [Hk Hs].
    split; [done|]. unfold selection_of in *. cbn [snd] in *.
    destruct (h !! v) as [[df| |]|]; try done.
    by apply lookup_app_l_Some.
Qed.

(** * The properties on examples *)

(** X1 on a line of two spaces before a heart rate row. *)
Lemma blank_line_is_passed_over_witness :
  read_lines Json.loads 0.2 0 ["  " +:+ newline; hr_line] no_batches
  = read_lines Json.loads 0.2 1 [hr_line] no_batches.
Proof. apply (blank_line_is_passed_over Json.loads). repeat constructor. Defined.

(** X2 on an object that is not closed, before a heart rate row. *)
Lemma json_decode_error_is_local_witness :
  read_lines Json.loads 0.2 0 [Json.text "{'foo': 1"; hr_line] no_batches
  = after_line [ErrorReadingLine 0] (read_lines Json.loads 0.2 1 [hr_line] no_batches).
Proof.
  apply (json_decode_error_is_local Json.loads 0.2 0 _ (Json.text "'foo': 1") _ _
           JSONDecodeError); vm_compute; reflexivity.
Defined.

(** X3 on a heart rate line with its line end. *)
Lemma plain_hr_line_is_collected_witness :
  Lib.process_line 0.2 0 (hr_line +:+ newline) no_batches
  = ([], Ok (Batches [] [PStr <$> ["5000"; "72"; "95"; "1000"; "2000"]] [])).
Proof.
  apply (plain_hr_line_is_collected Json.loads 0.2 0 _ "5" "000" ["72"; "95"; "1000"; "2000"]
           no_batches);
    [vm_compute; reflexivity | repeat constructor | reflexivity | reflexivity
    | vm_compute; reflexivity].
Defined.

(** X4 on an accelerometer line with a sentinel at both ends of its first field. *)
Lemma plain_accel_line_is_collected_witness :
  Lib.process_line 0.1 0 ("A5000A,1,2,3,4,5" +:+ newline) no_batches
  = ([], Ok (Batches [] [] [PStr <$> ["5000"; "1"; "2"; "3"; "4"; "5"]])).
Proof.
  apply (plain_accel_line_is_collected Json.loads 0.1 0 _ [] "5000" ["A"%char] "A5000A"
           ["1"; "2"; "3"; "4"; "5"] no_batches);
    [reflexivity | constructor | repeat constructor | discriminate | discriminate
    | vm_compute; reflexivity | repeat constructor | reflexivity].
Defined.

(** X5 on a line of one word. *)
Lemma rejected_line_costs_a_message_witness :
  read_lines Json.loads 0.2 0 ["hello"; hr_line] no_batches
  = after_line [UnknownData [PStr "hello"]]
      (read_lines Json.loads 0.2 1 [hr_line] no_batches).
Proof.
  destruct (rejected_line_costs_a_message Json.loads 0.2 0 "hello" [hr_line] "h" "ello" []
              no_batches) as (_ & _ & H);
    [vm_compute; reflexivity | repeat constructor | ].
  apply H; [discriminate | discriminate | reflexivity].
Defined.

(** X6 on two objects, on the lines 0 and 3. *)
Lemma json_objs_are_keyed_by_line_witness :
  exists new,
    json_objs mixed_reading.1.2 = [] ++ new
    /\ StronglySorted lt new.*1
    /\ Forall (fun ko : nat * pydict =>
                 (0 <= ko.1)%nat
                 /\ exists raw_line, mixed_lines !! (ko.1 - 0)%nat = Some raw_line
                                     /\ Json.loads (Str.strip raw_line) = Ok ko.2) new.
Proof.
  apply (json_objs_are_keyed_by_line Json.loads 0.2 0 mixed_lines no_batches
           mixed_reading.1.1 mixed_reading.1.2 mixed_reading.2).
  vm_compute. reflexivity.
Defined.

(** X7 on the same four lines. *)
Lemma reading_only_appends_witness :
  [] `prefix_of` json_objs mixed_reading.1.2
  /\ [] `prefix_of` rows_hr mixed_reading.1.2
  /\ [] `prefix_of` rows_accel mixed_reading.1.2
  /\ (length (json_objs mixed_reading.1.2) + length (rows_hr mixed_reading.1.2)
      + length (rows_accel mixed_reading.1.2)
      <= 0 + 0 + 0 + length mixed_lines)%nat.
Proof.
  apply (reading_only_appends Json.loads 0.2 0 mixed_lines no_batches
           mixed_reading.1.1 mixed_reading.1.2 mixed_reading.2).
  vm_compute. reflexivity.
Defined.

(** X10 on an accelerometer row and a word, read under 0.1 and under 0.2. *)
Lemma version_matters_to_heart_rate_rows_only_witness :
  read_lines Json.loads 0.2 0 ["A5000,1,2,3,4,5"; "hello"] no_batches
  = ([UnknownData [PStr "hello"]],
     Batches [] [] [PStr <$> ["5000"; "1"; "2"; "3"; "4"; "5"]], None).
Proof.
  apply (version_matters_to_heart_rate_rows_only Json.loads 0.1 0.2);
    [vm_compute; reflexivity | reflexivity].
Defined.



(** X14 on a key that is replaced and a key that is added. *)
Lemma update_metadata_replaces_or_adds_witness :
  let m : metadata := {["StudyName" := VStr "NA"]} in
  let new := [("StudyName", VStr "S"); ("n_samples_hr", VInt 2)] in
  update_metadata m new = list_to_map new ∪ m
  /\ (forall k v, (k, v) ∈ new -> update_metadata m new !! k = Some v)
  /\ (forall k, k ∉ new.*1 -> update_metadata m new !! k = m !! k)
  /\ update_metadata (update_metadata m new) new = update_metadata m new.
Proof.
  apply update_metadata_replaces_or_adds.
  apply (bool_decide_unpack _). vm_compute. reflexivity.
Defined.

Local Abbreviation lib_thm T :=
  (T Lib.now Json.loads Lib.astype_int Lib.astype_obj Lib.to_datetime_ms
     Lib.to_datetime_other "UTC") (only parsing).

(** X17 on the file with a survey response. *)
Lemma parse_file_keeps_the_baseline_witness :
  exists m,
    structure_of survey_parse !! "metadata" = Some (Mapping m)
    /\ Forall (fun k => is_Some (m !! k)) ["Parsed_on"; "StudyName"; "StudyInstance"]
    /\ forall k, is_Some (structure_of survey_parse !! k) ->
                 k ∈ ["metadata"; "data_hr"; "data_accel"; "data_survey"].
Proof.
  apply (lib_thm parse_file_keeps_the_baseline survey_scenario 0.2 survey_parse.1).
  vm_compute. reflexivity.
Defined.

(** X18 on the file with a survey response: two of the three heart rate rows are whole. *)
Lemma summary_counts_what_was_collected_witness :
  let m := metadata_of (structure_of survey_parse) in
  m !! "n_samples_hr" = Some (VInt 2)
  /\ m !! "n_samples_accel" = Some (VInt 1)
  /\ m !! "n_survey_responses" = Some (VInt 1).
Proof.
  apply (lib_thm summary_counts_what_was_collected survey_scenario 0.2 survey_parse.1
           (structure_of survey_parse));
    vm_compute; reflexivity.
Defined.

(** X19 on the file with a survey response. *)
Lemma survey_table_times_witness :
  let fd := structure_of survey_parse in
  let df := table_of "data_survey" fd in
  columns df = survey_columns
  /\ Forall (fun r : row =>
               r !! "timeStamp" = None
               /\ (exists t, cell "time_absolute" r = tz_convert "UTC" t)
               /\ time_sub (cell "time_absolute" r)
                    (record_start_timestamp Lib.to_datetime_other "UTC" (metadata_of fd))
                  = Ok (cell "time_elapsed" r)) (rows df).
Proof.
  apply (lib_thm survey_table_times survey_scenario 0.2 survey_parse.1
           (structure_of survey_parse));
    vm_compute; reflexivity.
Defined.

(** X20 on the heart rate table of the file with a survey response. *)
Lemma duration_is_the_largest_time_elapsed_witness :
  let fd := structure_of survey_parse in
  exists d,
    metadata_of fd !! "duration_hr" = Some (VTimedelta d)
    /\ (exists r, r ∈ rows (table_of "data_hr" fd)
                  /\ cell "time_elapsed" r = VTimedelta d)
    /\ Forall (fun r : row =>
                 exists te, cell "time_elapsed" r = VTimedelta te /\ te <= d)
              (rows (table_of "data_hr" fd)).
Proof.
  apply (lib_thm duration_is_the_largest_time_elapsed survey_scenario 0.2 survey_parse.1
           (structure_of survey_parse) _ "data_hr");
    [vm_compute; reflexivity | vm_compute; reflexivity | by left | vm_compute; reflexivity].
Defined.

(** X21 on a file of one word, and a file that is not there. *)
Lemma nothing_collected_gives_the_bare_structure_witness :
  Lib.parse_file "UTC" (Lines ["hello"] None) 0.2
  = ([Reading; UnknownData [PStr "hello"]; NoMetadata; no_start; no_start; no_start],
     Ok {["metadata" := Mapping (bare_metadata Lib.now)]})
  /\ Lib.parse_file "UTC" (Unreadable FileNotFoundError) 0.2
     = ([FileNotFound; NoMetadata; no_start; no_start; no_start],
        Ok {["metadata" := Mapping (bare_metadata Lib.now)]}).
Proof.
  split.
  - apply (lib_thm nothing_collected_gives_the_bare_structure (Lines ["hello"] None) 0.2).
    vm_compute. reflexivity.
  - apply (lib_thm nothing_collected_gives_the_bare_structure
             (Unreadable FileNotFoundError) 0.2).
    vm_compute. reflexivity.
Defined.

(** X22 on the table of two samples: the sample at five seconds is between one and six. *)
Lemma select_period_keeps_the_rows_in_the_window_witness :
  exists warn,
    select_period 1 (Some (seconds 1)) (Some (seconds 6)) None "time_elapsed" bundle_heap
    = (bundle_heap
         ++ [ODataFrame two_samples;
             ODataFrame (Frame (columns two_samples) [sample 5000000000])],
       ([] ++ SelectingPeriod (VTimedelta 1000000000) (VTimedelta 6000000000)
           :: warn ++ [Samples "(single)" 1],
        Ok 4%nat)).
Proof.
  apply (select_period_keeps_the_rows_in_the_window 1 (Some (seconds 1)) (Some (seconds 6))
           None "time_elapsed" bundle_heap two_samples []
           (VTimedelta 1000000000) (VTimedelta 6000000000));
    [reflexivity | reflexivity | by apply (bool_decide_unpack _) | discriminate
    | reflexivity | repeat constructor].
Defined.

(** X23 on the table of two samples and a window that starts after its last sample. *)
Lemma out_of_range_warning_means_no_row_witness :
  rows_between (VTimedelta 7000000000) (VTimedelta 9000000000) "time_elapsed" two_samples
  = []
  /\ (bundle_heap ++ [ODataFrame two_samples; ODataFrame (Frame (columns two_samples) [])])
       !! 4%nat
     = Some (ODataFrame (Frame (columns two_samples) [])).
Proof.
  apply (out_of_range_warning_means_no_row 1 (Some (seconds 7)) (Some (seconds 9))
           None "time_elapsed" bundle_heap two_samples []
           (VTimedelta 7000000000) (VTimedelta 9000000000)
           (bundle_heap ++ [ODataFrame two_samples;
                            ODataFrame (Frame (columns two_samples) [])])
           [SelectingPeriod (VTimedelta 7000000000) (VTimedelta 9000000000);
            StartOutOfRange (VTimedelta 5000000000); Samples "(single)" 0]
           (Ok 4%nat));
    [reflexivity | reflexivity | by apply (bool_decide_unpack _) | discriminate
    | reflexivity | repeat constructor | reflexivity | ].
  exists (VTimedelta 5000000000). left. apply elem_of_cons. right. apply elem_of_cons. by left.
Defined.

(** X24 on a column the table of two samples does not have. *)
Lemma select_period_without_the_time_column_witness :
  select_period 1 (Some (seconds 1)) (Some (seconds 6)) None "time" bundle_heap
  = (bundle_heap ++ [ODataFrame two_samples],
     ([] ++ [SelectingPeriod (VTimedelta 1000000000) (VTimedelta 6000000000)],
      Raise (KeyError "time"))).
Proof.
  apply (select_period_without_the_time_column 1 (Some (seconds 1)) (Some (seconds 6))
           None "time" bundle_heap two_samples []);
    [reflexivity | reflexivity | ].
  apply (bool_decide_unpack _). reflexivity.
Defined.

(** X25 on the table of two samples: durations for bounds and the column of the timestamps. *)
Lemma select_period_refuses_bounds_of_another_kind_witness :
  exists log,
    select_period 1 (Some (seconds 1)) (Some (seconds 6)) None "time_absolute" bundle_heap
    = (bundle_heap ++ [ODataFrame two_samples], (log, Raise TypeError)).
Proof.
  apply (select_period_refuses_bounds_of_another_kind 1 (Some (seconds 1))
           (Some (seconds 6)) None "time_absolute" bundle_heap two_samples []
           (VTimedelta 1000000000) (VTimedelta 6000000000) (VTimestamp 0 "UTC"));
    [reflexivity | reflexivity | by apply (bool_decide_unpack _) | discriminate
    | repeat constructor | reflexivity].
Defined.

(** X26 on the table of two samples, with the three arguments given
    and two of them zero. *)
Lemma select_period_needs_two_true_arguments_witness :
  select_period 1 (Some (seconds 0)) (Some (seconds 5)) (Some (seconds 0))
    "time_elapsed" bundle_heap
  = (bundle_heap, ([], Raise ValueError)).
Proof. apply select_period_needs_two_true_arguments. vm_compute. lia. Defined.

(** X27 on the bundle, with a duration of five seconds and with a
    duration of zero. *)
Lemma select_period_ignores_the_duration_witness :
  let T := Timestamp t0 "UTC" in
  let E := Timestamp (t0 + 1000000000) "UTC" in
  select_period 2 (Some T) (Some E) (Some (seconds 5)) "time_absolute" bundle_heap
  = (let '(h', (log, res)) :=
       select_period 2 (Some T) (Some E) None "time_absolute" bundle_heap in
     (h', (IgnoringDuration (VTimedelta 5000000000) :: log, res)))
  /\ select_period 2 (Some T) (Some E) (Some (seconds 0)) "time_absolute" bundle_heap
     = select_period 2 (Some T) (Some E) None "time_absolute" bundle_heap.
Proof.
  split.
  - by apply select_period_ignores_the_duration.
  - rewrite select_period_ignores_the_duration by done.
    by destruct (select_period _ _ _ _ _ _) as [h' [log res]].
Defined.

(** X28 on the bundle: one second, five seconds, six seconds. *)
Lemma select_period_three_ways_witness :
  select_period 2 (Some (seconds 1)) None (Some (seconds 5)) "time_elapsed" bundle_heap
  = select_period 2 (Some (seconds 1)) (Some (seconds 6)) None "time_elapsed" bundle_heap
  /\ select_period 2 None (Some (seconds 6)) (Some (seconds 5)) "time_elapsed" bundle_heap
     = select_period 2 (Some (seconds 1)) (Some (seconds 6)) None "time_elapsed"
         bundle_heap.
Proof. by apply select_period_three_ways. Defined.

(** X29 on the bundle of the metadata and the table of two samples. *)
Lemma select_period_on_a_bundle_witness :
  exists h' log out r,
    select_period 2 (Some (seconds 1)) (Some (seconds 6)) None "time_elapsed" bundle_heap
    = (h', (log, Ok r))
    /\ h' !! r = Some (OFileData out)
    /\ Forall2 (fun kv kv' : string * nat =>
                  kv'.1 = kv.1
                  /\ selection_of (VTimedelta 1000000000) (VTimedelta 6000000000)
                       "time_elapsed" bundle_heap h' kv.2 kv'.2)
               [("metadata", 0%nat); ("data_hr", 1%nat)] out.
Proof.
  apply (select_period_on_a_bundle 2 (Some (seconds 1)) (Some (seconds 6)) None
           "time_elapsed" bundle_heap _ []);
    [reflexivity | reflexivity | reflexivity | ].
  repeat constructor. by apply (bool_decide_unpack _).
Defined.
